(** * Course-materials RAG backend: tool layer and generation loop

    A shallow embedding of [backend/search_tools.py] and
    [backend/ai_generator.py], followed by the properties of the tool
    registry, the two tools and the multi-round tool-calling loop.

    Conventions of the embedding.
    - A Python method that mutates [self] takes the object and returns the
      updated object next to its result.
    - A call that may raise returns a [pyresult].
    - Calls to the search backend that matter for counting are logged.
    - Text is [string]; [str(n)] of an integer is stdpp's [pretty]. *)

From Stdlib Require Import Ascii.
From stdpp Require Import base strings list gmap pretty.

(* ================================================================== *)
(** * Python preliminaries *)
(* ================================================================== *)

(** The characters that cannot be typed inside a literal. *)
Definition nl : string := String "010"%char "".
Definition dq : string := String "034"%char "".

(** An exception object: its class and the text [str(e)] yields. *)
Record exception := Exc { exc_class : string; exc_str : string }.

(** Outcome of a call that either returns or raises. *)
Inductive pyresult (A : Type) : Type :=
  | Return (a : A)
  | Raise (e : exception).
Arguments Return {A} a.
Arguments Raise {A} e.

(** Python's truth protocol for the values tested by [if x:] and [not x]. *)
Class Truthy (A : Type) := truthy : A → bool.

#[export] Instance truthy_string : Truthy string :=
  λ s, match s with "" => false | String _ _ => true end.
#[export] Instance truthy_Z : Truthy Z :=
  λ z, match z with 0%Z => false | _ => true end.
#[export] Instance truthy_list {A} : Truthy (list A) :=
  λ l, match l with [] => false | _ :: _ => true end.
#[export] Instance truthy_option {A} `{Truthy A} : Truthy (option A) :=
  λ o, match o with None => false | Some a => truthy a end.
#[export] Instance truthy_gmap {A} : Truthy (gmap string A) :=
  λ m, bool_decide (m ≠ ∅).

(** [sep.join(parts)] *)
Definition join (sep : string) (parts : list string) : string :=
  String.concat sep parts.

(** [sub in s] for text, as a proposition. *)
Definition contains (sub s : string) : Prop :=
  ∃ pre post, s = pre +:+ sub +:+ post.

(** An insertion-ordered [dict]: keys are unique, assignment to a present key
    keeps its position, assignment to a new key appends. *)
Module PyDict.
Section Dict.
Context {K V : Type} `{EqDecision K}.

Definition t := list (K * V).

Definition empty : t := [].

Fixpoint get (k : K) (d : t) : option V :=
  match d with
  | [] => None
  | (k', v) :: d' => if decide (k = k') then Some v else get k d'
  end.

Fixpoint set (k : K) (v : V) (d : t) : t :=
  match d with
  | [] => [(k, v)]
  | (k', v') :: d' =>
      if decide (k = k') then (k, v) :: d' else (k', v') :: set k v d'
  end.

Definition keys (d : t) : list K := d.*1.
Definition values (d : t) : list V := d.*2.
Definition mem (k : K) (d : t) : bool := bool_decide (k ∈ keys d).
End Dict.
Arguments t : clear implicits.
End PyDict.

(* ================================================================== *)
(** * The search backend ([vector_store.py]) at its interface *)
(* ================================================================== *)

(** Metadata of one indexed chunk: the two keys the search tool reads, with
    the types the index stores; [None] is an absent key. *)
Record ChunkMeta := {
  course_title : option string;
  lesson_number : option Z;
}.

(** Modelled from the spec: the class [SearchResults] of [vector_store.py],
    which is not part of the sources at hand. The spec gives the backend's
    answer as {documents: list[text], metadata: list[mapping],
    error: optional text}. *)
Record SearchResults := {
  documents : list string;
  metadata : list ChunkMeta;
  error : option string;
}.

(** Modelled from the spec: [SearchResults.is_empty], missing with its class.
    The spec calls a result empty when the backend returned no documents. *)
Definition is_empty (r : SearchResults) : bool :=
  match documents r with [] => true | _ :: _ => false end.

(** What [course_catalog.get(ids=[...])] hands back: a mapping whose
    ["metadatas"] entry is a list of stored metadata mappings, or nothing. *)
Record GetResult := {
  metadatas : option (list (gmap string string));
}.

(** The [VectorStore] object as the tools use it: four operations, taken as
    given. A backend failure is reported in [error], not raised; only the
    catalog read is guarded by a [try] in the outline tool. *)
Record VectorStore := {
  search : string → option string → option Z → SearchResults;
  get_lesson_link : string → Z → option string;
  _resolve_course_name : string → option string;
  course_catalog_get : list string → pyresult (option GetResult);
}.

(* ================================================================== *)
(** * Data shared by the tools *)
(* ================================================================== *)

(** A citation, the dict [{"title": ..., "url": ...}]. *)
Record Source := { title : string; url : option string }.

(** One parameter of a tool's input schema. *)
Record ParamSpec := { param_type : string; param_description : string }.

Record InputSchema := {
  schema_type : string;
  properties : list (string * ParamSpec);
  required : list string;
}.

(** A tool definition; [name] is what [tool_def.get("name")] returns. *)
Record ToolDef := {
  name : option string;
  description : string;
  input_schema : InputSchema;
}.

(** A JSON scalar, as found in a tool call's input and in stored lessons. *)
Inductive scalar :=
  | SNull
  | SBool (b : bool)
  | SInt (z : Z)
  | SStr (s : string).

(** [str(v)], used by f-strings. *)
Definition py_str (v : scalar) : string :=
  match v with
  | SNull => "None"
  | SBool true => "True"
  | SBool false => "False"
  | SInt z => pretty z
  | SStr s => s
  end.

(** The keyword arguments of a tool call. *)
Definition kwargs := PyDict.t string scalar.

(* ================================================================== *)
(** * [CourseSearchTool] *)
(* ================================================================== *)

Module CourseSearchTool.

Record t := {
  store : VectorStore;
  last_sources : list Source;
}.

Definition __init__ (vector_store : VectorStore) : t :=
  {| store := vector_store; last_sources := [] |}.

Definition get_tool_definition : ToolDef :=
  {| name := Some "search_course_content";
     description :=
       "Search course materials with smart course name matching and lesson filtering";
     input_schema :=
       {| schema_type := "object";
          properties :=
            [ ("query",
               {| param_type := "string";
                  param_description :=
                    "What to search for in the course content" |});
              ("course_name",
               {| param_type := "string";
                  param_description :=
                    "Course title (partial matches work, e.g. 'MCP', 'Introduction')" |});
              ("lesson_number",
               {| param_type := "integer";
                  param_description :=
                    "Specific lesson number to search within (e.g. 1, 2, 3)" |}) ];
          required := ["query"] |} |}.

(** The locals of the loop in [_format_results]; [lookups] logs the
    arguments of each [get_lesson_link] call, in call order. *)
Record loop_state := {
  formatted : list string;
  sources : list Source;
  seen_titles : gset string;
  lookups : list (string * Z);
}.

Definition loop_init : loop_state :=
  {| formatted := []; sources := []; seen_titles := ∅; lookups := [] |}.

(** The text [course_title] or [course_title - Lesson n]. *)
Definition with_lesson (prefix : string) (lesson_num : option Z) : string :=
  match lesson_num with
  | Some n => prefix +:+ " - Lesson " +:+ pretty n
  | None => prefix
  end.

Definition meta_course_title (meta : ChunkMeta) : string :=
  default "unknown" (course_title meta).

Definition source_title_of (meta : ChunkMeta) : string :=
  with_lesson (meta_course_title meta) (lesson_number meta).

(** One iteration over a pair of [zip(results.documents, results.metadata)]. *)
Definition loop_body (vs : VectorStore) (st : loop_state)
    (item : string * ChunkMeta) : loop_state :=
  let '(doc, meta) := item in
  let course_title := meta_course_title meta in
  let lesson_num := lesson_number meta in
  let header := with_lesson ("[" +:+ course_title) lesson_num +:+ "]" in
  let source_title := with_lesson course_title lesson_num in
  let st :=
    if decide (source_title ∈ seen_titles st) then st
    else
      let lesson_link :=
        match lesson_num with
        | Some n => get_lesson_link vs course_title n
        | None => None
        end in
      {| formatted := formatted st;
         sources := sources st ++ [{| title := source_title; url := lesson_link |}];
         seen_titles := {[source_title]} ∪ seen_titles st;
         lookups :=
           match lesson_num with
           | Some n => lookups st ++ [(course_title, n)]
           | None => lookups st
           end |} in
  {| formatted := formatted st ++ [header +:+ nl +:+ doc];
     sources := sources st;
     seen_titles := seen_titles st;
     lookups := lookups st |}.

Definition run_loop (vs : VectorStore) (results : SearchResults) : loop_state :=
  foldl (loop_body vs) loop_init (zip (documents results) (metadata results)).

(** Returns the text, the tool with its new [last_sources], and the log of
    link look-ups made. *)
Definition _format_results (self : t) (results : SearchResults)
    : string * t * list (string * Z) :=
  let st := run_loop (store self) results in
  (join (nl +:+ nl) (formatted st),
   {| store := store self; last_sources := sources st |},
   lookups st).

Definition execute (self : t) (query : string)
    (course_name : option string) (lesson_number : option Z)
    : string * t * list (string * Z) :=
  let results := search (store self) query course_name lesson_number in
  if truthy (error results) then (default "" (error results), self, [])
  else if is_empty results then
    let filter_info := "" in
    let filter_info :=
      match course_name with
      | Some c => if truthy c then filter_info +:+ " in course '" +:+ c +:+ "'"
                  else filter_info
      | None => filter_info
      end in
    let filter_info :=
      match lesson_number with
      | Some n => if truthy n then filter_info +:+ " in lesson " +:+ pretty n
                  else filter_info
      | None => filter_info
      end in
    ("No relevant content found" +:+ filter_info +:+ ".", self, [])
  else _format_results self results.

End CourseSearchTool.


(* ================================================================== *)
(** * [CourseOutlineTool] *)
(* ================================================================== *)

#[local] Set Warnings "-register-all".

(** A decoded JSON value, what [json.loads] returns. A float is kept as the
    text [str] gives for it, which is all the outline tool can observe of
    it. *)
Inductive json :=
  | JNull
  | JBool (b : bool)
  | JInt (z : Z)
  | JFloat (text : string)
  | JStr (s : string)
  | JArr (items : list json)
  | JObj (members : list (string * json)).

#[export] Instance truthy_json : Truthy json :=
  λ v, match v with
       | JNull => false
       | JBool b => b
       | JInt z => truthy z
       | JFloat text => negb (String.eqb text "0.0" || String.eqb text "-0.0")
       | JStr s => truthy s
       | JArr items => truthy items
       | JObj members => truthy members
       end.

(** [type(v).__name__] *)
Definition type_name (v : json) : string :=
  match v with
  | JNull => "NoneType"
  | JBool _ => "bool"
  | JInt _ => "int"
  | JFloat _ => "float"
  | JStr _ => "str"
  | JArr _ => "list"
  | JObj _ => "dict"
  end.

(** [len(v)]; the length of a text is counted in the characters of this
    model. *)
Definition py_len (v : json) : pyresult nat :=
  match v with
  | JStr s => Return (String.length s)
  | JArr items => Return (length items)
  | JObj members => Return (length members)
  | _ => Raise (Exc "TypeError" ("object of type '" +:+ type_name v +:+ "' has no len()"))
  end.

(** The values [for x in v] goes through: the items of a list, the keys of a
    dict, the characters of a text. *)
Definition py_iter (v : json) : pyresult (list json) :=
  match v with
  | JArr items => Return items
  | JObj members => Return (JStr <$> PyDict.keys members)
  | JStr s => Return ((λ c, JStr (String c "")) <$> String.list_ascii_of_string s)
  | _ => Raise (Exc "TypeError" ("'" +:+ type_name v +:+ "' object is not iterable"))
  end.

Section Formatting.

(** [repr] of a text is the interpreter's own; it is taken as given. *)
Variable repr_str : string → string.

(** [repr(v)] *)
Fixpoint py_repr (v : json) : string :=
  match v with
  | JNull => "None"
  | JBool true => "True"
  | JBool false => "False"
  | JInt z => pretty z
  | JFloat text => text
  | JStr s => repr_str s
  | JArr items => "[" +:+ join ", " (List.map py_repr items) +:+ "]"
  | JObj members =>
      "{" +:+ join ", "
                (List.map (λ member,
                             match member with
                             | (key, value) => repr_str key +:+ ": " +:+ py_repr value
                             end) members)
          +:+ "}"
  end.

(** [str(v)], as an f-string formats a value. *)
Definition json_str (v : json) : string :=
  match v with
  | JStr s => s
  | _ => py_repr v
  end.

End Formatting.

Module CourseOutlineTool.

Record t := {
  store : VectorStore;
  last_sources : list Source;
}.

Definition __init__ (vector_store : VectorStore) : t :=
  {| store := vector_store; last_sources := [] |}.

Definition get_tool_definition : ToolDef :=
  {| name := Some "get_course_outline";
     description :=
       "Get the complete outline of a course including its title, course link, and list of all lessons with their numbers and titles. Use this when users ask about course structure, what lessons are in a course, or want an overview of course content.";
     input_schema :=
       {| schema_type := "object";
          properties :=
            [ ("course_title",
               {| param_type := "string";
                  param_description :=
                    "The course title to get the outline for (partial matches work, e.g. 'MCP', 'Introduction')" |}) ];
          required := ["course_title"] |} |}.

Section Outline.

(** [repr] of a text, and [json.loads] of the standard library on the stored
    lesson text: the decoded value, or [None] for [json.JSONDecodeError].
    Both are taken as given. *)
Variable repr_str : string → string.
Variable json_loads : string → option json.

(** The body of the loop over the lessons: only a dict has [get]. *)
Definition lesson_line (lesson : json) : pyresult string :=
  match lesson with
  | JObj members =>
      let lesson_num := default (JStr "?") (PyDict.get "lesson_number" members) in
      let lesson_title := default (JStr "Untitled") (PyDict.get "lesson_title" members) in
      Return ("  " +:+ json_str repr_str lesson_num +:+ ". "
                +:+ json_str repr_str lesson_title)
  | _ =>
      Raise (Exc "AttributeError"
               ("'" +:+ type_name lesson +:+ "' object has no attribute 'get'"))
  end.

(** The loop [for lesson in lessons]: it stops at the first lesson that
    raises. *)
Fixpoint lesson_lines (lessons : list json) : pyresult (list string) :=
  match lessons with
  | [] => Return []
  | lesson :: lessons =>
      match lesson_line lesson with
      | Raise e => Raise e
      | Return line =>
          match lesson_lines lessons with
          | Raise e => Raise e
          | Return lines => Return (line :: lines)
          end
      end
  end.

(** An exception leaves the method before [last_sources] is assigned. *)
Definition _format_outline (self : t) (title : string)
    (course_link : option string) (lessons : json) : pyresult string * t :=
  let lines := ["**" +:+ title +:+ "**"] in
  let lines :=
    if truthy course_link
    then lines ++ ["Course Link: " +:+ default "" course_link]
    else lines in
  let lines := lines ++ [""] in
  let finish (lines : list string) :=
    (Return (join nl lines),
     {| store := store self;
        last_sources := [{| title := title; url := course_link |}] |}) in
  if negb (truthy lessons)
  then finish (lines ++ ["This course has no lessons listed."])
  else
    match py_len lessons with
    | Raise e => (Raise e, self)
    | Return count =>
        let lines := lines ++ ["**Lessons (" +:+ pretty count +:+ " total):**"] in
        match py_iter lessons with
        | Raise e => (Raise e, self)
        | Return items =>
            match lesson_lines items with
            | Raise e => (Raise e, self)
            | Return listed => finish (lines ++ listed)
            end
        end
    end.

Definition execute (self : t) (course_title : string) : pyresult string * t :=
  let resolved_title := _resolve_course_name (store self) course_title in
  if negb (truthy resolved_title) then
    (Return ("No course found matching '" +:+ course_title
               +:+ "'. Please try a different course name."), self)
  else
    let resolved_title := default "" resolved_title in
    let unavailable :=
      (Return ("Course '" +:+ resolved_title +:+ "' found but metadata unavailable."),
       self) in
    match course_catalog_get (store self) [resolved_title] with
    | Raise e => (Return ("Error retrieving course data: " +:+ exc_str e), self)
    | Return None => unavailable
    | Return (Some results) =>
      match metadatas results with
      | None | Some [] => unavailable
      | Some (metadata :: _) =>
        if negb (truthy metadata) then unavailable
        else
          let title := default resolved_title (metadata !! "title") in
          let course_link := metadata !! "course_link" in
          let lessons_json := default "[]" (metadata !! "lessons_json") in
          let lessons := default (JArr []) (json_loads lessons_json) in
          _format_outline self title course_link lessons
      end
    end.

End Outline.

End CourseOutlineTool.

(* ================================================================== *)
(** * [Tool] and [ToolManager] *)
(* ================================================================== *)

(** The abstract base class [Tool]: a definition and an [execute] that takes
    keyword arguments, may raise, and may change the tool object. [execute]
    stands for the whole call [tool.execute] on unpacked keyword arguments,
    the interpreter's binding of those arguments to parameters included. *)
Class Tool (T : Type) := {
  get_tool_definition : T → ToolDef;
  execute : T → kwargs → pyresult string * T;
}.

Module ToolManager.
Section Registry.
Context {T : Type} `{Tool T}.

Record t := { tools : PyDict.t string T }.

Definition __init__ : t := {| tools := PyDict.empty |}.

Definition register_tool (self : t) (tool : T) : pyresult unit * t :=
  let tool_def := get_tool_definition tool in
  match name tool_def with
  | Some tool_name =>
      if negb (truthy tool_name)
      then (Raise (Exc "ValueError" "Tool must have a 'name' in its definition"), self)
      else (Return (), {| tools := PyDict.set tool_name tool (tools self) |})
  | None =>
      (Raise (Exc "ValueError" "Tool must have a 'name' in its definition"), self)
  end.

Definition get_tool_definitions (self : t) : list ToolDef :=
  get_tool_definition <$> PyDict.values (tools self).

(** A keyword argument that bears the name of one of [execute_tool]'s own
    parameters, the first such in the order of the arguments: the call
    [execute_tool(tool_name, ...)] on unpacked keyword arguments is rejected
    for it before the body runs. *)
Definition clashing_argument (kw : kwargs) : option string :=
  head (filter (λ k, k = "self" ∨ k = "tool_name") (PyDict.keys kw)).

(** The executed tool object is written back under its key: the registry
    holds the object the call has mutated. *)
Definition execute_tool (self : t) (tool_name : string) (kw : kwargs)
    : pyresult string * t :=
  match clashing_argument kw with
  | Some argument =>
      (Raise (Exc "TypeError"
                ("ToolManager.execute_tool() got multiple values for argument '"
                   +:+ argument +:+ "'")), self)
  | None =>
      match PyDict.get tool_name (tools self) with
      | None => (Return ("Tool '" +:+ tool_name +:+ "' not found"), self)
      | Some tool =>
          let '(outcome, tool) := execute tool kw in
          (outcome, {| tools := PyDict.set tool_name tool (tools self) |})
      end
  end.

End Registry.
Arguments t : clear implicits.
End ToolManager.

(** A scripted tool in the manner of a test double: a fixed definition and a
    fixed outcome of [execute]. *)
Record ScriptedTool := {
  scripted_definition : ToolDef;
  scripted_outcome : pyresult string;
}.

#[export] Instance ScriptedTool_Tool : Tool ScriptedTool := {|
  get_tool_definition := scripted_definition;
  execute := λ tool _, (scripted_outcome tool, tool);
|}.


(* ================================================================== *)
(** * The language-model service at its interface *)
(* ================================================================== *)

(** A content block of a response, tagged [text] or [tool_use]. *)
Inductive ContentBlock :=
  | TextBlock (text : string)
  | ToolUseBlock (id : string) (tool_name : string) (input : kwargs).

Definition block_type (b : ContentBlock) : string :=
  match b with
  | TextBlock _ => "text"
  | ToolUseBlock _ _ _ => "tool_use"
  end.

Record Response := {
  stop_reason : string;
  content : list ContentBlock;
}.

(** The dict appended to [tool_results]. *)
Record ToolResult := {
  result_type : string;
  tool_use_id : string;
  result_content : string;
}.

(** The ["content"] of a conversation message: the query text, the blocks
    of an assistant turn, or the results of one round of tool calls. *)
Inductive MessageContent :=
  | Text (s : string)
  | Blocks (bs : list ContentBlock)
  | ToolResults (rs : list ToolResult).

Record Message := { role : string; message_content : MessageContent }.

Record ToolChoice := { choice_type : string }.

(** The keyword arguments of [client.messages.create]; an absent key is
    [None]. *)
Record ApiParams := {
  model : string;
  temperature : Z;
  max_tokens : Z;
  messages : list Message;
  system : string;
  tools : option (list ToolDef);
  tool_choice : option ToolChoice;
}.

(** A model service: a state and the answer to a request in that state.
    Faults of the service are not modelled: the generator lets them through
    uncaught, and the properties below are about the answers it gets. *)
Class ModelService (S : Type) := respond : S → ApiParams → Response * S.

(** The client object: the service behind it and a log of every request
    issued with the response it got, oldest first. A request is logged as it
    was when it was issued. *)
Record Client (S : Type) := {
  service : S;
  calls : list (ApiParams * Response);
}.
Arguments service {S} c.
Arguments calls {S} c.

(** The object passed as [tool_manager]: anything with [execute_tool]. *)
Class ToolDispatcher (M : Type) :=
  execute_tool : M → string → kwargs → pyresult string * M.

#[export] Instance ToolManager_dispatcher {T} `{Tool T}
  : ToolDispatcher (ToolManager.t T) := ToolManager.execute_tool.

(* ================================================================== *)
(** * [AIGenerator] *)
(* ================================================================== *)

Module AIGenerator.

Definition MAX_TOOL_ROUNDS : nat := 2.

Definition SYSTEM_PROMPT : string :=
  join nl [
    " You are an AI assistant specialized in course materials and educational content with access to tools for searching and exploring course information.";
    "";
    "Available Tools:";
    "1. **search_course_content** - Search within course materials for specific information, concepts, or topics";
    "2. **get_course_outline** - Get the complete structure of a course including all lesson titles";
    "";
    "Tool Selection Guidelines:";
    "- Use **get_course_outline** when users ask about:";
    "  - Course structure or overview";
    "  - What lessons are in a course";
    "  - List of topics covered in a course";
    "  - Course table of contents";
    "";
    "- Use **search_course_content** when users ask about:";
    "  - Specific concepts, definitions, or explanations";
    "  - Detailed information from lesson content";
    "  - Questions that require searching through course text";
    "";
    "- **Sequential tool calls**: You may make up to 2 tool calls per query if needed. After reviewing results from your first tool call, you can make a second call if additional information is required.";
    "- **When to use multiple calls**: Use a second tool call when the first search did not return sufficient information, you need to search a different course/lesson, or you need both outline and content details.";
    "- **Efficiency**: If the first tool call provides a complete answer, respond directly without additional calls.";
    "- If a tool yields no results, state this clearly without offering alternatives";
    "";
    "Response Protocol:";
    "- **General knowledge questions**: Answer using existing knowledge without tools";
    "- **Course-specific questions**: Use appropriate tool first, then answer";
    "- **No meta-commentary**:";
    "  - Provide direct answers only - no reasoning process, search explanations, or question-type analysis";
    ("  - Do not mention " +:+ dq +:+ "based on the search results" +:+ dq +:+ " or " +:+ dq +:+ "based on the outline" +:+ dq);
    "";
    "All responses must be:";
    "1. **Brief, Concise and focused** - Get to the point quickly";
    "2. **Educational** - Maintain instructional value";
    "3. **Clear** - Use accessible language";
    "4. **Example-supported** - Include relevant examples when they aid understanding";
    "Provide only the direct answer to what was asked." ] +:+ nl.

Section Generator.
Context {Svc Mgr : Type} `{ModelService Svc} `{ToolDispatcher Mgr}.

(** [self.base_params] *)
Record BaseParams := {
  base_model : string;
  base_temperature : Z;
  base_max_tokens : Z;
}.

Record t := {
  self_client : Client Svc;
  self_model : string;
  self_base_params : BaseParams;
}.

(** The client is built from the API key; here it is handed in. *)
Definition __init__ (client : Client Svc) (model : string) : t :=
  {| self_client := client;
     self_model := model;
     self_base_params :=
       {| base_model := model; base_temperature := 0; base_max_tokens := 800 |} |}.

(** [self.client.messages.create] applied to the parameters *)
Definition messages_create (self : t) (params : ApiParams) : Response * t :=
  let '(response, service) := respond (service (self_client self)) params in
  (response,
   {| self_client :=
        {| service := service;
           calls := calls (self_client self) ++ [(params, response)] |};
      self_model := self_model self;
      self_base_params := self_base_params self |}).

Fixpoint first_text (blocks : list ContentBlock) : string :=
  match blocks with
  | [] => ""
  | TextBlock text :: _ => text
  | ToolUseBlock _ _ _ :: blocks => first_text blocks
  end.

Definition _extract_text_response (response : Response) : string :=
  first_text (content response).

(** The loop [for content_block in current_response.content]. An exception
    of a tool is caught where the tool is called and becomes the result
    text. *)
Fixpoint execute_tool_calls (blocks : list ContentBlock) (tool_manager : Mgr)
    : list ToolResult * Mgr :=
  match blocks with
  | [] => ([], tool_manager)
  | TextBlock _ :: blocks => execute_tool_calls blocks tool_manager
  | ToolUseBlock id tool_name input :: blocks =>
      let '(outcome, tool_manager) := execute_tool tool_manager tool_name input in
      let tool_result :=
        match outcome with
        | Return text => text
        | Raise e => "Tool execution failed: " +:+ exc_str e
        end in
      let '(tool_results, tool_manager) := execute_tool_calls blocks tool_manager in
      ({| result_type := "tool_result";
          tool_use_id := id;
          result_content := tool_result |} :: tool_results,
       tool_manager)
  end.

(** [{**self.base_params, "messages": ..., "system": ...}] with the two
    optional keys. *)
Definition make_params (self : t) (messages : list Message) (system : string)
    (tools : option (list ToolDef)) (tool_choice : option ToolChoice)
    : ApiParams :=
  {| model := base_model (self_base_params self);
     temperature := base_temperature (self_base_params self);
     max_tokens := base_max_tokens (self_base_params self);
     messages := messages;
     system := system;
     tools := tools;
     tool_choice := tool_choice |}.

(** The [while rounds_completed < self.MAX_TOOL_ROUNDS] loop and the final
    call after it. [remaining] is [MAX_TOOL_ROUNDS - rounds_completed]: the
    loop condition holds exactly when it is a successor. *)
Fixpoint tool_rounds (remaining : nat) (self : t) (base_params : ApiParams)
    (messages : list Message) (current_response : Response) (tool_manager : Mgr)
    : string * t * Mgr :=
  match remaining with
  | S remaining =>
      let messages :=
        messages ++ [{| role := "assistant";
                        message_content := Blocks (content current_response) |}] in
      let '(tool_results, tool_manager) :=
        execute_tool_calls (content current_response) tool_manager in
      let messages :=
        if truthy tool_results
        then messages ++ [{| role := "user";
                             message_content := ToolResults tool_results |}]
        else messages in
      let next_params :=
        make_params self messages (system base_params)
          (Some (default [] (tools base_params)))
          (Some {| choice_type := "auto" |}) in
      let '(next_response, self) := messages_create self next_params in
      if negb (String.eqb (stop_reason next_response) "tool_use")
      then (_extract_text_response next_response, self, tool_manager)
      else tool_rounds remaining self base_params messages next_response tool_manager
  | 0 =>
      let final_params :=
        make_params self messages (system base_params) None None in
      let '(final_response, self) := messages_create self final_params in
      (_extract_text_response final_response, self, tool_manager)
  end.

Definition _handle_tool_execution (self : t) (initial_response : Response)
    (base_params : ApiParams) (tool_manager : Mgr) : string * t * Mgr :=
  tool_rounds MAX_TOOL_ROUNDS self base_params (messages base_params)
    initial_response tool_manager.

(** [response.content[0].text] *)
Definition first_block_text (response : Response) : pyresult string :=
  match content response with
  | [] => Raise (Exc "IndexError" "list index out of range")
  | TextBlock text :: _ => Return text
  | ToolUseBlock _ _ _ :: _ =>
      Raise (Exc "AttributeError" "'ToolUseBlock' object has no attribute 'text'")
  end.

Definition generate_response (self : t) (query : string)
    (conversation_history : option string) (tools : option (list ToolDef))
    (tool_manager : option Mgr) : pyresult string * t * option Mgr :=
  let system_content :=
    if truthy conversation_history
    then SYSTEM_PROMPT +:+ nl +:+ nl +:+ "Previous conversation:" +:+ nl
           +:+ default "" conversation_history
    else SYSTEM_PROMPT in
  let messages := [{| role := "user"; message_content := Text query |}] in
  let api_params :=
    if truthy tools
    then make_params self messages system_content tools
           (Some {| choice_type := "auto" |})
    else make_params self messages system_content None None in
  let '(response, self) := messages_create self api_params in
  match tool_manager with
  | Some manager =>
      if String.eqb (stop_reason response) "tool_use"
      then
        let '(text, self, manager) :=
          _handle_tool_execution self response api_params manager in
        (Return text, self, Some manager)
      else (first_block_text response, self, tool_manager)
  | None => (first_block_text response, self, tool_manager)
  end.

End Generator.
Arguments t : clear implicits.

End AIGenerator.

(* ================================================================== *)
(** * Invariants and sample objects *)
(* ================================================================== *)

(** The state every registry built with [register_tool] is in: the dict has
    unique keys, and each tool sits under the non-empty name of its own
    definition. *)
Definition registry_ok {T : Type} `{Tool T} (self : ToolManager.t T) : Prop :=
  NoDup (PyDict.keys (ToolManager.tools self))
  ∧ ∀ k tool, (k, tool) ∈ ToolManager.tools self →
      name (get_tool_definition tool) = Some k ∧ k ≠ "".

(** The backend returns no documents and no error for one search call. *)
Definition nothing_found (vs : VectorStore) (query : string)
    (course_name : option string) (lesson_number : option Z) : Prop :=
  truthy (error (search vs query course_name lesson_number)) = false
  ∧ is_empty (search vs query course_name lesson_number) = true.

(** A backend that holds one chunk, of lesson 1 of CourseA, and applies the
    filters it is given: a search within any other course or any other
    lesson finds nothing. *)
Definition filtering_store : VectorStore :=
  {| search := λ _ course_name lesson_number,
       match course_name, lesson_number with
       | (None | Some "CourseA"), (None | Some 1%Z) =>
           {| documents := ["A variable names a value."];
              metadata := [{| course_title := Some "CourseA"; lesson_number := Some 1%Z |}];
              error := None |}
       | _, _ => {| documents := []; metadata := []; error := None |}
       end;
     get_lesson_link := λ course n, Some ("http://courses/" +:+ course +:+ "/" +:+ pretty n);
     _resolve_course_name := λ _, None;
     course_catalog_get := λ _, Return None |}.

(** A backend that has one chunk of (CourseA, lesson 1) for the query
    [variables], answers the query [broken] with an error, and finds nothing
    for anything else. *)
Definition sample_store : VectorStore :=
  {| search := λ query _ _,
       if String.eqb query "variables" then
         {| documents := ["A variable names a value."];
            metadata := [{| course_title := Some "CourseA"; lesson_number := Some 1%Z |}];
            error := None |}
       else if String.eqb query "broken" then
         {| documents := []; metadata := []; error := Some "Search error: index offline" |}
       else {| documents := []; metadata := []; error := None |};
     get_lesson_link := λ course n, Some ("http://courses/" +:+ course +:+ "/" +:+ pretty n);
     _resolve_course_name := λ _, None;
     course_catalog_get := λ _, Return None |}.

(** Two scripted tools that share the name [search_course_content] and
    differ in their description, and a registry holding the first. *)
Definition first_search_tool : ScriptedTool :=
  {| scripted_definition := CourseSearchTool.get_tool_definition;
     scripted_outcome := Return "first" |}.

Definition second_search_tool : ScriptedTool :=
  {| scripted_definition :=
       {| name := Some "search_course_content";
          description := "Search the archive";
          input_schema := input_schema CourseSearchTool.get_tool_definition |};
     scripted_outcome := Return "second" |}.

Definition sample_registry : ToolManager.t ScriptedTool :=
  {| ToolManager.tools := [("search_course_content", first_search_tool)] |}.

(** The stored lesson list of the course [Intro to X]:
    [[{"lesson_number":1,"lesson_title":"Basics"}]]. *)
Definition intro_lessons_json : string :=
  "[{" +:+ dq +:+ "lesson_number" +:+ dq +:+ ":1," +:+ dq +:+ "lesson_title"
    +:+ dq +:+ ":" +:+ dq +:+ "Basics" +:+ dq +:+ "}]".

Definition intro_lessons : json :=
  JArr [JObj [("lesson_number", JInt 1); ("lesson_title", JStr "Basics")]].

Definition intro_metadata : gmap string string :=
  {[ "title" := "Intro to X";
     "course_link" := "http://x";
     "lessons_json" := intro_lessons_json ]}.

(** A backend whose catalog holds that one course and resolves any title
    that starts with [Intro] to it. *)
Definition intro_store : VectorStore :=
  {| search := λ _ _ _, {| documents := []; metadata := []; error := None |};
     get_lesson_link := λ _ _, None;
     _resolve_course_name := λ partial,
       if String.prefix "Intro" partial then Some "Intro to X" else None;
     course_catalog_get := λ ids,
       match ids with
       | ["Intro to X"] => Return (Some {| metadatas := Some [intro_metadata] |})
       | _ => Return (Some {| metadatas := Some [] |})
       end |}.

(** A decoder that knows the one stored lesson list and rejects every
    other text. *)
Definition intro_json_loads (text : string) : option json :=
  if String.eqb text intro_lessons_json then Some intro_lessons else None.

(** A response requests at least one tool: it stops for tool use and
    carries a tool-call block. *)
Definition is_tool_use (b : ContentBlock) : bool :=
  match b with
  | TextBlock _ => false
  | ToolUseBlock _ _ _ => true
  end.

Definition requests_tool (r : Response) : bool :=
  String.eqb (stop_reason r) "tool_use" && existsb is_tool_use (content r).

(** The tool calls of an assistant turn, in the order the model emitted
    them: identifier, tool name, arguments. *)
Fixpoint tool_calls (blocks : list ContentBlock) : list (string * string * kwargs) :=
  match blocks with
  | [] => []
  | TextBlock _ :: blocks => tool_calls blocks
  | ToolUseBlock id tool_name input :: blocks => (id, tool_name, input) :: tool_calls blocks
  end.

(** The tool calls of a turn run one after the other on the dispatcher,
    each failure turned into text on its own. *)
Fixpoint run_calls {Mgr : Type} `{ToolDispatcher Mgr}
    (cs : list (string * string * kwargs)) (tool_manager : Mgr)
    : list ToolResult * Mgr :=
  match cs with
  | [] => ([], tool_manager)
  | (id, tool_name, input) :: cs =>
      let '(outcome, tool_manager) := execute_tool tool_manager tool_name input in
      let '(rest, tool_manager) := run_calls cs tool_manager in
      ({| result_type := "tool_result";
          tool_use_id := id;
          result_content :=
            match outcome with
            | Return text => text
            | Raise e => "Tool execution failed: " +:+ exc_str e
            end |} :: rest,
       tool_manager)
  end.

(** A run of requests that the service answered from a state on: each
    response is its answer to the request, in the state the requests before
    it left. *)
Fixpoint served {Svc : Type} `{ModelService Svc} (s : Svc)
    (log : list (ApiParams * Response)) : Prop :=
  match log with
  | [] => True
  | (request, response) :: log =>
      response = (respond s request).1 ∧ served (respond s request).2 log
  end.

(** A stubbed model service that plays back a list of responses, then keeps
    giving the last-resort response. *)
Record ScriptedService := {
  script : list Response;
  fallback : Response;
}.

#[export] Instance ScriptedService_service : ModelService ScriptedService :=
  λ s _,
    match script s with
    | [] => (fallback s, s)
    | r :: rest => (r, {| script := rest; fallback := fallback s |})
    end.

(** A stubbed model service that asks for one more search on every request;
    its state counts the requests served. *)
Definition another_search (n : nat) : Response :=
  {| stop_reason := "tool_use";
     content :=
       [ToolUseBlock ("toolu_" +:+ pretty n) "search_course_content"
          [("query", SStr "variables")]] |}.

#[export] Instance insistent_service : ModelService nat :=
  λ n _, (another_search n, Datatypes.S n).

(** A response without any block, and one with a tool call and no text. *)
Definition empty_answer : Response :=
  {| stop_reason := "end_turn"; content := [] |}.

Definition tool_call_only : Response :=
  {| stop_reason := "tool_use";
     content := [ToolUseBlock "toolu_0" "search_course_content"
                   [("query", SStr "variables")]] |}.

(** A registry with a tool that raises and a tool that answers. *)
Definition failing_tool : ScriptedTool :=
  {| scripted_definition := CourseSearchTool.get_tool_definition;
     scripted_outcome := Raise (Exc "RuntimeError" "index offline") |}.

Definition answering_tool : ScriptedTool :=
  {| scripted_definition := CourseOutlineTool.get_tool_definition;
     scripted_outcome := Return "**Intro to X**" |}.

Definition mixed_registry : ToolManager.t ScriptedTool :=
  {| ToolManager.tools :=
       [("search_course_content", failing_tool);
        ("get_course_outline", answering_tool)] |}.

(** An assistant turn with two tool calls, the first to the tool that
    raises. *)
Definition two_calls : Response :=
  {| stop_reason := "tool_use";
     content :=
       [ToolUseBlock "toolu_a" "search_course_content" [("query", SStr "variables")];
        ToolUseBlock "toolu_b" "get_course_outline" [("course_title", SStr "Intro")]] |}.

Definition sample_params : ApiParams :=
  {| model := "claude-sonnet-4-20250514";
     temperature := 0;
     max_tokens := 800;
     messages := [{| role := "user"; message_content := Text "What is a variable?" |}];
     system := AIGenerator.SYSTEM_PROMPT;
     tools := Some [CourseSearchTool.get_tool_definition;
                    CourseOutlineTool.get_tool_definition];
     tool_choice := Some {| choice_type := "auto" |} |}.

(** The elements of a list that are the first of their key, in order: what
    a seen-set de-duplication keeps. *)
Fixpoint first_seen {A K : Type} `{EqDecision K} (key : A → K) (l : list A) : list A :=
  match l with
  | [] => []
  | x :: l => x :: filter (λ y, key y ≠ key x) (first_seen key l)
  end.

(** The chunks a search result yields to the formatting loop: the metadata
    that [zip] pairs with a document. *)
Definition chunks_of (results : SearchResults) : list ChunkMeta :=
  (zip (documents results) (metadata results)).*2.

(** The (course, lesson) pair of a chunk. *)
Definition pair_of (meta : ChunkMeta) : string * option Z :=
  (CourseSearchTool.meta_course_title meta, lesson_number meta).

(** The source the loop builds for a chunk, and the link look-up it makes
    for it, if any. *)
Definition source_of (vs : VectorStore) (meta : ChunkMeta) : Source :=
  {| title := CourseSearchTool.source_title_of meta;
     url := match lesson_number meta with
            | Some n => get_lesson_link vs (CourseSearchTool.meta_course_title meta) n
            | None => None
            end |}.

Definition lookup_of (meta : ChunkMeta) : option (string * Z) :=
  match lesson_number meta with
  | Some n => Some (CourseSearchTool.meta_course_title meta, n)
  | None => None
  end.

Definition lookup_of_pair (p : string * option Z) : option (string * Z) :=
  match p.2 with
  | Some n => Some (p.1, n)
  | None => None
  end.

(** One source per distinct (course, lesson) pair, and one link look-up per
    distinct pair that has a lesson. *)
Definition one_source_per_pair (self : CourseSearchTool.t) (results : SearchResults)
    : Prop :=
  let out := CourseSearchTool._format_results self results in
  let pairs := first_seen id (pair_of <$> chunks_of results) in
  length (CourseSearchTool.last_sources out.1.2) = length pairs
  ∧ ∀ c n, (c, Some n) ∈ pairs → length (filter (λ p, p = (c, n)) out.2) = 1.

(** The chunks all carry a lesson number, or none of them does. *)
Definition lessons_uniform (chunks : list ChunkMeta) : Prop :=
  Forall (λ m, is_Some (lesson_number m)) chunks
  ∨ Forall (λ m, lesson_number m = None) chunks.

(** Three chunks: two of (CourseA, lesson 1), then one of (CourseA,
    lesson 2). *)
Definition three_chunks : SearchResults :=
  {| documents := ["first"; "second"; "third"];
     metadata :=
       [ {| course_title := Some "CourseA"; lesson_number := Some 1%Z |};
         {| course_title := Some "CourseA"; lesson_number := Some 1%Z |};
         {| course_title := Some "CourseA"; lesson_number := Some 2%Z |} ];
     error := None |}.

(** Two chunks of different (course, lesson) pairs with the same source
    title: a course called [CourseA - Lesson 1] without a lesson number, and
    lesson 1 of [CourseA]. *)
Definition colliding_chunks : SearchResults :=
  {| documents := ["first"; "second"];
     metadata :=
       [ {| course_title := Some "CourseA - Lesson 1"; lesson_number := None |};
         {| course_title := Some "CourseA"; lesson_number := Some 1%Z |} ];
     error := None |}.

(* ================================================================== *)
(** * The registry's source bookkeeping *)
(* ================================================================== *)

(** The attribute [last_sources] of a tool object, which the registry looks
    for with [hasattr]: [last_sources_attr] is [None] for an object without
    it; [set_last_sources] is the assignment [tool.last_sources = l], which
    the registry makes only on objects that have the attribute. *)
Class SourceTracking (T : Type) := {
  last_sources_attr : T → option (list Source);
  set_last_sources : T → list Source → T;
  last_sources_assigned : ∀ tool l,
    is_Some (last_sources_attr tool) →
    last_sources_attr (set_last_sources tool l) = Some l;
}.

#[export] Instance CourseSearchTool_sources : SourceTracking CourseSearchTool.t := {|
  last_sources_attr := λ tool, Some (CourseSearchTool.last_sources tool);
  set_last_sources := λ tool l,
    {| CourseSearchTool.store := CourseSearchTool.store tool;
       CourseSearchTool.last_sources := l |};
  last_sources_assigned := λ tool l _, eq_refl;
|}.

#[export] Instance CourseOutlineTool_sources : SourceTracking CourseOutlineTool.t := {|
  last_sources_attr := λ tool, Some (CourseOutlineTool.last_sources tool);
  set_last_sources := λ tool l,
    {| CourseOutlineTool.store := CourseOutlineTool.store tool;
       CourseOutlineTool.last_sources := l |};
  last_sources_assigned := λ tool l _, eq_refl;
|}.

(** The scripted tool has no such attribute. *)
#[export] Instance ScriptedTool_sources : SourceTracking ScriptedTool := {|
  last_sources_attr := λ _, None;
  set_last_sources := λ tool _, tool;
  last_sources_assigned := λ tool l has, False_ind _ (is_Some_None has);
|}.

(** A registry may hold tools of either kind. *)
#[export] Instance sum_sources {A B : Type}
    (tracking_a : SourceTracking A) (tracking_b : SourceTracking B)
  : SourceTracking (A + B) := {|
  last_sources_attr := λ tool : A + B,
    match tool with
    | inl a => @last_sources_attr A tracking_a a
    | inr b => @last_sources_attr B tracking_b b
    end;
  set_last_sources := λ (tool : A + B) l,
    match tool with
    | inl a => inl (@set_last_sources A tracking_a a l)
    | inr b => inr (@set_last_sources B tracking_b b l)
    end;
  last_sources_assigned := λ (tool : A + B) l,
    match tool with
    | inl a => @last_sources_assigned A tracking_a a l
    | inr b => @last_sources_assigned B tracking_b b l
    end;
|}.

Module ToolManagerSources.
Section Sources.
Context {T : Type} `{SourceTracking T}.

(** The loop of [get_last_sources] over [self.tools.values()]. *)
Fixpoint first_sources (tools : list T) : list Source :=
  match tools with
  | [] => []
  | tool :: tools =>
      match last_sources_attr tool with
      | Some l => if truthy l then l else first_sources tools
      | None => first_sources tools
      end
  end.

Definition get_last_sources (self : ToolManager.t T) : list Source :=
  first_sources (PyDict.values (ToolManager.tools self)).

(** Each tool object is updated where it sits in the dict. *)
Definition reset_tool (tool : T) : T :=
  match last_sources_attr tool with
  | Some _ => set_last_sources tool []
  | None => tool
  end.

Definition reset_sources (self : ToolManager.t T) : ToolManager.t T :=
  {| ToolManager.tools := prod_map id reset_tool <$> ToolManager.tools self |}.

End Sources.
End ToolManagerSources.

(** Registering a list of tools one after the other, as a start-up sequence
    does; a registration that raises leaves the registry as it was and the
    sequence goes on. *)
Definition register_all {T : Type} `{Tool T} (self : ToolManager.t T) (tools : list T)
    : ToolManager.t T :=
  foldl (λ self tool, (ToolManager.register_tool self tool).2) self tools.

(** A tool that contributes nothing to [get_last_sources]: it has no
    [last_sources] attribute, or the list is empty. *)
Definition without_sources {T : Type} `{SourceTracking T} (tool : T) : Prop :=
  last_sources_attr tool = None ∨ last_sources_attr tool = Some [].

(** A scripted tool whose definition has no name. *)
Definition nameless_tool : ScriptedTool :=
  {| scripted_definition :=
       {| name := None;
          description := "A tool without a name";
          input_schema := input_schema CourseSearchTool.get_tool_definition |};
     scripted_outcome := Return "unreachable" |}.

(** A registry of the two course tools, both holding sources from earlier
    executions. *)
Definition both_tools_registry : ToolManager.t (CourseSearchTool.t + CourseOutlineTool.t) :=
  {| ToolManager.tools :=
       [ ("search_course_content",
          inl {| CourseSearchTool.store := sample_store;
                 CourseSearchTool.last_sources :=
                   [{| title := "CourseA - Lesson 1";
                       url := Some "http://courses/CourseA/1" |}] |});
         ("get_course_outline",
          inr {| CourseOutlineTool.store := intro_store;
                 CourseOutlineTool.last_sources :=
                   [{| title := "Intro to X"; url := Some "http://x" |}] |}) ] |}.

(** The block of text the search tool writes for one chunk: the source
    title in brackets, then the document on the next line. *)
Definition chunk_block (item : string * ChunkMeta) : string :=
  "[" +:+ CourseSearchTool.source_title_of item.2 +:+ "]" +:+ nl +:+ item.1.

(** A backend that returns two documents and no metadata for them. *)
Definition lopsided_store : VectorStore :=
  {| search := λ _ _ _,
       {| documents := ["first"; "second"]; metadata := []; error := None |};
     get_lesson_link := λ _ _, None;
     _resolve_course_name := λ _, None;
     course_catalog_get := λ _, Return None |}.

(** A backend whose chunks carry neither course title nor lesson number. *)
Definition untitled_store : VectorStore :=
  {| search := λ _ _ _,
       {| documents := ["first"; "second"];
          metadata := [ {| course_title := None; lesson_number := None |};
                        {| course_title := None; lesson_number := None |} ];
          error := None |};
     get_lesson_link := λ _ _, Some "http://never";
     _resolve_course_name := λ _, None;
     course_catalog_get := λ _, Return None |}.

(** A backend that reports an error together with a document. *)
Definition failing_store : VectorStore :=
  {| search := λ _ _ _,
       {| documents := ["stale"];
          metadata := [{| course_title := Some "CourseA"; lesson_number := Some 1%Z |}];
          error := Some "Search error: index offline" |};
     get_lesson_link := λ _ _, None;
     _resolve_course_name := λ _, None;
     course_catalog_get := λ _, Return None |}.

(** A sequence of conversations in which each one extends all those before
    it. *)
Fixpoint growing {A : Type} (conversations : list (list A)) : Prop :=
  match conversations with
  | [] => True
  | c :: later => Forall (λ c', c `prefix_of` c') later ∧ growing later
  end.

(** The system text [generate_response] builds. *)
Definition system_text (conversation_history : option string) : string :=
  if truthy conversation_history
  then AIGenerator.SYSTEM_PROMPT +:+ nl +:+ nl +:+ "Previous conversation:" +:+ nl
         +:+ default "" conversation_history
  else AIGenerator.SYSTEM_PROMPT.

(** What stays the same in every request of one query: the system text and
    the generator's base parameters. *)
Definition constant_fields (base : AIGenerator.BaseParams) (system_content : string)
    (request : ApiParams) : Prop :=
  system request = system_content
  ∧ model request = AIGenerator.base_model base
  ∧ temperature request = AIGenerator.base_temperature base
  ∧ max_tokens request = AIGenerator.base_max_tokens base.

(** A backend whose catalog holds a course with lesson text that is no
    JSON. *)
Definition garbled_store : VectorStore :=
  {| search := λ _ _ _, {| documents := []; metadata := []; error := None |};
     get_lesson_link := λ _ _, None;
     _resolve_course_name := λ _, Some "Intro to X";
     course_catalog_get := λ _,
       Return (Some {| metadatas :=
         Some [ {[ "title" := "Intro to X"; "lessons_json" := "[{oops" ]} ] |}) |}.

(** The decoded lesson values the outline loop gets through: nothing to list
    because the value is falsy, or a list whose items are all dicts. *)
Definition is_dict (v : json) : bool :=
  match v with JObj _ => true | _ => false end.

Definition dict_list (v : json) : bool :=
  match v with JArr items => forallb is_dict items | _ => false end.

Definition listable (lessons : json) : bool :=
  negb (truthy lessons) || dict_list lessons.

(** The values that have a length. *)
Definition sized (v : json) : bool :=
  match v with JStr _ | JArr _ | JObj _ => true | _ => false end.

(** The dicts among the items of a decoded lesson list. *)
Definition lesson_dicts (lessons : json) : list (list (string * json)) :=
  match lessons with
  | JArr items =>
      omap (λ v, match v with JObj members => Some members | _ => None end) items
  | _ => []
  end.

(** The line of the outline for one lesson dict. *)
Definition lesson_text (repr_str : string → string)
    (members : list (string * json)) : string :=
  "  " +:+ json_str repr_str (default (JStr "?") (PyDict.get "lesson_number" members))
    +:+ ". "
    +:+ json_str repr_str (default (JStr "Untitled") (PyDict.get "lesson_title" members)).

(** [repr] of a text free of quotes, backslashes and control characters. *)
Definition quoted (s : string) : string := "'" +:+ s +:+ "'".

(** A catalog whose lesson text decodes to a dict, not to a list. *)
Definition misshapen_store : VectorStore :=
  {| search := λ _ _ _, {| documents := []; metadata := []; error := None |};
     get_lesson_link := λ _ _, None;
     _resolve_course_name := λ _, Some "Intro to X";
     course_catalog_get := λ _,
       Return (Some {| metadatas :=
                         Some [ {[ "title" := "Intro to X";
                                   "lessons_json" := "{" +:+ dq +:+ "a" +:+ dq +:+ ": 1}" ]} ] |}) |}.

Definition misshapen_json_loads (text : string) : option json :=
  if String.eqb text ("{" +:+ dq +:+ "a" +:+ dq +:+ ": 1}")
  then Some (JObj [("a", JInt 1)])
  else None.

(** A plain text answer, and a turn that stops for tool use without
    carrying a tool call. *)
Definition text_answer : Response :=
  {| stop_reason := "end_turn"; content := [TextBlock "A variable names a value."] |}.

Definition tool_use_without_call : Response :=
  {| stop_reason := "tool_use"; content := [TextBlock "Let me look that up."] |}.

(* ================================================================== *)
(** * Properties *)
(* ================================================================== *)

(** ** Text *)

Lemma string_app_cons (x : ascii) (a b : string) :
  String x a +:+ b = String x (a +:+ b).
Proof. reflexivity. Qed.

Lemma string_app_assoc (a b c : string) : (a +:+ b) +:+ c = a +:+ b +:+ c.
Proof.
  induction a as [|x a IH]; [done | ].
  by rewrite !string_app_cons, IH.
Qed.

Lemma string_app_nil_r (a : string) : a +:+ "" = a.
Proof.
  induction a as [|x a IH]; [done | ].
  by rewrite string_app_cons, IH.
Qed.

Lemma contains_here (pre sub post : string) : contains sub (pre +:+ sub +:+ post).
Proof. by exists pre, post. Qed.

Lemma contains_suffix (pre sub : string) : contains sub (pre +:+ sub).
Proof. exists pre, "". by rewrite string_app_nil_r. Qed.

Lemma contains_app_l (sub s rest : string) : contains sub s → contains sub (s +:+ rest).
Proof.
  intros (pre & post & ->). exists pre, (post +:+ rest).
  by rewrite !string_app_assoc.
Qed.

Lemma contains_app_r (sub s first : string) : contains sub s → contains sub (first +:+ s).
Proof.
  intros (pre & post & ->). exists (first +:+ pre), post.
  by rewrite !string_app_assoc.
Qed.

(** ** The insertion-ordered dict *)

Section DictFacts.
Context {K V : Type} `{EqDecision K}.
Implicit Types (d : PyDict.t K V) (k : K) (v : V).

Lemma dict_get_None k d : PyDict.get k d = None ↔ k ∉ PyDict.keys d.
Proof.
  unfold PyDict.keys. induction d as [|[k' v'] d IH]; simpl.
  - split; [intros _; apply not_elem_of_nil | done].
  - rewrite not_elem_of_cons. case_decide as Hk.
    + split; [done | by intros [? _]].
    + rewrite IH. split; [by intros | by intros [_ ?]].
Qed.

Lemma dict_mem_false k d : PyDict.mem k d = false ↔ PyDict.get k d = None.
Proof.
  unfold PyDict.mem. rewrite bool_decide_eq_false. symmetry. apply dict_get_None.
Qed.

Lemma dict_get_elem_of k v d : PyDict.get k d = Some v → (k, v) ∈ d.
Proof.
  induction d as [|[k' v'] d IH]; simpl; [done | ].
  case_decide; [intros [= ->]; subst; left | intros; right; auto].
Qed.

Lemma dict_elem_of_get k v d : NoDup (PyDict.keys d) → (k, v) ∈ d → PyDict.get k d = Some v.
Proof.
  unfold PyDict.keys. induction d as [|[k' v'] d IH]; simpl.
  - intros _ Hin. by apply elem_of_nil in Hin.
  - rewrite NoDup_cons. intros [Hk' Hnd] [Heq | Hin]%elem_of_cons.
    + injection Heq as -> ->. by rewrite decide_True.
    + rewrite decide_False; [by apply IH | ].
      intros ->. apply Hk'. apply list_elem_of_fmap. by exists (k', v).
Qed.

Lemma dict_get_set_eq k v d : PyDict.get k (PyDict.set k v d) = Some v.
Proof.
  induction d as [|[k' v'] d IH]; simpl.
  - by rewrite decide_True.
  - case_decide as Hk; simpl; [by rewrite decide_True | by rewrite decide_False].
Qed.

Lemma dict_get_set_ne k k' v d : k ≠ k' → PyDict.get k' (PyDict.set k v d) = PyDict.get k' d.
Proof.
  intros Hne. induction d as [|[k0 v0] d IH]; simpl.
  - by rewrite decide_False.
  - case_decide as Hk; simpl.
    + subst k0. by rewrite !decide_False.
    + case_decide; [done | apply IH].
Qed.

(** Assigning to a key already present adds no key and moves none. *)
Lemma dict_keys_set_present k v d :
  k ∈ PyDict.keys d → PyDict.keys (PyDict.set k v d) = PyDict.keys d.
Proof.
  unfold PyDict.keys. induction d as [|[k' v'] d IH]; simpl.
  - intros Hin. by apply elem_of_nil in Hin.
  - intros Hin. case_decide as Hk; simpl; [by subst | ].
    f_equal. apply IH. apply elem_of_cons in Hin as [? | ?]; [done | done].
Qed.

(** Assigning to a new key appends it. *)
Lemma dict_keys_set_fresh k v d :
  k ∉ PyDict.keys d → PyDict.keys (PyDict.set k v d) = PyDict.keys d ++ [k].
Proof.
  unfold PyDict.keys. induction d as [|[k' v'] d IH]; simpl; [done | ].
  rewrite not_elem_of_cons. intros [Hne Hin].
  rewrite decide_False by done. simpl. f_equal. by apply IH.
Qed.

Lemma dict_set_NoDup k v d : NoDup (PyDict.keys d) → NoDup (PyDict.keys (PyDict.set k v d)).
Proof.
  intros Hnd. destruct (decide (k ∈ PyDict.keys d)) as [Hin | Hout].
  - by rewrite dict_keys_set_present.
  - rewrite dict_keys_set_fresh by done.
    apply NoDup_app. split_and!; [done | | apply NoDup_singleton].
    intros x Hx ->%list_elem_of_singleton. done.
Qed.

(** What the dict holds after an assignment. *)
Lemma dict_elem_of_set k v k' v' d :
  NoDup (PyDict.keys d) →
  (k', v') ∈ PyDict.set k v d → (k' = k ∧ v' = v) ∨ (k' ≠ k ∧ (k', v') ∈ d).
Proof.
  intros Hnd Hin.
  apply dict_elem_of_get in Hin; [ | by apply dict_set_NoDup].
  destruct (decide (k = k')) as [-> | Hne].
  - rewrite dict_get_set_eq in Hin. injection Hin as ->. by left.
  - rewrite dict_get_set_ne in Hin by done.
    right. split; [done | by apply dict_get_elem_of].
Qed.

End DictFacts.

(** ** The tool registry *)

Section RegistryFacts.
Context {T : Type} `{Tool T}.
Implicit Types (self : ToolManager.t T) (tool : T).

Lemma registry_ok_init : registry_ok ToolManager.__init__.
Proof.
  split; [apply NoDup_nil_2 | ].
  intros k tool Hin. by apply elem_of_nil in Hin.
Qed.

Lemma truthy_string_ne (s : string) : truthy s = true ↔ s ≠ "".
Proof. by destruct s. Qed.

Lemma register_tool_returns self tool tool_name :
  name (get_tool_definition tool) = Some tool_name → tool_name ≠ "" →
  ToolManager.register_tool self tool
  = (Return (), {| ToolManager.tools := PyDict.set tool_name tool (ToolManager.tools self) |}).
Proof.
  intros Hname Hne. unfold ToolManager.register_tool. rewrite Hname.
  apply truthy_string_ne in Hne. by rewrite Hne.
Qed.

(** A registration that raises leaves the registry as it was; one that
    returns stored the tool under its non-empty name. *)
Lemma register_tool_inv self tool self' :
  ToolManager.register_tool self tool = (Return (), self') →
  ∃ tool_name, name (get_tool_definition tool) = Some tool_name ∧ tool_name ≠ ""
    ∧ self' = {| ToolManager.tools := PyDict.set tool_name tool (ToolManager.tools self) |}.
Proof.
  unfold ToolManager.register_tool.
  destruct (name (get_tool_definition tool)) as [tool_name|]; [ | done].
  destruct (truthy tool_name) eqn:Htruthy; simpl; [ | done].
  intros [= <-]. exists tool_name. by rewrite <- truthy_string_ne.
Qed.

Lemma registry_ok_register self tool self' :
  registry_ok self →
  ToolManager.register_tool self tool = (Return (), self') →
  registry_ok self'.
Proof.
  intros [Hnd Hnames] (tool_name & Hname & Hne & ->)%register_tool_inv.
  split; simpl.
  - by apply dict_set_NoDup.
  - intros k tool' [[-> ->] | [_ Hin]]%dict_elem_of_set; [done | by apply Hnames | done].
Qed.

Lemma elem_of_get_tool_definitions self d :
  d ∈ ToolManager.get_tool_definitions self
  ↔ ∃ k tool, (k, tool) ∈ ToolManager.tools self ∧ d = get_tool_definition tool.
Proof.
  unfold ToolManager.get_tool_definitions, PyDict.values.
  rewrite list_elem_of_fmap. split.
  - intros (tool & -> & ([k tool'] & -> & Hin)%list_elem_of_fmap). by exists k, tool'.
  - intros (k & tool & Hin & ->). exists tool. split; [done | ].
    apply list_elem_of_fmap. by exists (k, tool).
Qed.

Lemma filter_eq_absent {A} `{EqDecision A} (x : A) (l : list A) :
  x ∉ l → filter (λ y, y = x) l = [].
Proof.
  induction l as [|y l IH]; [done | ].
  rewrite not_elem_of_cons. intros [Hne Hout].
  rewrite filter_cons_False by (by intros ->). by apply IH.
Qed.

Lemma NoDup_filter_eq_length {A} `{EqDecision A} (x : A) (l : list A) :
  NoDup l → x ∈ l → length (filter (λ y, y = x) l) = 1.
Proof.
  induction l as [|y l IH]; [intros _ Hin; by apply elem_of_nil in Hin | ].
  rewrite NoDup_cons. intros [Hy Hnd] Hin.
  destruct (decide (y = x)) as [-> | Hyx].
  - rewrite filter_cons_True by done. simpl. by rewrite filter_eq_absent.
  - rewrite filter_cons_False by done.
    apply IH; [done | ]. apply elem_of_cons in Hin as [-> | ?]; done.
Qed.

(** C7: for every name that is not registered and keyword arguments none of
    which is called [self] or [tool_name], [execute_tool] raises nothing and
    returns the text [Tool '<name>' not found], which contains [not found];
    the registry is left as it was. A keyword argument of one of those two
    names makes the call itself raise TypeError, whatever the name asked
    for. *)
Theorem execute_tool_unknown_name self (tool_name : string) (kw : kwargs) :
  PyDict.mem tool_name (ToolManager.tools self) = false →
  (ToolManager.clashing_argument kw = None →
     ∃ text,
       ToolManager.execute_tool self tool_name kw = (Return text, self)
       ∧ text = "Tool '" +:+ tool_name +:+ "' not found"
       ∧ contains "not found" text)
  ∧ (∀ argument, ToolManager.clashing_argument kw = Some argument →
       (argument = "self" ∨ argument = "tool_name")
       ∧ ToolManager.execute_tool self tool_name kw
         = (Raise (Exc "TypeError"
                     ("ToolManager.execute_tool() got multiple values for argument '"
                        +:+ argument +:+ "'")), self)).
Proof.
  intros Habsent%dict_mem_false. split.
  - intros Hbound.
    exists ("Tool '" +:+ tool_name +:+ "' not found"). split_and!; [ | done | ].
    + unfold ToolManager.execute_tool. by rewrite Hbound, Habsent.
    + exists ("Tool '" +:+ tool_name +:+ "' "), "".
      by rewrite !string_app_assoc.
  - intros argument Hclash. split.
    + unfold ToolManager.clashing_argument in Hclash.
      apply head_Some_elem_of in Hclash.
      by apply list_elem_of_filter in Hclash as [? _].
    + unfold ToolManager.execute_tool. by rewrite Hclash.
Qed.

(** C9: registering a tool under the name of a tool already registered raises
    nothing and replaces that tool: the name now leads to the new tool, the
    keys are the same as before so exactly one entry carries the name, every
    listed definition of that name is the new tool's, and the earlier tool's
    definition, when it differs from the new one, is no longer listed. *)
Theorem register_tool_replaces self (earlier tool : T) (tool_name : string) :
  registry_ok self →
  PyDict.get tool_name (ToolManager.tools self) = Some earlier →
  name (get_tool_definition tool) = Some tool_name →
  ∃ self',
    ToolManager.register_tool self tool = (Return (), self')
    ∧ PyDict.get tool_name (ToolManager.tools self') = Some tool
    ∧ PyDict.keys (ToolManager.tools self') = PyDict.keys (ToolManager.tools self)
    ∧ length (filter (λ k, k = tool_name) (PyDict.keys (ToolManager.tools self'))) = 1
    ∧ (∀ k, k ≠ tool_name →
         PyDict.get k (ToolManager.tools self') = PyDict.get k (ToolManager.tools self))
    ∧ (∀ d, d ∈ ToolManager.get_tool_definitions self' →
         name d = Some tool_name → d = get_tool_definition tool)
    ∧ (get_tool_definition earlier ≠ get_tool_definition tool →
         get_tool_definition earlier ∉ ToolManager.get_tool_definitions self').
Proof.
  intros [Hnd Hnames] Hearlier Hname.
  pose proof (dict_get_elem_of _ _ _ Hearlier) as Hin.
  destruct (Hnames _ _ Hin) as [Hearlier_name Hne].
  assert (Hkey : tool_name ∈ PyDict.keys (ToolManager.tools self)).
  { apply list_elem_of_fmap. by exists (tool_name, earlier). }
  eexists. split; [by apply register_tool_returns | ]. simpl.
  assert (Hlisted : ∀ d, d ∈ ToolManager.get_tool_definitions
              {| ToolManager.tools := PyDict.set tool_name tool (ToolManager.tools self) |} →
            name d = Some tool_name → d = get_tool_definition tool).
  { intros d (k & tool' & Hin' & ->)%elem_of_get_tool_definitions Hd. simpl in Hin'.
    apply dict_elem_of_set in Hin' as [[-> ->] | [Hk Hin']]; [done | | done].
    destruct (Hnames _ _ Hin') as [Hk' _]. congruence. }
  split_and!.
  - apply dict_get_set_eq.
  - by apply dict_keys_set_present.
  - rewrite dict_keys_set_present by done. by apply NoDup_filter_eq_length.
  - intros k Hk. by apply dict_get_set_ne.
  - done.
  - intros Hdiff Hstill. apply Hdiff, Hlisted; done.
Qed.

End RegistryFacts.

Lemma sample_registry_ok : registry_ok sample_registry.
Proof.
  split.
  - apply NoDup_singleton.
  - intros k tool Hin%list_elem_of_singleton. by injection Hin as -> ->.
Qed.

Lemma execute_tool_unknown_name_witness :
  PyDict.mem "nonexistent_tool" (ToolManager.tools sample_registry) = false
  ∧ ∃ text,
      ToolManager.execute_tool sample_registry "nonexistent_tool"
        [("query", SStr "variables")] = (Return text, sample_registry)
      ∧ text = "Tool '" +:+ "nonexistent_tool" +:+ "' not found"
      ∧ contains "not found" text.
Proof.
  split; [vm_compute; reflexivity | ].
  apply (execute_tool_unknown_name sample_registry "nonexistent_tool"
           [("query", SStr "variables")]).
  - vm_compute; reflexivity.
  - reflexivity.
Defined.

(** C7, where the claim fails: when the keyword arguments include one
    called [tool_name], the call raises TypeError although the name asked
    for is simply not registered. *)
Lemma execute_tool_argument_clash :
  PyDict.mem "nonexistent_tool" (ToolManager.tools sample_registry) = false
  ∧ ToolManager.execute_tool sample_registry "nonexistent_tool"
      [("tool_name", SStr "search_course_content")]
    = (Raise (Exc "TypeError"
                "ToolManager.execute_tool() got multiple values for argument 'tool_name'"),
       sample_registry)
  ∧ ¬ ∃ text,
        ToolManager.execute_tool sample_registry "nonexistent_tool"
          [("tool_name", SStr "search_course_content")] = (Return text, sample_registry).
Proof.
  split_and!; [vm_compute; reflexivity | vm_compute; reflexivity | ].
  intros [text Hreturn]. vm_compute in Hreturn. discriminate.
Qed.

Lemma register_tool_replaces_witness :
  registry_ok sample_registry
  ∧ PyDict.get "search_course_content" (ToolManager.tools sample_registry)
    = Some first_search_tool
  ∧ name (get_tool_definition second_search_tool) = Some "search_course_content"
  ∧ ∃ self',
      ToolManager.register_tool sample_registry second_search_tool = (Return (), self')
      ∧ ToolManager.get_tool_definitions self' = [get_tool_definition second_search_tool].
Proof.
  split_and!; [exact sample_registry_ok | reflexivity | reflexivity | ].
  destruct (register_tool_replaces sample_registry first_search_tool second_search_tool
              "search_course_content" sample_registry_ok eq_refl eq_refl)
    as (self' & Hreg & _).
  exists self'. split; [exact Hreg | ].
  vm_compute in Hreg. injection Hreg as <-. reflexivity.
Defined.

(** ** The content search tool: error and empty results *)

Lemma truthy_Z_ne (z : Z) : truthy z = true ↔ z ≠ 0%Z.
Proof. by destruct z. Qed.

(** On an error or an empty result [execute] returns early: the retained
    sources are not touched and no link is looked up. *)
Lemma execute_early_return (self : CourseSearchTool.t) (query : string)
    (course_name : option string) (lesson_number : option Z) :
  let results := search (CourseSearchTool.store self) query course_name lesson_number in
  truthy (error results) = true ∨ is_empty results = true →
  (CourseSearchTool.execute self query course_name lesson_number).1.2 = self
  ∧ (CourseSearchTool.execute self query course_name lesson_number).2 = [].
Proof.
  intros results Hearly. unfold CourseSearchTool.execute. fold results.
  destruct (truthy (error results)); [done | ].
  destruct Hearly as [? | ->]; done.
Qed.

(** The message for an empty result, whatever the filters. *)
Lemma execute_nothing_found (self : CourseSearchTool.t) (query : string)
    (course_name : option string) (lesson_number : option Z) :
  nothing_found (CourseSearchTool.store self) query course_name lesson_number →
  (CourseSearchTool.execute self query course_name lesson_number).1.1
  = "No relevant content found"
      +:+ match course_name with
          | Some c => if truthy c then " in course '" +:+ c +:+ "'" else ""
          | None => ""
          end
      +:+ match lesson_number with
          | Some n => if truthy n then " in lesson " +:+ pretty n else ""
          | None => ""
          end
      +:+ ".".
Proof.
  intros [Herr Hempty]. unfold CourseSearchTool.execute. rewrite Herr, Hempty.
  destruct course_name as [c|], lesson_number as [n|]; simpl;
    repeat (destruct (truthy _)); rewrite ?string_app_assoc; reflexivity.
Qed.

(** C6: when the backend returns no documents and no error for the search
    that [execute] runs with the arguments it was given, the message echoes
    the filters: for the course name [Physics] and no lesson number, as in
    [execute("quantum foo", course_name="Physics")], it is exactly
    [No relevant content found in course 'Physics'.]; in general it names a
    non-empty course name and a non-zero lesson number that were passed, the
    course before the lesson, and neither when none was passed. *)
Theorem execute_empty_result_echoes_filters (self : CourseSearchTool.t)
    (query : string) (course_name : option string) (lesson_number : option Z) :
  nothing_found (CourseSearchTool.store self) query course_name lesson_number →
  let message := (CourseSearchTool.execute self query course_name lesson_number).1.1 in
  (course_name = Some "Physics" → lesson_number = None →
     message = "No relevant content found in course 'Physics'.")
  ∧ (course_name = None → lesson_number = None →
       message = "No relevant content found.")
  ∧ (∀ c, course_name = Some c → c ≠ "" → lesson_number = None →
       message = "No relevant content found in course '" +:+ c +:+ "'.")
  ∧ (∀ n, course_name = None → lesson_number = Some n → n ≠ 0%Z →
       message = "No relevant content found in lesson " +:+ pretty n +:+ ".")
  ∧ (∀ c n, course_name = Some c → c ≠ "" → lesson_number = Some n → n ≠ 0%Z →
       message = "No relevant content found in course '" +:+ c +:+ "' in lesson "
                   +:+ pretty n +:+ ".").
Proof.
  intros Hnothing message. subst message.
  rewrite (execute_nothing_found _ _ _ _ Hnothing). split_and!.
  - by intros -> ->.
  - by intros -> ->.
  - intros c -> Hc%truthy_string_ne ->. rewrite Hc. by rewrite !string_app_assoc.
  - intros n -> -> Hn%truthy_Z_ne. rewrite Hn. by rewrite ?string_app_assoc.
  - intros c n -> Hc%truthy_string_ne -> Hn%truthy_Z_ne. rewrite Hc, Hn.
    by rewrite !string_app_assoc.
Qed.

Lemma execute_empty_result_echoes_filters_witness :
  is_empty (search filtering_store "quantum foo" None None) = false
  ∧ (CourseSearchTool.execute (CourseSearchTool.__init__ filtering_store)
       "quantum foo" (Some "Physics") None).1.1
    = "No relevant content found in course 'Physics'.".
Proof.
  split; [reflexivity | ].
  refine (proj1 (execute_empty_result_echoes_filters
                   (CourseSearchTool.__init__ filtering_store)
                   "quantum foo" (Some "Physics") None _) eq_refl eq_refl).
  split; reflexivity.
Defined.

(** C10: when the backend returns no documents and no error for the search
    that [execute] runs with a lesson number of 0 or an empty course name,
    that filter is left out of the message, because the echo tests the
    argument's truth value and not its presence: with no other filter the
    text is [No relevant content found.] although the search was run with
    the filter, and the other filter is echoed as if the falsy one had not
    been passed. *)
Theorem execute_empty_result_omits_falsy_filters (self : CourseSearchTool.t)
    (query : string) (course_name : option string) (lesson_number : option Z) :
  nothing_found (CourseSearchTool.store self) query course_name lesson_number →
  let message := (CourseSearchTool.execute self query course_name lesson_number).1.1 in
  (course_name = None → lesson_number = Some 0%Z →
     message = "No relevant content found.")
  ∧ (course_name = Some "" → lesson_number = None →
       message = "No relevant content found.")
  ∧ (course_name = Some "" → lesson_number = Some 0%Z →
       message = "No relevant content found.")
  ∧ (∀ c, course_name = Some c → c ≠ "" → lesson_number = Some 0%Z →
       message = "No relevant content found in course '" +:+ c +:+ "'.")
  ∧ (∀ n, course_name = Some "" → lesson_number = Some n → n ≠ 0%Z →
       message = "No relevant content found in lesson " +:+ pretty n +:+ ".").
Proof.
  intros Hnothing message. subst message.
  rewrite (execute_nothing_found _ _ _ _ Hnothing). split_and!.
  - by intros -> ->.
  - by intros -> ->.
  - by intros -> ->.
  - intros c -> Hc%truthy_string_ne ->. rewrite Hc. by rewrite !string_app_assoc.
  - intros n -> -> Hn%truthy_Z_ne. rewrite Hn. by rewrite ?string_app_assoc.
Qed.

Lemma execute_empty_result_omits_falsy_filters_witness :
  is_empty (search filtering_store "variables" None None) = false
  ∧ (CourseSearchTool.execute (CourseSearchTool.__init__ filtering_store)
       "variables" None (Some 0%Z)).1.1
    = "No relevant content found.".
Proof.
  split; [reflexivity | ].
  refine (proj1 (execute_empty_result_omits_falsy_filters
                   (CourseSearchTool.__init__ filtering_store)
                   "variables" None (Some 0%Z) _) eq_refl eq_refl).
  split; reflexivity.
Defined.

(** C4: what the code does where the claim fails. After a search that set the
    retained sources, a search with an empty result and a search with a
    backend error both return early and leave those earlier sources in
    place; [last_sources] is only assigned in [_format_results]. *)
Theorem execute_empty_or_error_keeps_earlier_sources :
  let tool0 := CourseSearchTool.__init__ sample_store in
  let tool1 := (CourseSearchTool.execute tool0 "variables" None None).1.2 in
  let after_empty := CourseSearchTool.execute tool1 "quantum foo" None None in
  let after_error := CourseSearchTool.execute tool1 "broken" None None in
  CourseSearchTool.last_sources tool1
    = [{| title := "CourseA - Lesson 1"; url := Some "http://courses/CourseA/1" |}]
  ∧ after_empty.1.1 = "No relevant content found."
  ∧ CourseSearchTool.last_sources after_empty.1.2
    = [{| title := "CourseA - Lesson 1"; url := Some "http://courses/CourseA/1" |}]
  ∧ after_error.1.1 = "Search error: index offline"
  ∧ CourseSearchTool.last_sources after_error.1.2
    = [{| title := "CourseA - Lesson 1"; url := Some "http://courses/CourseA/1" |}].
Proof. vm_compute. by repeat split. Qed.

(** ** The course outline tool *)

Lemma truthy_gmap_lookup {A} (m : gmap string A) (k : string) (a : A) :
  m !! k = Some a → truthy m = true.
Proof.
  intros Hk. unfold truthy, truthy_gmap. apply bool_decide_eq_true.
  intros ->. by rewrite lookup_empty in Hk.
Qed.

(** C8: for the stored metadata of [Intro to X] with its link and its one
    lesson, and a backend that resolves [Intro] to that course,
    [execute("Intro")] returns the outline below, which contains the four
    quoted pieces, and leaves the single source [Intro to X] with the course
    link. *)
Theorem outline_execute_intro (repr_str : string → string)
    (json_loads : string → option json)
    (self : CourseOutlineTool.t) (course_id : string)
    (stored : gmap string string) (others : list (gmap string string)) :
  _resolve_course_name (CourseOutlineTool.store self) "Intro" = Some course_id →
  course_id ≠ "" →
  course_catalog_get (CourseOutlineTool.store self) [course_id]
    = Return (Some {| metadatas := Some (stored :: others) |}) →
  stored !! "title" = Some "Intro to X" →
  stored !! "course_link" = Some "http://x" →
  stored !! "lessons_json" = Some intro_lessons_json →
  json_loads intro_lessons_json = Some intro_lessons →
  ∃ text self',
    CourseOutlineTool.execute repr_str json_loads self "Intro" = (Return text, self')
    ∧ text = "**Intro to X**" +:+ nl +:+ "Course Link: http://x" +:+ nl +:+ nl
               +:+ "**Lessons (1 total):**" +:+ nl +:+ "  1. Basics"
    ∧ contains "**Intro to X**" text
    ∧ contains "Course Link: http://x" text
    ∧ contains "**Lessons (1 total):**" text
    ∧ contains "1. Basics" text
    ∧ CourseOutlineTool.last_sources self'
      = [{| title := "Intro to X"; url := Some "http://x" |}].
Proof.
  intros Hresolve Hid%truthy_string_ne Hcatalog Htitle Hlink Hlessons Hdecode.
  do 2 eexists. split.
  { unfold CourseOutlineTool.execute.
    rewrite Hresolve. change (truthy (Some course_id)) with (truthy course_id).
    rewrite Hid. simpl. rewrite Hcatalog. simpl.
    rewrite (truthy_gmap_lookup _ _ _ Htitle). simpl.
    rewrite Htitle, Hlink, Hlessons. simpl. rewrite Hdecode. reflexivity. }
  split_and!.
  - reflexivity.
  - by exists "", (nl +:+ "Course Link: http://x" +:+ nl +:+ nl
                    +:+ "**Lessons (1 total):**" +:+ nl +:+ "  1. Basics").
  - by exists ("**Intro to X**" +:+ nl),
              (nl +:+ nl +:+ "**Lessons (1 total):**" +:+ nl +:+ "  1. Basics").
  - by exists ("**Intro to X**" +:+ nl +:+ "Course Link: http://x" +:+ nl +:+ nl),
              (nl +:+ "  1. Basics").
  - by exists ("**Intro to X**" +:+ nl +:+ "Course Link: http://x" +:+ nl +:+ nl
                 +:+ "**Lessons (1 total):**" +:+ nl +:+ "  "), "".
  - reflexivity.
Qed.

Lemma outline_execute_intro_witness :
  ∃ text self',
    CourseOutlineTool.execute quoted intro_json_loads
      (CourseOutlineTool.__init__ intro_store) "Intro" = (Return text, self')
    ∧ text = "**Intro to X**" +:+ nl +:+ "Course Link: http://x" +:+ nl +:+ nl
               +:+ "**Lessons (1 total):**" +:+ nl +:+ "  1. Basics"
    ∧ contains "**Intro to X**" text
    ∧ contains "Course Link: http://x" text
    ∧ contains "**Lessons (1 total):**" text
    ∧ contains "1. Basics" text
    ∧ CourseOutlineTool.last_sources self'
      = [{| title := "Intro to X"; url := Some "http://x" |}].
Proof.
  apply (outline_execute_intro quoted intro_json_loads (CourseOutlineTool.__init__ intro_store)
           "Intro to X" intro_metadata []).
  - reflexivity.
  - discriminate.
  - reflexivity.
  - vm_compute; reflexivity.
  - vm_compute; reflexivity.
  - vm_compute; reflexivity.
  - vm_compute; reflexivity.
Defined.

(** ** The generation engine *)

Section GeneratorFacts.
Context {Svc Mgr : Type} `{ModelService Svc} `{ToolDispatcher Mgr}.
Implicit Types (self : AIGenerator.t Svc) (tool_manager : Mgr).

(** A request is logged with its response and nothing else changes. *)
Lemma messages_create_log self params :
  calls (AIGenerator.self_client (AIGenerator.messages_create self params).2)
  = calls (AIGenerator.self_client self)
      ++ [(params, (AIGenerator.messages_create self params).1)].
Proof.
  unfold AIGenerator.messages_create.
  by destruct (respond (service (AIGenerator.self_client self)) params).
Qed.

Lemma messages_create_response self params :
  (AIGenerator.messages_create self params).1
  = (respond (service (AIGenerator.self_client self)) params).1.
Proof.
  unfold AIGenerator.messages_create.
  by destruct (respond (service (AIGenerator.self_client self)) params).
Qed.

Lemma messages_create_base_params self params :
  AIGenerator.self_base_params (AIGenerator.messages_create self params).2
  = AIGenerator.self_base_params self.
Proof.
  unfold AIGenerator.messages_create.
  by destruct (respond (service (AIGenerator.self_client self)) params).
Qed.

Lemma messages_create_service self params :
  service (AIGenerator.self_client (AIGenerator.messages_create self params).2)
  = (respond (service (AIGenerator.self_client self)) params).2.
Proof.
  unfold AIGenerator.messages_create.
  by destruct (respond (service (AIGenerator.self_client self)) params).
Qed.

(** Text extraction: the first text block, or the empty text. *)
Lemma first_text_no_text (blocks : list ContentBlock) :
  Forall (λ b, block_type b ≠ "text") blocks → AIGenerator.first_text blocks = "".
Proof.
  induction 1 as [|b blocks Hb _ IH]; [done | ].
  destruct b; [done | exact IH].
Qed.

Lemma first_text_first (before after : list ContentBlock) (text : string) :
  Forall (λ b, block_type b ≠ "text") before →
  AIGenerator.first_text (before ++ TextBlock text :: after) = text.
Proof.
  induction 1 as [|b blocks Hb _ IH]; [done | ].
  destruct b; [done | exact IH].
Qed.

Lemma execute_tool_calls_run (blocks : list ContentBlock) tool_manager :
  AIGenerator.execute_tool_calls blocks tool_manager
  = run_calls (tool_calls blocks) tool_manager.
Proof.
  revert tool_manager. induction blocks as [|b blocks IH]; intros tool_manager; [done | ].
  destruct b as [text | id tool_name input]; simpl; [apply IH | ].
  destruct (execute_tool tool_manager tool_name input) as [outcome tool_manager'].
  by rewrite IH.
Qed.

Lemma execute_tool_calls_length (blocks : list ContentBlock) tool_manager :
  length (AIGenerator.execute_tool_calls blocks tool_manager).1
  = length (tool_calls blocks).
Proof.
  revert tool_manager. induction blocks as [|b blocks IH]; intros tool_manager; [done | ].
  destruct b as [text | id tool_name input]; simpl; [apply IH | ].
  destruct (execute_tool tool_manager tool_name input) as [outcome tool_manager'].
  specialize (IH tool_manager').
  destruct (AIGenerator.execute_tool_calls blocks tool_manager'). simpl in *. by rewrite IH.
Qed.

(** The requests of the tool loop, for any service: the loop only appends to
    the log, issues at least one and at most [remaining + 1] requests, and
    returns the text extracted from the response to the last of them. *)
Lemma tool_rounds_log (remaining : nat) self (base_params : ApiParams)
    (history : list Message) (current_response : Response) tool_manager :
  ∃ issued final_request final_response,
    calls (AIGenerator.self_client
             (AIGenerator.tool_rounds remaining self base_params history
                current_response tool_manager).1.2)
    = calls (AIGenerator.self_client self) ++ issued
    ∧ length issued ≤ remaining + 1
    ∧ last issued = Some (final_request, final_response)
    ∧ (AIGenerator.tool_rounds remaining self base_params history
         current_response tool_manager).1.1
      = AIGenerator._extract_text_response final_response.
Proof.
  revert self history current_response tool_manager.
  induction remaining as [|remaining IH];
    intros self history current_response tool_manager; simpl.
  - match goal with |- context [AIGenerator.messages_create self ?p] =>
      pose proof (messages_create_log self p) as Hlog;
      destruct (AIGenerator.messages_create self p) as [final_response self'] eqn:Hcreate;
      exists [(p, final_response)], p, final_response
    end.
    simpl in *. by split_and!.
  - destruct (AIGenerator.execute_tool_calls (content current_response) tool_manager)
      as [tool_results tool_manager'].
    match goal with |- context [AIGenerator.messages_create self ?p] =>
      pose proof (messages_create_log self p) as Hlog;
      destruct (AIGenerator.messages_create self p) as [next_response self'] eqn:Hcreate;
      set (next_params := p) in *
    end.
    simpl in Hlog.
    destruct (negb (String.eqb (stop_reason next_response) "tool_use")).
    + exists [(next_params, next_response)], next_params, next_response.
      simpl. split_and!; [done | lia | done | done].
    + match goal with |- context [AIGenerator.tool_rounds remaining self' ?bp ?h ?r ?m] =>
        destruct (IH self' h r m) as (issued & final_request & final_response
                                       & Hcalls & Hlen & Hlast & Htext)
      end.
      exists ((next_params, next_response) :: issued), final_request, final_response.
      split_and!.
      * by rewrite Hcalls, Hlog, <- app_assoc.
      * simpl. lia.
      * rewrite last_cons. by rewrite Hlast.
      * done.
Qed.

(** Every request of the loop goes to the service, and the response logged
    with it is the service's answer in the state the earlier requests left. *)
Lemma tool_rounds_served (remaining : nat) self (base_params : ApiParams)
    (history : list Message) (current_response : Response) tool_manager :
  ∃ issued,
    calls (AIGenerator.self_client
             (AIGenerator.tool_rounds remaining self base_params history
                current_response tool_manager).1.2)
    = calls (AIGenerator.self_client self) ++ issued
    ∧ served (service (AIGenerator.self_client self)) issued.
Proof.
  revert self history current_response tool_manager.
  induction remaining as [|remaining IH];
    intros self history current_response tool_manager; simpl.
  - match goal with |- context [AIGenerator.messages_create self ?p] =>
      pose proof (messages_create_log self p) as Hlog;
      pose proof (messages_create_response self p) as Hresponse;
      destruct (AIGenerator.messages_create self p) as [final_response self'];
      exists [(p, final_response)]
    end.
    simpl in *. by split_and!.
  - destruct (AIGenerator.execute_tool_calls (content current_response) tool_manager)
      as [tool_results tool_manager'].
    match goal with |- context [AIGenerator.messages_create self ?p] =>
      pose proof (messages_create_log self p) as Hlog;
      pose proof (messages_create_response self p) as Hresponse;
      pose proof (messages_create_service self p) as Hservice;
      destruct (AIGenerator.messages_create self p) as [next_response self'];
      set (next_params := p) in *
    end.
    simpl in Hlog, Hresponse, Hservice.
    destruct (negb (String.eqb (stop_reason next_response) "tool_use")).
    + exists [(next_params, next_response)]. simpl. by split_and!.
    + match goal with |- context [AIGenerator.tool_rounds remaining self' ?bp ?h ?r ?m] =>
        destruct (IH self' h r m) as (issued & Hcalls & Hserved)
      end.
      exists ((next_params, next_response) :: issued). split.
      * by rewrite Hcalls, Hlog, <- app_assoc.
      * simpl. split; [done | ]. by rewrite <- Hservice.
Qed.

(** The first round of the loop: the request that follows it carries the
    conversation so far, the assistant turn, and, when the turn had tool
    calls, their results together in one user message. *)
Lemma tool_rounds_first_request (remaining : nat) self (base_params : ApiParams)
    (history : list Message) (current_response : Response) tool_manager :
  let tool_results :=
    (AIGenerator.execute_tool_calls (content current_response) tool_manager).1 in
  ∃ request response later,
    calls (AIGenerator.self_client
             (AIGenerator.tool_rounds (Datatypes.S remaining) self base_params history
                current_response tool_manager).1.2)
    = calls (AIGenerator.self_client self) ++ (request, response) :: later
    ∧ messages request
      = (history ++ [{| role := "assistant";
                        message_content := Blocks (content current_response) |}])
        ++ (if truthy tool_results
            then [{| role := "user"; message_content := ToolResults tool_results |}]
            else []).
Proof.
  simpl.
  destruct (AIGenerator.execute_tool_calls (content current_response) tool_manager)
    as [tool_results tool_manager'].
  match goal with |- context [AIGenerator.messages_create self ?p] =>
    pose proof (messages_create_log self p) as Hlog;
    destruct (AIGenerator.messages_create self p) as [next_response self'] eqn:Hcreate;
    set (next_params := p) in *
  end.
  simpl in Hlog.
  assert (Hmessages : messages next_params
    = (history ++ [{| role := "assistant";
                      message_content := Blocks (content current_response) |}])
      ++ (if truthy tool_results
          then [{| role := "user"; message_content := ToolResults tool_results |}]
          else [])).
  { subst next_params. simpl. destruct (truthy tool_results); [done | by rewrite app_nil_r]. }
  destruct (negb (String.eqb (stop_reason next_response) "tool_use")).
  - exists next_params, next_response, []. by split.
  - match goal with |- context [AIGenerator.tool_rounds remaining self' ?bp ?h ?r ?m] =>
      destruct (tool_rounds_log remaining self' bp h r m)
        as (issued & _ & _ & Hcalls & _)
    end.
    exists next_params, next_response, issued. split; [ | done].
    by rewrite Hcalls, Hlog, <- app_assoc.
Qed.

End GeneratorFacts.

Section GeneratorClaims.
Context {Svc Mgr : Type} `{ModelService Svc} `{ToolDispatcher Mgr}.
Implicit Types (self : AIGenerator.t Svc) (tool_manager : Mgr).

(** When every response asks for a tool, the loop runs all its rounds: it
    issues [remaining] requests that advertise the tools and then one that
    does not. *)
Lemma tool_rounds_insistent (remaining : nat) self (base_params : ApiParams)
    (history : list Message) (current_response : Response) tool_manager :
  (∀ s p, requests_tool (respond s p).1 = true) →
  ∃ in_rounds final_request final_response,
    calls (AIGenerator.self_client
             (AIGenerator.tool_rounds remaining self base_params history
                current_response tool_manager).1.2)
    = calls (AIGenerator.self_client self)
        ++ in_rounds ++ [(final_request, final_response)]
    ∧ length in_rounds = remaining
    ∧ Forall (λ c, tools c.1 = Some (default [] (tools base_params))
                   ∧ tool_choice c.1 = Some {| choice_type := "auto" |}) in_rounds
    ∧ tools final_request = None
    ∧ tool_choice final_request = None
    ∧ (AIGenerator.tool_rounds remaining self base_params history
         current_response tool_manager).1.1
      = AIGenerator._extract_text_response final_response.
Proof.
  intros Hinsists.
  revert self history current_response tool_manager.
  induction remaining as [|remaining IH];
    intros self history current_response tool_manager; simpl.
  - match goal with |- context [AIGenerator.messages_create self ?p] =>
      pose proof (messages_create_log self p) as Hlog;
      destruct (AIGenerator.messages_create self p) as [final_response self'] eqn:Hcreate;
      exists [], p, final_response
    end.
    simpl in *. by split_and!.
  - destruct (AIGenerator.execute_tool_calls (content current_response) tool_manager)
      as [tool_results tool_manager'].
    match goal with |- context [AIGenerator.messages_create self ?p] =>
      pose proof (messages_create_log self p) as Hlog;
      pose proof (messages_create_response self p) as Hresponse;
      destruct (AIGenerator.messages_create self p) as [next_response self'] eqn:Hcreate;
      set (next_params := p) in *
    end.
    simpl in Hlog, Hresponse.
    assert (Hstop : String.eqb (stop_reason next_response) "tool_use" = true).
    { rewrite Hresponse.
      specialize (Hinsists (service (AIGenerator.self_client self)) next_params).
      unfold requests_tool in Hinsists. by apply andb_true_iff in Hinsists as [? _]. }
    rewrite Hstop. simpl.
    match goal with |- context [AIGenerator.tool_rounds remaining self' ?bp ?h ?r ?m] =>
      destruct (IH self' h r m) as (in_rounds & final_request & final_response
                                     & Hcalls & Hlen & Hadvertise & Htools & Hchoice & Htext)
    end.
    exists ((next_params, next_response) :: in_rounds), final_request, final_response.
    split_and!; [ | simpl; by rewrite Hlen | | done | done | done].
    + by rewrite Hcalls, Hlog, <- app_assoc.
    + apply Forall_cons. split; [by split | done].
Qed.

(** The same for the whole of [_handle_tool_execution]. *)
Lemma handle_tool_execution_insistent self (initial_response : Response)
    (base_params : ApiParams) tool_manager :
  (∀ s p, requests_tool (respond s p).1 = true) →
  ∃ text self' tool_manager' in_rounds final_request final_response,
    AIGenerator._handle_tool_execution self initial_response base_params tool_manager
      = (text, self', tool_manager')
    ∧ calls (AIGenerator.self_client self')
      = calls (AIGenerator.self_client self)
          ++ in_rounds ++ [(final_request, final_response)]
    ∧ length in_rounds = AIGenerator.MAX_TOOL_ROUNDS
    ∧ Forall (λ c, is_Some (tools c.1)) in_rounds
    ∧ tools final_request = None
    ∧ tool_choice final_request = None
    ∧ text = AIGenerator._extract_text_response final_response.
Proof.
  intros Hinsists. unfold AIGenerator._handle_tool_execution.
  destruct (tool_rounds_insistent AIGenerator.MAX_TOOL_ROUNDS self base_params
              (messages base_params) initial_response tool_manager Hinsists)
    as (in_rounds & final_request & final_response
        & Hcalls & Hlen & Hadvertise & Htools & Hchoice & Htext).
  destruct (AIGenerator.tool_rounds _ _ _ _ _ _) as [[text self'] tool_manager'].
  exists text, self', tool_manager', in_rounds, final_request, final_response.
  simpl in *. split_and!; try done.
  eapply Forall_impl; [exact Hadvertise | ]. intros c [-> _]. by eexists.
Qed.

(** The bound counted from the entry of the loop: when every response of
    the model service requests a tool, [_handle_tool_execution] issues
    exactly [MAX_TOOL_ROUNDS + 1] requests; the requests made in the rounds
    advertise the tools and the final one advertises none. *)
Lemma tool_loop_round_bound self (initial_response : Response)
    (base_params : ApiParams) tool_manager :
  (∀ s p, requests_tool (respond s p).1 = true) →
  ∃ text self' tool_manager' in_rounds final_request final_response,
    AIGenerator._handle_tool_execution self initial_response base_params tool_manager
      = (text, self', tool_manager')
    ∧ calls (AIGenerator.self_client self')
      = calls (AIGenerator.self_client self)
          ++ in_rounds ++ [(final_request, final_response)]
    ∧ length (in_rounds ++ [(final_request, final_response)])
      = AIGenerator.MAX_TOOL_ROUNDS + 1
    ∧ length (in_rounds ++ [(final_request, final_response)])
      ≤ AIGenerator.MAX_TOOL_ROUNDS + 1
    ∧ Forall (λ c, is_Some (tools c.1)) in_rounds
    ∧ tools final_request = None
    ∧ tool_choice final_request = None
    ∧ text = AIGenerator._extract_text_response final_response.
Proof.
  intros Hinsists.
  destruct (handle_tool_execution_insistent self initial_response base_params
              tool_manager Hinsists)
    as (text & self' & tool_manager' & in_rounds & final_request & final_response
        & Hloop & Hcalls & Hlen & Hadvertise & Htools & Hchoice & Htext).
  exists text, self', tool_manager', in_rounds, final_request, final_response.
  rewrite length_app, Hlen. simpl. by split_and!.
Qed.

(** The loop is entered after the request that brought the first
    tool-requesting response: with an insistent model [generate_response]
    returns a text and logs that first request followed by the
    [MAX_TOOL_ROUNDS + 1] requests of the loop. *)
Lemma generate_response_insistent self (query : string)
    (conversation_history : option string) (offered : option (list ToolDef))
    tool_manager :
  (∀ s p, requests_tool (respond s p).1 = true) →
  ∃ text self' tool_manager' first in_loop final_request final_response,
    AIGenerator.generate_response self query conversation_history offered
      (Some tool_manager) = (Return text, self', Some tool_manager')
    ∧ calls (AIGenerator.self_client self')
      = calls (AIGenerator.self_client self) ++ first :: in_loop
    ∧ length in_loop = AIGenerator.MAX_TOOL_ROUNDS + 1
    ∧ last in_loop = Some (final_request, final_response)
    ∧ tools final_request = None
    ∧ text = AIGenerator._extract_text_response final_response.
Proof.
  intros Hinsists. unfold AIGenerator.generate_response.
  match goal with |- context [AIGenerator.messages_create self ?p] =>
    pose proof (messages_create_log self p) as Hlog;
    pose proof (messages_create_response self p) as Hresponse;
    destruct (AIGenerator.messages_create self p) as [response self1] eqn:Hcreate;
    set (api_params := p) in *
  end.
  simpl in Hlog, Hresponse.
  assert (Hstop : String.eqb (stop_reason response) "tool_use" = true).
  { rewrite Hresponse.
    specialize (Hinsists (service (AIGenerator.self_client self)) api_params).
    unfold requests_tool in Hinsists. by apply andb_true_iff in Hinsists as [? _]. }
  rewrite Hstop.
  destruct (handle_tool_execution_insistent self1 response api_params tool_manager Hinsists)
    as (text & self' & tool_manager' & in_rounds & final_request & final_response
        & Hloop & Hcalls & Hlen & _ & Htools & _ & Htext).
  rewrite Hloop.
  exists text, self', tool_manager', (api_params, response),
    (in_rounds ++ [(final_request, final_response)]), final_request, final_response.
  split_and!; [done | | | by rewrite last_snoc | done | done].
  - by rewrite Hcalls, Hlog, <- app_assoc.
  - rewrite length_app, Hlen. done.
Qed.

(** C1: when every response of the model service requests a tool, one call
    of [generate_response] with a tool manager returns a text after exactly
    [MAX_TOOL_ROUNDS + 2] requests: the first request, which carries the
    query alone, then [MAX_TOOL_ROUNDS] requests of the loop, which
    advertise the tools of the first request with automatic tool choice,
    then a final request without the [tools] and [tool_choice] keys. Each
    logged response is the service's answer to its request. The text
    returned is that of the first text block of the answer to the final
    request, and the empty text when that answer has no text block. *)
Theorem generate_response_round_bound self (query : string)
    (conversation_history : option string) (offered : option (list ToolDef))
    tool_manager :
  (∀ s p, requests_tool (respond s p).1 = true) →
  ∃ text self' tool_manager' first in_rounds final_request final_response,
    AIGenerator.generate_response self query conversation_history offered
      (Some tool_manager) = (Return text, self', Some tool_manager')
    ∧ calls (AIGenerator.self_client self')
      = calls (AIGenerator.self_client self)
          ++ first :: in_rounds ++ [(final_request, final_response)]
    ∧ served (service (AIGenerator.self_client self))
        (first :: in_rounds ++ [(final_request, final_response)])
    ∧ length (first :: in_rounds ++ [(final_request, final_response)])
      = AIGenerator.MAX_TOOL_ROUNDS + 2
    ∧ length in_rounds = AIGenerator.MAX_TOOL_ROUNDS
    ∧ messages first.1 = [{| role := "user"; message_content := Text query |}]
    ∧ Forall (λ c, tools c.1 = Some (default [] (tools first.1))
                   ∧ tool_choice c.1 = Some {| choice_type := "auto" |}) in_rounds
    ∧ tools final_request = None
    ∧ tool_choice final_request = None
    ∧ (Forall (λ b, block_type b ≠ "text") (content final_response) → text = "")
    ∧ (∀ before answer after,
         content final_response = before ++ TextBlock answer :: after →
         Forall (λ b, block_type b ≠ "text") before →
         text = answer).
Proof.
  intros Hinsists. unfold AIGenerator.generate_response.
  match goal with |- context [AIGenerator.messages_create self ?p] =>
    pose proof (messages_create_log self p) as Hlog;
    pose proof (messages_create_response self p) as Hresponse;
    pose proof (messages_create_service self p) as Hservice;
    assert (Hquery : messages p = [{| role := "user"; message_content := Text query |}])
      by (by destruct (truthy offered));
    destruct (AIGenerator.messages_create self p) as [response self1] eqn:Hcreate;
    set (api_params := p) in *
  end.
  simpl in Hlog, Hresponse, Hservice.
  assert (Hstop : String.eqb (stop_reason response) "tool_use" = true).
  { rewrite Hresponse.
    specialize (Hinsists (service (AIGenerator.self_client self)) api_params).
    unfold requests_tool in Hinsists. by apply andb_true_iff in Hinsists as [? _]. }
  rewrite Hstop. unfold AIGenerator._handle_tool_execution.
  destruct (tool_rounds_insistent AIGenerator.MAX_TOOL_ROUNDS self1 api_params
              (messages api_params) response tool_manager Hinsists)
    as (in_rounds & final_request & final_response
        & Hcalls & Hlen & Hadvertise & Htools & Hchoice & Htext).
  destruct (tool_rounds_served AIGenerator.MAX_TOOL_ROUNDS self1 api_params
              (messages api_params) response tool_manager)
    as (issued & Hcalls' & Hserved).
  rewrite Hcalls in Hcalls'. apply app_inv_head in Hcalls'. subst issued.
  destruct (AIGenerator.tool_rounds _ _ _ _ _ _) as [[text self'] tool_manager'].
  simpl in Hcalls, Htext.
  exists text, self', tool_manager', (api_params, response), in_rounds,
    final_request, final_response.
  split; [done | ]. split; [by rewrite Hcalls, Hlog, <- app_assoc | ].
  split; [simpl; split; [done | by rewrite <- Hservice] | ].
  split; [simpl; rewrite length_app, Hlen; simpl;
          unfold AIGenerator.MAX_TOOL_ROUNDS; lia | ].
  split; [done | ]. split; [done | ]. split; [done | ].
  split; [done | ]. split; [done | ]. subst text.
  unfold AIGenerator._extract_text_response. split.
  - apply first_text_no_text.
  - intros before answer after -> Hbefore. by apply first_text_first.
Qed.

(** C5: a round with two tool calls of which the first raises and the second
    succeeds. Both results go, in emission order, into one user message that
    follows the assistant turn in the next request; the first result is the
    text [Tool execution failed: ] followed by the exception's message; the
    loop carries on to that request and returns a text. *)
Theorem tool_fault_isolated self (initial_response : Response)
    (base_params : ApiParams) tool_manager
    (id1 name1 : string) (input1 : kwargs) (id2 name2 : string) (input2 : kwargs)
    (e : exception) (text2 : string) (manager1 manager2 : Mgr) :
  tool_calls (content initial_response) = [(id1, name1, input1); (id2, name2, input2)] →
  execute_tool tool_manager name1 input1 = (Raise e, manager1) →
  execute_tool manager1 name2 input2 = (Return text2, manager2) →
  ∃ text self' tool_manager' request response later,
    AIGenerator._handle_tool_execution self initial_response base_params tool_manager
      = (text, self', tool_manager')
    ∧ calls (AIGenerator.self_client self')
      = calls (AIGenerator.self_client self) ++ (request, response) :: later
    ∧ messages request
      = messages base_params
          ++ [ {| role := "assistant";
                  message_content := Blocks (content initial_response) |};
               {| role := "user";
                  message_content :=
                    ToolResults
                      [ {| result_type := "tool_result";
                           tool_use_id := id1;
                           result_content := "Tool execution failed: " +:+ exc_str e |};
                        {| result_type := "tool_result";
                           tool_use_id := id2;
                           result_content := text2 |} ] |} ]
    ∧ String.prefix "Tool execution failed:" ("Tool execution failed: " +:+ exc_str e) = true.
Proof.
  intros Hcalls Hfirst Hsecond. unfold AIGenerator._handle_tool_execution.
  destruct (tool_rounds_first_request 1 self base_params (messages base_params)
              initial_response tool_manager) as (request & response & later & Hlog & Hmessages).
  change (Datatypes.S 1) with AIGenerator.MAX_TOOL_ROUNDS in Hlog.
  destruct (AIGenerator.tool_rounds _ _ _ _ _ _) as [[text self'] tool_manager'].
  exists text, self', tool_manager', request, response, later.
  split_and!; [done | done | | done].
  rewrite Hmessages, execute_tool_calls_run, Hcalls. simpl.
  rewrite Hfirst, Hsecond. simpl. by rewrite <- app_assoc.
Qed.

(** The two ways out of [generate_response]: through the tool loop, which
    always returns a text, or straight from the first block of the
    response. *)
Lemma generate_response_tool_path self (query : string)
    (conversation_history : option string) (offered : option (list ToolDef))
    tool_manager :
  (∀ p, stop_reason (respond (service (AIGenerator.self_client self)) p).1 = "tool_use") →
  ∃ text,
    (AIGenerator.generate_response self query conversation_history offered
       (Some tool_manager)).1.1 = Return text.
Proof.
  intros Hstop. unfold AIGenerator.generate_response.
  match goal with |- context [AIGenerator.messages_create self ?p] =>
    pose proof (Hstop p) as Hresponse;
    rewrite <- (messages_create_response self p) in Hresponse;
    destruct (AIGenerator.messages_create self p) as [response self1]
  end.
  simpl in Hresponse. rewrite Hresponse. simpl.
  destruct (AIGenerator._handle_tool_execution _ _ _ _) as [[text self'] tool_manager'].
  by exists text.
Qed.

Lemma generate_response_direct_path self (query : string)
    (conversation_history : option string) (offered : option (list ToolDef))
    (tool_manager : option Mgr) :
  (∀ p, stop_reason (respond (service (AIGenerator.self_client self)) p).1 ≠ "tool_use")
  ∨ tool_manager = None →
  ∃ p,
    (AIGenerator.generate_response self query conversation_history offered
       tool_manager).1.1
    = AIGenerator.first_block_text (respond (service (AIGenerator.self_client self)) p).1.
Proof.
  intros Hdirect. unfold AIGenerator.generate_response.
  match goal with |- context [AIGenerator.messages_create self ?p] =>
    pose proof (messages_create_response self p) as Hresponse;
    destruct (AIGenerator.messages_create self p) as [response self1];
    exists p
  end.
  simpl in Hresponse. rewrite <- Hresponse.
  destruct tool_manager as [tool_manager|]; [ | done].
  destruct Hdirect as [Hstop | ?]; [ | done].
  destruct (String.eqb_spec (stop_reason response) "tool_use") as [Heq | _]; [ | done].
  exfalso. rewrite Hresponse in Heq. by eapply Hstop.
Qed.

End GeneratorClaims.

Lemma insistent_service_requests_tool (n : nat) (p : ApiParams) :
  requests_tool (respond n p).1 = true.
Proof. reflexivity. Qed.

Lemma generate_response_round_bound_witness :
  ∃ text self' tool_manager' first in_rounds final_request final_response,
    AIGenerator.generate_response
      (AIGenerator.__init__ {| service := 0; calls := [] |} "claude-sonnet-4-20250514")
      "What is a variable?" None (Some [CourseSearchTool.get_tool_definition])
      (Some mixed_registry) = (Return text, self', Some tool_manager')
    ∧ calls (AIGenerator.self_client self')
      = [] ++ first :: in_rounds ++ [(final_request, final_response)]
    ∧ served 0 (first :: in_rounds ++ [(final_request, final_response)])
    ∧ length (first :: in_rounds ++ [(final_request, final_response)])
      = AIGenerator.MAX_TOOL_ROUNDS + 2
    ∧ length in_rounds = AIGenerator.MAX_TOOL_ROUNDS
    ∧ messages first.1 = [{| role := "user"; message_content := Text "What is a variable?" |}]
    ∧ Forall (λ c, tools c.1 = Some (default [] (tools first.1))
                   ∧ tool_choice c.1 = Some {| choice_type := "auto" |}) in_rounds
    ∧ tools final_request = None
    ∧ tool_choice final_request = None
    ∧ (Forall (λ b, block_type b ≠ "text") (content final_response) → text = "")
    ∧ (∀ before answer after,
         content final_response = before ++ TextBlock answer :: after →
         Forall (λ b, block_type b ≠ "text") before →
         text = answer).
Proof.
  apply (generate_response_round_bound
           (AIGenerator.__init__ {| service := 0; calls := [] |} "claude-sonnet-4-20250514")
           "What is a variable?" None (Some [CourseSearchTool.get_tool_definition])
           mixed_registry).
  intros s p. reflexivity.
Defined.

(** C1, where the claim fails: with a model service every response of which
    requests a tool, one query issues four requests, one more than
    [MAX_TOOL_ROUNDS + 1]: the request that brought the first tool-requesting
    response is made before the loop is entered. The last of the four is the
    only one without tools, and the text returned is the empty text of its
    answer. *)
Lemma generate_response_exceeds_round_bound :
  let out :=
    AIGenerator.generate_response
      (AIGenerator.__init__ {| service := 0; calls := [] |} "claude-sonnet-4-20250514")
      "What is a variable?" None (Some [CourseSearchTool.get_tool_definition])
      (Some mixed_registry) in
  (∀ (n : nat) (p : ApiParams), requests_tool (respond n p).1 = true)
  ∧ out.1.1 = Return ""
  ∧ length (calls (AIGenerator.self_client out.1.2)) = 4
  ∧ ¬ length (calls (AIGenerator.self_client out.1.2)) ≤ AIGenerator.MAX_TOOL_ROUNDS + 1
  ∧ (λ c, bool_decide (is_Some (tools c.1))) <$> calls (AIGenerator.self_client out.1.2)
    = [true; true; true; false].
Proof.
  split; [by intros n p | ].
  vm_compute. split_and!; [reflexivity | reflexivity | lia | reflexivity].
Qed.

Lemma tool_loop_round_bound_witness :
  ∃ text self' tool_manager' in_rounds final_request final_response,
    AIGenerator._handle_tool_execution
      (AIGenerator.__init__ {| service := 1; calls := [] |} "claude-sonnet-4-20250514")
      (another_search 0) sample_params mixed_registry
      = (text, self', tool_manager')
    ∧ calls (AIGenerator.self_client self')
      = [] ++ in_rounds ++ [(final_request, final_response)]
    ∧ length (in_rounds ++ [(final_request, final_response)])
      = AIGenerator.MAX_TOOL_ROUNDS + 1
    ∧ length (in_rounds ++ [(final_request, final_response)])
      ≤ AIGenerator.MAX_TOOL_ROUNDS + 1
    ∧ Forall (λ c, is_Some (tools c.1)) in_rounds
    ∧ tools final_request = None
    ∧ tool_choice final_request = None
    ∧ text = AIGenerator._extract_text_response final_response.
Proof.
  apply (tool_loop_round_bound
           (AIGenerator.__init__ {| service := 1; calls := [] |} "claude-sonnet-4-20250514")
           (another_search 0) sample_params mixed_registry).
  intros s p. reflexivity.
Defined.

Lemma tool_fault_isolated_witness :
  ∃ text self' tool_manager' request response later,
    AIGenerator._handle_tool_execution
      (AIGenerator.__init__ {| service := 1; calls := [] |} "claude-sonnet-4-20250514")
      two_calls sample_params mixed_registry
      = (text, self', tool_manager')
    ∧ calls (AIGenerator.self_client self') = [] ++ (request, response) :: later
    ∧ messages request
      = messages sample_params
          ++ [ {| role := "assistant"; message_content := Blocks (content two_calls) |};
               {| role := "user";
                  message_content :=
                    ToolResults
                      [ {| result_type := "tool_result";
                           tool_use_id := "toolu_a";
                           result_content :=
                             "Tool execution failed: "
                               +:+ exc_str (Exc "RuntimeError" "index offline") |};
                        {| result_type := "tool_result";
                           tool_use_id := "toolu_b";
                           result_content := "**Intro to X**" |} ] |} ]
    ∧ String.prefix "Tool execution failed:"
        ("Tool execution failed: " +:+ exc_str (Exc "RuntimeError" "index offline")) = true.
Proof.
  apply (tool_fault_isolated
           (AIGenerator.__init__ {| service := 1; calls := [] |} "claude-sonnet-4-20250514")
           two_calls sample_params mixed_registry
           "toolu_a" "search_course_content" [("query", SStr "variables")]
           "toolu_b" "get_course_outline" [("course_title", SStr "Intro")]
           (Exc "RuntimeError" "index offline") "**Intro to X**"
           mixed_registry mixed_registry).
  - reflexivity.
  - vm_compute; reflexivity.
  - vm_compute; reflexivity.
Defined.

(** C2: what the code does where the claim fails. The direct return path
    reads the text of the first block without looking at its kind: for a
    response with no block it raises IndexError, and for a response whose
    first block is a tool call it raises AttributeError, although text
    extraction on the same responses yields the empty text. *)
Theorem generate_response_direct_path_raises :
  let generator (answer : Response) :=
    AIGenerator.__init__
      {| service := {| script := []; fallback := answer |}; calls := [] |}
      "claude-sonnet-4-20250514" in
  (AIGenerator.generate_response (generator empty_answer) "What is a variable?"
     None (Some [CourseSearchTool.get_tool_definition]) (Some mixed_registry)).1.1
    = Raise (Exc "IndexError" "list index out of range")
  ∧ (AIGenerator.generate_response (generator tool_call_only) "What is a variable?"
       None (Some [CourseSearchTool.get_tool_definition])
       (None : option (ToolManager.t ScriptedTool))).1.1
    = Raise (Exc "AttributeError" "'ToolUseBlock' object has no attribute 'text'")
  ∧ AIGenerator._extract_text_response empty_answer = ""
  ∧ AIGenerator._extract_text_response tool_call_only = "".
Proof. vm_compute. by repeat split. Qed.

(** ** De-duplication by first occurrence *)

Section FirstSeen.
Context {A K : Type} `{EqDecision K}.
Implicit Types (key : A → K) (l : list A).

Lemma first_seen_elem_of key l x : x ∈ first_seen key l → x ∈ l.
Proof.
  revert x. induction l as [|y l IH]; intros x; simpl; [done | ].
  intros [-> | Hin]%elem_of_cons; [by left | ].
  right. apply IH. by apply list_elem_of_filter in Hin as [_ ?].
Qed.

Lemma first_seen_keys key l k : k ∈ key <$> first_seen key l ↔ k ∈ key <$> l.
Proof.
  revert k. induction l as [|y l IH]; intros k; simpl; [done | ].
  rewrite !elem_of_cons, <- IH, !list_elem_of_fmap.
  split.
  - intros [-> | (x & -> & Hin)]; [by left | ].
    apply list_elem_of_filter in Hin as [_ Hin]. right. by exists x.
  - intros [-> | (x & -> & Hin)]; [by left | ].
    destruct (decide (key x = key y)) as [Heq | Hne]; [by left | ].
    right. exists x. split; [done | ]. by apply list_elem_of_filter.
Qed.

Lemma first_seen_NoDup key l : NoDup (key <$> first_seen key l).
Proof.
  induction l as [|y l IH]; simpl; [apply NoDup_nil_2 | ].
  apply NoDup_cons. split.
  - intros (x & Heq & Hin)%list_elem_of_fmap.
    apply list_elem_of_filter in Hin as [Hne _]. by apply Hne.
  - apply (sublist_NoDup _ _ IH). apply fmap_sublist, sublist_filter.
Qed.

Lemma first_seen_sublist key l : first_seen key l `sublist_of` l.
Proof.
  induction l as [|y l IH]; simpl; [done | ].
  apply sublist_skip. etrans; [apply sublist_filter | exact IH].
Qed.

(** Two keys that agree on which elements of the list are alike keep the
    same elements. *)
Lemma first_seen_ext {K'} `{EqDecision K'} key (key' : A → K') l :
  (∀ x y, x ∈ l → y ∈ l → key x = key y ↔ key' x = key' y) →
  first_seen key l = first_seen key' l.
Proof.
  induction l as [|z l IH]; intros Hagree; simpl; [done | ].
  f_equal. rewrite <- IH.
  - clear IH.
    assert (Hsub : ∀ x, x ∈ first_seen key l → x ∈ l) by apply first_seen_elem_of.
    revert Hsub. generalize (first_seen key l) as kept.
    induction kept as [|x kept IHkept]; intros Hsub; [done | ].
    assert (Hx : x ∈ l) by (apply Hsub; by left).
    assert (Hrest : ∀ y, y ∈ kept → y ∈ l) by (intros y Hy; apply Hsub; by right).
    destruct (decide (key x = key z)) as [Heq | Hne].
    + rewrite !filter_cons_False; [by apply IHkept | | ].
      * intros Hne'. apply Hne'. apply Hagree; [by right | by left | done].
      * by intros Hne'.
    + rewrite !filter_cons_True; [f_equal; by apply IHkept | | done].
      intros Heq'. apply Hne. apply Hagree; [by right | by left | done].
  - intros x y Hx Hy. apply Hagree; by right.
Qed.

End FirstSeen.

Lemma first_seen_fmap {A K : Type} `{EqDecision K} (key : A → K) (l : list A) :
  key <$> first_seen key l = first_seen id (key <$> l).
Proof.
  induction l as [|y l IH]; [done | ].
  rewrite fmap_cons. cbn [first_seen]. rewrite fmap_cons. f_equal.
  rewrite <- IH. generalize (first_seen key l) as kept.
  induction kept as [|x kept IHkept]; [done | ].
  destruct (decide (key x = key y)) as [Heq | Hne].
  - rewrite filter_cons_False by (by intros ?). rewrite fmap_cons.
    rewrite (filter_cons_False _ (key x)) by (by intros ?). exact IHkept.
  - rewrite filter_cons_True by done. rewrite !fmap_cons.
    rewrite (filter_cons_True _ (key x)) by done. by rewrite IHkept.
Qed.

(** ** Source titles *)

Lemma list_ascii_of_string_app (a b : string) :
  String.list_ascii_of_string (a +:+ b)
  = String.list_ascii_of_string a ++ String.list_ascii_of_string b.
Proof.
  induction a as [|x a IH]; [done | ].
  rewrite string_app_cons. simpl. by rewrite IH.
Qed.

Lemma list_ascii_of_string_inj (a b : string) :
  String.list_ascii_of_string a = String.list_ascii_of_string b → a = b.
Proof.
  intros Heq.
  rewrite <- (String.string_of_list_ascii_of_string a),
          <- (String.string_of_list_ascii_of_string b).
  by rewrite Heq.
Qed.

(** A list is cut in one way only at the first occurrence of an element,
    and in one way only at the last. *)
Lemma split_at_first {A} (x : A) (l1 r1 l2 r2 : list A) :
  x ∉ l1 → x ∉ l2 → l1 ++ x :: r1 = l2 ++ x :: r2 → l1 = l2 ∧ r1 = r2.
Proof.
  revert l2. induction l1 as [|y l1 IH]; intros [|z l2]; simpl.
  - intros _ _ [= ->]. done.
  - intros _ Hz%not_elem_of_cons [= -> _]. by destruct Hz.
  - intros Hy%not_elem_of_cons _ [= -> _]. by destruct Hy.
  - intros [_ Hl1]%not_elem_of_cons [_ Hl2]%not_elem_of_cons [= -> Heq].
    destruct (IH l2 Hl1 Hl2 Heq) as [-> ->]. done.
Qed.

Lemma split_at_last {A} (x : A) (l1 r1 l2 r2 : list A) :
  x ∉ r1 → x ∉ r2 → l1 ++ x :: r1 = l2 ++ x :: r2 → l1 = l2 ∧ r1 = r2.
Proof.
  intros Hr1 Hr2 Heq.
  apply (f_equal reverse) in Heq.
  rewrite !reverse_app, !reverse_cons, <- !app_assoc in Heq. simpl in Heq.
  apply split_at_first in Heq as [Hr Hl]; [ | by rewrite elem_of_reverse..].
  split; [ | by apply (inj reverse)]. by apply (inj reverse).
Qed.

(** The decimal text of an integer has no blank in it. *)
Lemma pretty_N_go_no_space (x : N) (s : string) :
  " "%char ∉ String.list_ascii_of_string s →
  " "%char ∉ String.list_ascii_of_string (pretty_N_go x s).
Proof.
  revert s. induction (N.lt_wf_0 x) as [x _ IH]; intros s Hs.
  destruct (decide (x = 0%N)) as [-> | Hx]; [by rewrite pretty_N_go_0 | ].
  rewrite pretty_N_go_step by lia.
  apply IH; [apply N.div_lt; lia | ].
  simpl. apply not_elem_of_cons. split; [ | done].
  unfold pretty_N_char. by repeat case_match.
Qed.

Lemma pretty_Z_no_space (z : Z) :
  " "%char ∉ String.list_ascii_of_string (pretty z).
Proof.
  assert (Hpos : ∀ p : positive,
    " "%char ∉ String.list_ascii_of_string (pretty p)).
  { intros p. unfold pretty, pretty_positive, pretty, pretty_N.
    case_decide; [done | ]. apply pretty_N_go_no_space. apply not_elem_of_nil. }
  destruct z as [|p|p]; unfold pretty, pretty_Z.
  - simpl. by intros [? | ?%elem_of_nil]%elem_of_cons.
  - apply Hpos.
  - rewrite list_ascii_of_string_app. simpl.
    apply not_elem_of_cons. split; [done | apply Hpos].
Qed.

(** A title with a lesson number determines the course and the number. *)
Lemma with_lesson_inj (c1 c2 : string) (n1 n2 : Z) :
  CourseSearchTool.with_lesson c1 (Some n1) = CourseSearchTool.with_lesson c2 (Some n2) →
  c1 = c2 ∧ n1 = n2.
Proof.
  unfold CourseSearchTool.with_lesson. intros Heq.
  apply (f_equal String.list_ascii_of_string) in Heq.
  rewrite !list_ascii_of_string_app in Heq.
  change (String.list_ascii_of_string " - Lesson ")
    with (String.list_ascii_of_string " - Lesson" ++ [" "%char]) in Heq.
  rewrite <- !app_assoc in Heq. rewrite !app_assoc in Heq.
  rewrite <- !(app_assoc _ [" "%char]) in Heq. simpl in Heq.
  apply split_at_last in Heq as [Hc Hn]; [ | apply pretty_Z_no_space..].
  apply app_inv_tail, list_ascii_of_string_inj in Hc.
  apply list_ascii_of_string_inj, (inj pretty) in Hn. done.
Qed.

(** Among chunks that all carry a lesson number, and among chunks of which
    none does, the source title tells the (course, lesson) pairs apart. *)
Lemma source_title_of_inj_lessons (m1 m2 : ChunkMeta) :
  is_Some (lesson_number m1) → is_Some (lesson_number m2) →
  CourseSearchTool.source_title_of m1 = CourseSearchTool.source_title_of m2 →
  pair_of m1 = pair_of m2.
Proof.
  unfold CourseSearchTool.source_title_of, pair_of.
  intros [n1 ->] [n2 ->] [-> ->]%with_lesson_inj. done.
Qed.

Lemma source_title_of_inj_no_lessons (m1 m2 : ChunkMeta) :
  lesson_number m1 = None → lesson_number m2 = None →
  CourseSearchTool.source_title_of m1 = CourseSearchTool.source_title_of m2 →
  pair_of m1 = pair_of m2.
Proof.
  unfold CourseSearchTool.source_title_of, pair_of.
  intros -> ->. simpl. by intros ->.
Qed.

Lemma pair_of_source_title (m1 m2 : ChunkMeta) :
  pair_of m1 = pair_of m2 →
  CourseSearchTool.source_title_of m1 = CourseSearchTool.source_title_of m2.
Proof.
  unfold CourseSearchTool.source_title_of, pair_of. by intros [= -> ->].
Qed.

(** ** The content search tool: the rebuilt source list *)

Lemma filter_all {A} (P : A → Prop) `{!∀ x, Decision (P x)} (l : list A) :
  (∀ x, x ∈ l → P x) → filter P l = l.
Proof.
  induction l as [|x l IH]; intros Hall; [done | ].
  rewrite filter_cons_True by (apply Hall; by left).
  f_equal. apply IH. intros y Hy. apply Hall. by right.
Qed.

Section FormatResults.
Variable vs : VectorStore.

Lemma fresh_seen (seen : gset string) (meta : ChunkMeta) (kept : list ChunkMeta) :
  CourseSearchTool.source_title_of meta ∈ seen →
  filter (λ m, CourseSearchTool.source_title_of m ∉ seen) (meta :: filter (λ m, CourseSearchTool.source_title_of m ≠ CourseSearchTool.source_title_of meta) kept)
  = filter (λ m, CourseSearchTool.source_title_of m ∉ seen) kept.
Proof.
  intros Hseen. rewrite filter_cons_False by (by intros ?).
  apply list_filter_filter_l. intros m Hm Heq. apply Hm. by rewrite Heq.
Qed.

Lemma fresh_unseen (seen : gset string) (meta : ChunkMeta) (kept : list ChunkMeta) :
  CourseSearchTool.source_title_of meta ∉ seen →
  filter (λ m, CourseSearchTool.source_title_of m ∉ seen) (meta :: filter (λ m, CourseSearchTool.source_title_of m ≠ CourseSearchTool.source_title_of meta) kept)
  = meta :: filter (λ m, CourseSearchTool.source_title_of m ∉ {[CourseSearchTool.source_title_of meta]} ∪ seen) kept.
Proof.
  intros Hunseen. rewrite filter_cons_True by done. f_equal.
  rewrite list_filter_filter. apply list_filter_iff. intros m.
  rewrite not_elem_of_union, not_elem_of_singleton. tauto.
Qed.

(** The loop from any state: it appends, for each chunk that is the first of
    a title not seen before, its source and, when the chunk has a lesson
    number, one link look-up. *)
Lemma loop_body_fold (items : list (string * ChunkMeta)) (st : CourseSearchTool.loop_state) :
  let added :=
    filter (λ m, CourseSearchTool.source_title_of m ∉ CourseSearchTool.seen_titles st)
      (first_seen CourseSearchTool.source_title_of items.*2) in
  CourseSearchTool.sources (foldl (CourseSearchTool.loop_body vs) st items)
    = CourseSearchTool.sources st ++ (source_of vs <$> added)
  ∧ CourseSearchTool.lookups (foldl (CourseSearchTool.loop_body vs) st items)
    = CourseSearchTool.lookups st ++ omap lookup_of added.
Proof.
  revert st. induction items as [|[doc meta] items IH]; intros st.
  - simpl. by rewrite !app_nil_r.
  - cbn [foldl fmap list_fmap snd first_seen].
    specialize (IH (CourseSearchTool.loop_body vs st (doc, meta))).
    destruct IH as [IHsources IHlookups]. cbv zeta in IHsources, IHlookups.
    rewrite IHsources, IHlookups. clear IHsources IHlookups.
    unfold CourseSearchTool.loop_body.
    fold (CourseSearchTool.source_title_of meta).
    change (CourseSearchTool.with_lesson (CourseSearchTool.meta_course_title meta)
              (lesson_number meta)) with (CourseSearchTool.source_title_of meta).
    destruct (decide (CourseSearchTool.source_title_of meta ∈ CourseSearchTool.seen_titles st)) as [Hseen | Hunseen];
      cbn [CourseSearchTool.sources CourseSearchTool.lookups CourseSearchTool.seen_titles].
    + by rewrite fresh_seen.
    + rewrite fresh_unseen by done.
      rewrite fmap_cons. cbn [omap list_omap].
      unfold lookup_of at 2, source_of at 2.
      fold (CourseSearchTool.source_title_of meta).
      destruct (lesson_number meta) as [n|]; rewrite <- !app_assoc; done.
Qed.

Lemma run_loop_sources (results : SearchResults) :
  CourseSearchTool.sources (CourseSearchTool.run_loop vs results)
    = source_of vs <$> first_seen CourseSearchTool.source_title_of (chunks_of results)
  ∧ CourseSearchTool.lookups (CourseSearchTool.run_loop vs results)
    = omap lookup_of (first_seen CourseSearchTool.source_title_of (chunks_of results)).
Proof.
  unfold CourseSearchTool.run_loop, chunks_of.
  destruct (loop_body_fold (zip (documents results) (metadata results))
              CourseSearchTool.loop_init) as [Hsources Hlookups].
  cbv zeta in Hsources, Hlookups. rewrite Hsources, Hlookups. simpl.
  by rewrite filter_all by (intros m _; apply not_elem_of_empty).
Qed.

End FormatResults.

Lemma lookup_of_pair_of (m : ChunkMeta) : lookup_of m = lookup_of_pair (pair_of m).
Proof. unfold lookup_of, lookup_of_pair, pair_of. simpl. by destruct (lesson_number m). Qed.

Lemma lookup_of_title (m1 m2 : ChunkMeta) (p : string * Z) :
  lookup_of m1 = Some p → lookup_of m2 = Some p →
  CourseSearchTool.source_title_of m1 = CourseSearchTool.source_title_of m2.
Proof.
  unfold lookup_of, CourseSearchTool.source_title_of.
  destruct (lesson_number m1), (lesson_number m2); try done.
  intros [= <-] [= Hc Hn]. by rewrite Hc, Hn.
Qed.

(** Chunks of distinct titles lead to distinct look-ups. *)
Lemma lookups_NoDup (kept : list ChunkMeta) :
  NoDup (CourseSearchTool.source_title_of <$> kept) → NoDup (omap lookup_of kept).
Proof.
  induction kept as [|m kept IH]; [intros _; apply NoDup_nil_2 | ].
  rewrite fmap_cons, NoDup_cons. intros [Hm Hnd]. cbn [omap list_omap].
  destruct (lookup_of m) as [p|] eqn:Hp; [ | by apply IH].
  apply NoDup_cons. split; [ | by apply IH].
  intros (m' & Hin & Hp')%list_elem_of_omap. apply Hm.
  apply list_elem_of_fmap. exists m'. split; [ | done].
  by apply (lookup_of_title m m' p).
Qed.

Lemma lessons_uniform_titles (chunks : list ChunkMeta) :
  lessons_uniform chunks →
  ∀ m1 m2, m1 ∈ chunks → m2 ∈ chunks →
    CourseSearchTool.source_title_of m1 = CourseSearchTool.source_title_of m2
    ↔ pair_of m1 = pair_of m2.
Proof.
  intros Huniform m1 m2 H1 H2. split; [ | apply pair_of_source_title].
  destruct Huniform as [Hall | Hnone]; rewrite Forall_forall in *.
  - apply source_title_of_inj_lessons; auto.
  - apply source_title_of_inj_no_lessons; auto.
Qed.

(** C3: the source list [_format_results] retains has one entry per distinct
    source title of the chunks, in first-seen order, built from the first
    chunk of that title; a link is looked up once for each entry whose chunk
    has a lesson number and never for an entry whose chunk has none; when
    the chunks all carry a lesson number, or none does, that is one entry per
    distinct (course, lesson) pair and one look-up per pair with a lesson;
    three chunks, two of (CourseA, 1) and one of (CourseA, 2), give exactly
    two entries in first-seen order. *)
Theorem format_results_sources (self : CourseSearchTool.t) (results : SearchResults) :
  let out := CourseSearchTool._format_results self results in
  let chunks := chunks_of results in
  let kept := first_seen CourseSearchTool.source_title_of chunks in
  CourseSearchTool.last_sources out.1.2 = source_of (CourseSearchTool.store self) <$> kept
  ∧ out.2 = omap lookup_of kept
  ∧ title <$> CourseSearchTool.last_sources out.1.2
    = first_seen id (CourseSearchTool.source_title_of <$> chunks)
  ∧ NoDup (title <$> CourseSearchTool.last_sources out.1.2)
  ∧ (∀ t, t ∈ title <$> CourseSearchTool.last_sources out.1.2
          ↔ t ∈ CourseSearchTool.source_title_of <$> chunks)
  ∧ NoDup out.2
  ∧ (lessons_uniform chunks →
       pair_of <$> kept = first_seen id (pair_of <$> chunks)
       ∧ one_source_per_pair self results)
  ∧ (chunks = metadata three_chunks →
       CourseSearchTool.last_sources out.1.2
       = [ {| title := "CourseA - Lesson 1";
              url := get_lesson_link (CourseSearchTool.store self) "CourseA" 1 |};
           {| title := "CourseA - Lesson 2";
              url := get_lesson_link (CourseSearchTool.store self) "CourseA" 2 |} ]
       ∧ out.2 = [("CourseA", 1%Z); ("CourseA", 2%Z)]).
Proof.
  intros out chunks kept.
  destruct (run_loop_sources (CourseSearchTool.store self) results) as [Hsources Hlookups].
  fold chunks in Hsources, Hlookups. fold kept in Hsources, Hlookups.
  assert (Hout_sources : CourseSearchTool.last_sources out.1.2
            = source_of (CourseSearchTool.store self) <$> kept) by exact Hsources.
  assert (Hout_lookups : out.2 = omap lookup_of kept) by exact Hlookups.
  assert (Htitles : title <$> CourseSearchTool.last_sources out.1.2
            = CourseSearchTool.source_title_of <$> kept).
  { rewrite Hout_sources, <- list_fmap_compose. done. }
  assert (Hpairs : lessons_uniform chunks →
            pair_of <$> kept = first_seen id (pair_of <$> chunks)).
  { intros Huniform. rewrite <- first_seen_fmap. f_equal.
    apply first_seen_ext. by apply lessons_uniform_titles. }
  split_and!.
  - done.
  - done.
  - rewrite Htitles. apply first_seen_fmap.
  - rewrite Htitles. apply first_seen_NoDup.
  - intros t. rewrite Htitles. apply first_seen_keys.
  - rewrite Hout_lookups. apply lookups_NoDup, first_seen_NoDup.
  - intros Huniform. split; [by apply Hpairs | ].
    unfold one_source_per_pair. cbv zeta. fold out. fold chunks.
    rewrite <- (Hpairs Huniform). split.
    + by rewrite Hout_sources, !length_fmap.
    + intros c n (m & Hm & Hin)%list_elem_of_fmap.
      apply NoDup_filter_eq_length.
      * rewrite Hout_lookups. apply lookups_NoDup, first_seen_NoDup.
      * rewrite Hout_lookups. apply list_elem_of_omap. exists m. split; [done | ].
        by rewrite lookup_of_pair_of, <- Hm.
  - intros Hthree. rewrite Hout_sources, Hout_lookups. unfold kept. rewrite Hthree.
    split; reflexivity.
Qed.

(** C3, as first stated, fails on two chunks of different pairs with one
    title: a course called [CourseA - Lesson 1] without a lesson number and
    lesson 1 of [CourseA]. Two distinct pairs are met, one source is
    retained, and no link is looked up. *)
Lemma format_results_title_collision :
  let out := CourseSearchTool._format_results
               (CourseSearchTool.__init__ sample_store) colliding_chunks in
  first_seen id (pair_of <$> chunks_of colliding_chunks)
    = [("CourseA - Lesson 1", None); ("CourseA", Some 1%Z)]
  ∧ CourseSearchTool.last_sources out.1.2
    = [{| title := "CourseA - Lesson 1"; url := None |}]
  ∧ out.2 = []
  ∧ ¬ one_source_per_pair (CourseSearchTool.__init__ sample_store) colliding_chunks.
Proof.
  split_and!; [vm_compute; reflexivity.. | ].
  intros [Hlength _]. vm_compute in Hlength. discriminate.
Qed.

(** With documents and no error, [execute] is [_format_results] on the
    backend's answer. *)
Lemma execute_formats_results (self : CourseSearchTool.t) (query : string)
    (course_name : option string) (lesson_number : option Z) :
  let results := search (CourseSearchTool.store self) query course_name lesson_number in
  truthy (error results) = false → is_empty results = false →
  CourseSearchTool.execute self query course_name lesson_number
  = CourseSearchTool._format_results self results.
Proof.
  intros results Herror Hempty. unfold CourseSearchTool.execute. fold results.
  by rewrite Herror, Hempty.
Qed.

(* ================================================================== *)
(** * Further properties of the registry *)
(* ================================================================== *)

Section RegistryMore.
Context {T : Type} `{Tool T}.
Implicit Types (self : ToolManager.t T) (tool : T).

Lemma dict_values_set_fresh {K V : Type} `{EqDecision K} (k : K) (v : V) (d : PyDict.t K V) :
  k ∉ PyDict.keys d → PyDict.values (PyDict.set k v d) = PyDict.values d ++ [v].
Proof.
  unfold PyDict.keys, PyDict.values. induction d as [|[k' v'] d IH]; simpl; [done | ].
  rewrite not_elem_of_cons. intros [Hne Hin].
  rewrite decide_False by done. simpl. f_equal. by apply IH.
Qed.

Lemma register_tool_raise_unchanged self tool :
  (ToolManager.register_tool self tool).1 ≠ Return () →
  (ToolManager.register_tool self tool).2 = self.
Proof.
  unfold ToolManager.register_tool.
  destruct (name (get_tool_definition tool)) as [tool_name|]; [ | done].
  by destruct (truthy tool_name).
Qed.

(** X1: a tool whose definition has no name, or the empty name, is refused:
    [register_tool] raises ValueError and the registry is left as it was, so
    the listed definitions do not change. *)
Theorem register_tool_nameless_raises self tool :
  name (get_tool_definition tool) = None ∨ name (get_tool_definition tool) = Some "" →
  ToolManager.register_tool self tool
    = (Raise (Exc "ValueError" "Tool must have a 'name' in its definition"), self)
  ∧ ToolManager.get_tool_definitions (ToolManager.register_tool self tool).2
    = ToolManager.get_tool_definitions self.
Proof.
  intros Hnameless.
  assert (Hraise : ToolManager.register_tool self tool
    = (Raise (Exc "ValueError" "Tool must have a 'name' in its definition"), self)).
  { unfold ToolManager.register_tool. by destruct Hnameless as [-> | ->]. }
  by rewrite Hraise.
Qed.

(** X2: registering a tool under a name that is not yet a key appends it: its
    definition comes last in the listing, its name last among the keys, the
    name now leads to the tool, and every other name leads where it did. *)
Theorem register_tool_fresh_appends self tool (tool_name : string) :
  name (get_tool_definition tool) = Some tool_name →
  tool_name ≠ "" →
  PyDict.mem tool_name (ToolManager.tools self) = false →
  ∃ self',
    ToolManager.register_tool self tool = (Return (), self')
    ∧ ToolManager.get_tool_definitions self'
      = ToolManager.get_tool_definitions self ++ [get_tool_definition tool]
    ∧ PyDict.keys (ToolManager.tools self')
      = PyDict.keys (ToolManager.tools self) ++ [tool_name]
    ∧ PyDict.get tool_name (ToolManager.tools self') = Some tool
    ∧ (∀ k, k ≠ tool_name →
         PyDict.get k (ToolManager.tools self') = PyDict.get k (ToolManager.tools self)).
Proof.
  intros Hname Hne Hfresh%dict_mem_false%dict_get_None.
  eexists. split; [by apply register_tool_returns | ].
  unfold ToolManager.get_tool_definitions. simpl. split_and!.
  - rewrite dict_values_set_fresh by done. by rewrite fmap_app.
  - by apply dict_keys_set_fresh.
  - apply dict_get_set_eq.
  - intros k Hk. by apply dict_get_set_ne.
Qed.

Lemma register_all_snoc self (tools : list T) tool :
  register_all self (tools ++ [tool])
  = (ToolManager.register_tool (register_all self tools) tool).2.
Proof. unfold register_all. by rewrite foldl_app. Qed.

Lemma register_all_ok self (tools : list T) :
  registry_ok self → registry_ok (register_all self tools).
Proof.
  intros Hok. induction tools as [|tool tools IH] using rev_ind; [done | ].
  rewrite register_all_snoc.
  destruct (ToolManager.register_tool (register_all self tools) tool)
    as [[[]|e] self'] eqn:Hregister; simpl.
  - by eapply registry_ok_register.
  - pose proof (register_tool_raise_unchanged (register_all self tools) tool) as Hsame.
    rewrite Hregister in Hsame. simpl in Hsame. by rewrite Hsame.
Qed.

(** X3: whatever tools are registered on a new registry, in whatever order
    and whether or not some are refused, the registry keeps its shape: no
    name is a key twice, and every tool sits under the non-empty name of its
    own definition. *)
Theorem register_all_registry_ok (tools : list T) :
  registry_ok (register_all ToolManager.__init__ tools).
Proof. apply register_all_ok, registry_ok_init. Qed.

Lemma register_all_keys self (tools : list T) :
  Forall (λ tool, ∃ n, name (get_tool_definition tool) = Some n ∧ n ≠ "") tools →
  ∀ k, k ∈ PyDict.keys (ToolManager.tools (register_all self tools))
       ↔ k ∈ PyDict.keys (ToolManager.tools self)
         ∨ Some k ∈ (name ∘ get_tool_definition) <$> tools.
Proof.
  induction tools as [|tool tools IH] using rev_ind; intros Hnamed k.
  - simpl. split; [by left | ]. intros [? | Hin]; [done | ]. by apply elem_of_nil in Hin.
  - apply Forall_app in Hnamed as [Hnamed Htool].
    apply Forall_singleton in Htool as (n & Hname & Hne).
    rewrite register_all_snoc, (register_tool_returns _ _ n) by done. simpl.
    rewrite fmap_app, elem_of_app. simpl. rewrite list_elem_of_singleton, Hname.
    specialize (IH Hnamed).
    destruct (decide (n ∈ PyDict.keys (ToolManager.tools (register_all self tools))))
      as [Hin | Hout].
    + rewrite dict_keys_set_present by done. rewrite IH. split.
      * intros [? | ?]; auto.
      * intros [? | [? | [= ->]]]; auto. by apply IH.
    + rewrite dict_keys_set_fresh by done. rewrite elem_of_app, list_elem_of_singleton, IH.
      split.
      * intros [[? | ?] | ->]; auto.
      * intros [? | [? | [= ->]]]; auto.
Qed.

(** X4: tools with distinct non-empty names, registered one after the other
    on a new registry, are listed by [get_tool_definitions] in the order of
    their registration. *)
Theorem get_tool_definitions_registration_order (tools : list T) :
  Forall (λ tool, ∃ n, name (get_tool_definition tool) = Some n ∧ n ≠ "") tools →
  NoDup ((name ∘ get_tool_definition) <$> tools) →
  ToolManager.get_tool_definitions (register_all ToolManager.__init__ tools)
  = get_tool_definition <$> tools.
Proof.
  induction tools as [|tool tools IH] using rev_ind; intros Hnamed Hdistinct; [done | ].
  apply Forall_app in Hnamed as [Hnamed Htool].
  apply Forall_singleton in Htool as (n & Hname & Hne).
  rewrite fmap_app in Hdistinct. apply NoDup_app in Hdistinct as (Hdistinct & Hnew & _).
  rewrite register_all_snoc, (register_tool_returns _ _ n) by done.
  unfold ToolManager.get_tool_definitions in *. simpl.
  rewrite dict_values_set_fresh.
  - rewrite !fmap_app. by rewrite IH.
  - intros [Hin | Hin]%(register_all_keys _ _ Hnamed); [by apply elem_of_nil in Hin | ].
    apply (Hnew _ Hin). simpl. rewrite Hname. by left.
Qed.

(** X5: a tool that has just been registered is the one its name runs: for
    keyword arguments none of which is called [self] or [tool_name],
    [execute_tool] under that name gives the outcome of the tool's own
    [execute], returned or raised, and stores the tool object as the call
    left it; a keyword argument of one of those two names makes the call
    raise TypeError and the tool is not run. *)
Theorem execute_tool_after_register self tool (tool_name : string) (kw : kwargs) :
  name (get_tool_definition tool) = Some tool_name →
  tool_name ≠ "" →
  let registered := (ToolManager.register_tool self tool).2 in
  (ToolManager.clashing_argument kw = None →
     (ToolManager.execute_tool registered tool_name kw).1 = (execute tool kw).1
     ∧ PyDict.get tool_name
         (ToolManager.tools (ToolManager.execute_tool registered tool_name kw).2)
       = Some (execute tool kw).2)
  ∧ (∀ argument, ToolManager.clashing_argument kw = Some argument →
       ToolManager.execute_tool registered tool_name kw
       = (Raise (Exc "TypeError"
                   ("ToolManager.execute_tool() got multiple values for argument '"
                      +:+ argument +:+ "'")), registered)
       ∧ PyDict.get tool_name (ToolManager.tools registered) = Some tool).
Proof.
  intros Hname Hne registered. subst registered.
  rewrite (register_tool_returns _ _ tool_name) by done. simpl.
  unfold ToolManager.execute_tool. simpl. split.
  - intros ->. rewrite dict_get_set_eq.
    destruct (execute tool kw) as [outcome tool']. simpl.
    split; [done | apply dict_get_set_eq].
  - intros argument ->. split; [done | apply dict_get_set_eq].
Qed.

(** X6: executing a tool by name touches that tool alone: the keys and their
    order stay, and every other name leads to the same tool object as
    before, whether the name was registered or not and whether the tool
    returned or raised. *)
Theorem execute_tool_frame self (tool_name : string) (kw : kwargs) :
  PyDict.keys (ToolManager.tools (ToolManager.execute_tool self tool_name kw).2)
    = PyDict.keys (ToolManager.tools self)
  ∧ ∀ k, k ≠ tool_name →
      PyDict.get k (ToolManager.tools (ToolManager.execute_tool self tool_name kw).2)
      = PyDict.get k (ToolManager.tools self).
Proof.
  unfold ToolManager.execute_tool.
  destruct (ToolManager.clashing_argument kw); [done | ].
  destruct (PyDict.get tool_name (ToolManager.tools self)) as [tool|] eqn:Hget; [ | done].
  destruct (execute tool kw) as [outcome tool']. simpl. split.
  - apply dict_keys_set_present.
    apply dict_get_elem_of in Hget. apply list_elem_of_fmap. by exists (tool_name, tool).
  - intros k Hk. by apply dict_get_set_ne.
Qed.

End RegistryMore.

Lemma register_tool_nameless_raises_witness :
  (name (get_tool_definition nameless_tool) = None
   ∨ name (get_tool_definition nameless_tool) = Some "")
  ∧ ToolManager.register_tool sample_registry nameless_tool
    = (Raise (Exc "ValueError" "Tool must have a 'name' in its definition"), sample_registry).
Proof.
  split; [by left | ].
  apply (register_tool_nameless_raises sample_registry nameless_tool). by left.
Defined.

Lemma register_tool_fresh_appends_witness :
  PyDict.mem "get_course_outline" (ToolManager.tools sample_registry) = false
  ∧ ∃ self',
      ToolManager.register_tool sample_registry answering_tool = (Return (), self')
      ∧ ToolManager.get_tool_definitions self'
        = [CourseSearchTool.get_tool_definition; CourseOutlineTool.get_tool_definition].
Proof.
  split; [vm_compute; reflexivity | ].
  destruct (register_tool_fresh_appends sample_registry answering_tool "get_course_outline")
    as (self' & Hregister & Hlisted & _); [reflexivity | discriminate | vm_compute; reflexivity | ].
  exists self'. split; [exact Hregister | exact Hlisted].
Defined.

Lemma get_tool_definitions_registration_order_witness :
  ToolManager.get_tool_definitions
    (register_all ToolManager.__init__ [answering_tool; first_search_tool])
  = [CourseOutlineTool.get_tool_definition; CourseSearchTool.get_tool_definition].
Proof.
  change ([CourseOutlineTool.get_tool_definition; CourseSearchTool.get_tool_definition])
    with (get_tool_definition <$> [answering_tool; first_search_tool]).
  apply (get_tool_definitions_registration_order [answering_tool; first_search_tool]).
  - repeat constructor; eexists; (split; [reflexivity | discriminate]).
  - apply NoDup_cons. split; [ | apply NoDup_singleton].
    intros Hin%list_elem_of_singleton. discriminate.
Defined.

Lemma execute_tool_after_register_witness :
  (ToolManager.execute_tool
     (ToolManager.register_tool sample_registry failing_tool).2
     "search_course_content" [("query", SStr "variables")]).1
  = Raise (Exc "RuntimeError" "index offline").
Proof.
  exact (proj1 (proj1 (execute_tool_after_register sample_registry failing_tool
                         "search_course_content" [("query", SStr "variables")]
                         eq_refl ltac:(discriminate)) eq_refl)).
Defined.

(** ** The sources the registry hands out *)

Section SourcesFacts.
Context {T : Type} `{SourceTracking T}.
Implicit Types (self : ToolManager.t T) (tool : T).

Lemma first_sources_skip (before after : list T) :
  Forall without_sources before →
  ToolManagerSources.first_sources (before ++ after)
  = ToolManagerSources.first_sources after.
Proof.
  induction 1 as [|tool before [Hnone | Hempty] _ IH]; simpl; [done | | ].
  - by rewrite Hnone.
  - by rewrite Hempty.
Qed.

Lemma values_reset (d : PyDict.t string T) :
  PyDict.values (prod_map id ToolManagerSources.reset_tool <$> d)
  = ToolManagerSources.reset_tool <$> PyDict.values d.
Proof.
  unfold PyDict.values. rewrite <- !list_fmap_compose.
  apply list_fmap_ext. by intros _ [k tool] _.
Qed.

Lemma reset_tool_without_sources tool :
  without_sources (ToolManagerSources.reset_tool tool).
Proof.
  unfold ToolManagerSources.reset_tool, without_sources.
  destruct (last_sources_attr tool) as [l|] eqn:Hattr; [ | by left].
  right. apply last_sources_assigned. by rewrite Hattr.
Qed.

(** X7: after [reset_sources] the registry has no sources to hand out,
    whatever its tools held before; the reset changes no key. *)
Theorem get_last_sources_after_reset self :
  ToolManagerSources.get_last_sources (ToolManagerSources.reset_sources self) = []
  ∧ PyDict.keys (ToolManager.tools (ToolManagerSources.reset_sources self))
    = PyDict.keys (ToolManager.tools self).
Proof.
  split.
  - unfold ToolManagerSources.get_last_sources, ToolManagerSources.reset_sources. simpl.
    rewrite values_reset.
    rewrite <- (app_nil_r (_ <$> _)). rewrite first_sources_skip; [done | ].
    apply Forall_fmap, Forall_true. intros tool. apply reset_tool_without_sources.
  - unfold ToolManagerSources.reset_sources, PyDict.keys. simpl.
    rewrite <- list_fmap_compose. apply list_fmap_ext. by intros _ [k tool] _.
Qed.

(** X8: [get_last_sources] hands out the list of the first tool, in
    registration order, that has a non-empty one; the sources of every tool
    registered after it are left out, not merged. *)
Theorem get_last_sources_first_wins self (before after : list (string * T))
    (k : string) tool (l : list Source) :
  ToolManager.tools self = before ++ (k, tool) :: after →
  Forall (λ entry, without_sources entry.2) before →
  last_sources_attr tool = Some l →
  l ≠ [] →
  ToolManagerSources.get_last_sources self = l.
Proof.
  intros Htools Hbefore Hattr Hl.
  unfold ToolManagerSources.get_last_sources, PyDict.values.
  rewrite Htools, fmap_app, first_sources_skip by by apply Forall_fmap.
  simpl. rewrite Hattr. by destruct l.
Qed.

(** X9: [get_last_sources] returns the empty list exactly when no registered
    tool holds a non-empty source list. *)
Theorem get_last_sources_empty_iff self :
  ToolManagerSources.get_last_sources self = []
  ↔ Forall without_sources (PyDict.values (ToolManager.tools self)).
Proof.
  unfold ToolManagerSources.get_last_sources.
  induction (PyDict.values (ToolManager.tools self)) as [|tool tools IH]; simpl.
  - split; [intros _; apply Forall_nil_2 | done].
  - rewrite Forall_cons. unfold without_sources at 1.
    destruct (last_sources_attr tool) as [[|x l]|] eqn:Hattr; simpl.
    + rewrite IH. split; [intros ?; split; [by right | done] | by intros [_ ?]].
    + split; [done | ]. by intros [[[=] | [=]] _].
    + rewrite IH. split; [intros ?; split; [by left | done] | by intros [_ ?]].
Qed.

End SourcesFacts.

Lemma get_last_sources_first_wins_witness :
  ToolManagerSources.get_last_sources both_tools_registry
  = [{| title := "CourseA - Lesson 1"; url := Some "http://courses/CourseA/1" |}].
Proof.
  apply (get_last_sources_first_wins both_tools_registry []
           [("get_course_outline",
             inr {| CourseOutlineTool.store := intro_store;
                    CourseOutlineTool.last_sources :=
                      [{| title := "Intro to X"; url := Some "http://x" |}] |})]
           "search_course_content"
           (inl {| CourseSearchTool.store := sample_store;
                   CourseSearchTool.last_sources :=
                     [{| title := "CourseA - Lesson 1";
                         url := Some "http://courses/CourseA/1" |}] |})).
  - reflexivity.
  - apply Forall_nil_2.
  - reflexivity.
  - discriminate.
Defined.

(* ================================================================== *)
(** * Further properties of the content search tool *)
(* ================================================================== *)

(** X10: a backend error is handed back word for word and nothing else
    happens: the tool object is unchanged and no link is looked up, even when
    the answer carries documents as well. *)
Theorem execute_propagates_error (self : CourseSearchTool.t) (query : string)
    (course_name : option string) (lesson_number : option Z) (message : string) :
  error (search (CourseSearchTool.store self) query course_name lesson_number)
    = Some message →
  message ≠ "" →
  CourseSearchTool.execute self query course_name lesson_number = (message, self, []).
Proof.
  intros Herror Hmessage%truthy_string_ne. unfold CourseSearchTool.execute.
  rewrite Herror. change (truthy (Some message)) with (truthy message).
  by rewrite Hmessage.
Qed.

Lemma execute_propagates_error_witness :
  CourseSearchTool.execute (CourseSearchTool.__init__ failing_store) "variables" None None
  = ("Search error: index offline", CourseSearchTool.__init__ failing_store, []).
Proof.
  apply (execute_propagates_error (CourseSearchTool.__init__ failing_store)
           "variables" None None "Search error: index offline").
  - reflexivity.
  - discriminate.
Defined.

Lemma with_lesson_bracket (c : string) (lesson_num : option Z) :
  CourseSearchTool.with_lesson ("[" +:+ c) lesson_num
  = "[" +:+ CourseSearchTool.with_lesson c lesson_num.
Proof. by destruct lesson_num. Qed.

Lemma loop_body_formatted (vs : VectorStore) (items : list (string * ChunkMeta))
    (st : CourseSearchTool.loop_state) :
  CourseSearchTool.formatted (foldl (CourseSearchTool.loop_body vs) st items)
  = CourseSearchTool.formatted st ++ (chunk_block <$> items).
Proof.
  revert st. induction items as [|[doc meta] items IH]; intros st.
  - simpl. by rewrite app_nil_r.
  - cbn [foldl fmap list_fmap]. rewrite IH. unfold CourseSearchTool.loop_body.
    rewrite with_lesson_bracket.
    assert (Hblock :
      ("[" +:+ CourseSearchTool.with_lesson (CourseSearchTool.meta_course_title meta)
                 (lesson_number meta)) +:+ "]" +:+ nl +:+ doc
      = chunk_block (doc, meta)).
    { unfold chunk_block, CourseSearchTool.source_title_of. simpl.
      by rewrite !string_app_assoc. }
    destruct (decide _); cbn [CourseSearchTool.formatted];
      rewrite <- app_assoc; simpl; by rewrite <- Hblock, !string_app_assoc.
Qed.

(** X11: the text of [_format_results] is one block per chunk, blocks
    separated by a blank line, each block the chunk's source title in
    brackets followed by the document; a chunk that repeats a title is
    written again, and documents or metadata without a partner are left
    out. *)
Theorem format_results_text (self : CourseSearchTool.t) (results : SearchResults) :
  let items := zip (documents results) (metadata results) in
  (CourseSearchTool._format_results self results).1.1
    = join (nl +:+ nl) (chunk_block <$> items)
  ∧ length items = length (documents results) `min` length (metadata results).
Proof.
  intros items. split.
  - unfold CourseSearchTool._format_results, CourseSearchTool.run_loop. simpl.
    by rewrite loop_body_formatted.
  - unfold items. apply length_zip_with.
Qed.

(** X12: when the backend returns documents but no metadata for them, and no
    error, the search answers with the empty text and an empty source list:
    the documents are dropped and the sources of an earlier search are
    cleared. *)
Theorem execute_documents_without_metadata (self : CourseSearchTool.t) (query : string)
    (course_name : option string) (lesson_number : option Z) :
  let results := search (CourseSearchTool.store self) query course_name lesson_number in
  truthy (error results) = false →
  documents results ≠ [] →
  metadata results = [] →
  ∃ self',
    CourseSearchTool.execute self query course_name lesson_number = ("", self', [])
    ∧ CourseSearchTool.last_sources self' = [].
Proof.
  intros results Herror Hdocuments Hmetadata.
  unfold CourseSearchTool.execute. fold results. rewrite Herror.
  assert (Hempty : is_empty results = false).
  { unfold is_empty. by destruct (documents results). }
  rewrite Hempty.
  unfold CourseSearchTool._format_results, CourseSearchTool.run_loop.
  rewrite Hmetadata.
  assert (Hzip : zip (documents results) ([] : list ChunkMeta) = [])
    by (by destruct (documents results)).
  rewrite Hzip. simpl. by eexists.
Qed.

Lemma execute_documents_without_metadata_witness :
  ∃ self',
    CourseSearchTool.execute
      {| CourseSearchTool.store := lopsided_store;
         CourseSearchTool.last_sources :=
           [{| title := "CourseA - Lesson 1"; url := None |}] |}
      "variables" None None = ("", self', [])
    ∧ CourseSearchTool.last_sources self' = [].
Proof.
  apply (execute_documents_without_metadata
           {| CourseSearchTool.store := lopsided_store;
              CourseSearchTool.last_sources :=
                [{| title := "CourseA - Lesson 1"; url := None |}] |}
           "variables" None None).
  - reflexivity.
  - discriminate.
  - reflexivity.
Defined.

(** X13: a search that finds documents replaces the retained sources: what
    the tool holds afterwards is fixed by the backend's answer and owes
    nothing to what it held before. *)
Theorem execute_overwrites_sources (vs : VectorStore) (held held' : list Source)
    (query : string) (course_name : option string) (lesson_number : option Z) :
  let results := search vs query course_name lesson_number in
  truthy (error results) = false →
  is_empty results = false →
  CourseSearchTool.last_sources
    (CourseSearchTool.execute
       {| CourseSearchTool.store := vs; CourseSearchTool.last_sources := held |}
       query course_name lesson_number).1.2
  = CourseSearchTool.last_sources
      (CourseSearchTool.execute
         {| CourseSearchTool.store := vs; CourseSearchTool.last_sources := held' |}
         query course_name lesson_number).1.2
  ∧ CourseSearchTool.last_sources
      (CourseSearchTool.execute
         {| CourseSearchTool.store := vs; CourseSearchTool.last_sources := held |}
         query course_name lesson_number).1.2
    = source_of vs <$> first_seen CourseSearchTool.source_title_of (chunks_of results).
Proof.
  intros results Herror Hempty.
  rewrite !execute_formats_results by done. simpl.
  fold results. by rewrite (proj1 (run_loop_sources vs results)).
Qed.

Lemma execute_overwrites_sources_witness :
  CourseSearchTool.last_sources
    (CourseSearchTool.execute
       {| CourseSearchTool.store := sample_store;
          CourseSearchTool.last_sources := [{| title := "Intro to X"; url := None |}] |}
       "variables" None None).1.2
  = [{| title := "CourseA - Lesson 1"; url := Some "http://courses/CourseA/1" |}].
Proof.
  rewrite (proj2 (execute_overwrites_sources sample_store
                    [{| title := "Intro to X"; url := None |}] []
                    "variables" None None eq_refl eq_refl)).
  reflexivity.
Defined.

Lemma length_omap_le {A B} (f : A → option B) (l : list A) :
  length (omap f l) ≤ length l.
Proof.
  induction l as [|x l IH]; [done | ].
  cbn [omap list_omap]. destruct (f x); cbn [length]; [ | lia].
  apply le_n_S, IH.
Qed.

(** X14: the tool never looks up more links than it retains sources, never
    retains more sources than there are chunks, and every link it retains
    is the backend's answer to a look-up it made; a source built from a
    chunk without lesson number has no link. *)
Theorem format_results_lookup_bounds (self : CourseSearchTool.t) (results : SearchResults) :
  let out := CourseSearchTool._format_results self results in
  length out.2 ≤ length (CourseSearchTool.last_sources out.1.2)
  ∧ length (CourseSearchTool.last_sources out.1.2)
    ≤ length (documents results) `min` length (metadata results)
  ∧ ∀ source, source ∈ CourseSearchTool.last_sources out.1.2 →
      url source = None
      ∨ ∃ course n,
          (course, n) ∈ out.2
          ∧ title source = CourseSearchTool.with_lesson course (Some n)
          ∧ url source = get_lesson_link (CourseSearchTool.store self) course n.
Proof.
  intros out.
  destruct (run_loop_sources (CourseSearchTool.store self) results) as [Hsources Hlookups].
  assert (Hout_sources : CourseSearchTool.last_sources out.1.2
    = source_of (CourseSearchTool.store self)
        <$> first_seen CourseSearchTool.source_title_of (chunks_of results))
    by exact Hsources.
  assert (Hout_lookups : out.2
    = omap lookup_of (first_seen CourseSearchTool.source_title_of (chunks_of results)))
    by exact Hlookups.
  rewrite Hout_sources, Hout_lookups, length_fmap.
  split_and!.
  - apply length_omap_le.
  - etrans; [apply sublist_length, first_seen_sublist | ].
    unfold chunks_of. by rewrite length_fmap, length_zip_with.
  - intros source (meta & -> & Hkept)%list_elem_of_fmap.
    unfold source_of. simpl.
    destruct (lesson_number meta) as [n|] eqn:Hlesson; [right | by left].
    exists (CourseSearchTool.meta_course_title meta), n. split_and!.
    + apply list_elem_of_omap. exists meta. split; [done | ].
      unfold lookup_of. by rewrite Hlesson.
    + unfold CourseSearchTool.source_title_of. by rewrite Hlesson.
    + done.
Qed.

Lemma filter_none {A} (P : A → Prop) `{!∀ x, Decision (P x)} (l : list A) :
  (∀ x, x ∈ l → ¬ P x) → filter P l = [].
Proof.
  induction l as [|x l IH]; intros Hnone; [done | ].
  rewrite filter_cons_False by (apply Hnone; by left).
  apply IH. intros y Hy. apply Hnone. by right.
Qed.

Lemma first_seen_one_key {A K : Type} `{EqDecision K} (key : A → K) (x : A) (l : list A) :
  (∀ y, y ∈ l → key y = key x) → first_seen key (x :: l) = [x].
Proof.
  intros Hsame. simpl. f_equal. apply filter_none.
  intros y Hy%first_seen_elem_of Hne. by apply Hne, Hsame.
Qed.

(** X15: chunks whose metadata has neither course title nor lesson number
    all count as the course [unknown]: however many there are, they leave a
    single source of that title without link, and no link is looked up. *)
Theorem format_results_untitled_chunks (self : CourseSearchTool.t)
    (results : SearchResults) :
  chunks_of results ≠ [] →
  Forall (λ meta, course_title meta = None ∧ lesson_number meta = None)
    (chunks_of results) →
  CourseSearchTool.last_sources (CourseSearchTool._format_results self results).1.2
    = [{| title := "unknown"; url := None |}]
  ∧ (CourseSearchTool._format_results self results).2 = [].
Proof.
  intros Hsome Huntitled.
  destruct (run_loop_sources (CourseSearchTool.store self) results) as [Hsources Hlookups].
  assert (Hout_sources :
    CourseSearchTool.last_sources (CourseSearchTool._format_results self results).1.2
    = source_of (CourseSearchTool.store self)
        <$> first_seen CourseSearchTool.source_title_of (chunks_of results))
    by exact Hsources.
  assert (Hout_lookups : (CourseSearchTool._format_results self results).2
    = omap lookup_of (first_seen CourseSearchTool.source_title_of (chunks_of results)))
    by exact Hlookups.
  rewrite Hout_sources, Hout_lookups.
  assert (Htitle : ∀ meta, meta ∈ chunks_of results →
            CourseSearchTool.source_title_of meta = "unknown"
            ∧ lesson_number meta = None).
  { intros meta Hin. rewrite Forall_forall in Huntitled.
    destruct (Huntitled meta Hin) as [Hcourse Hlesson].
    unfold CourseSearchTool.source_title_of, CourseSearchTool.meta_course_title.
    by rewrite Hcourse, Hlesson. }
  destruct (chunks_of results) as [|meta rest]; [done | ].
  rewrite first_seen_one_key.
  - destruct (Htitle meta) as [Hmeta Hlesson]; [by left | ].
    simpl. unfold source_of, lookup_of. by rewrite Hmeta, Hlesson.
  - intros other Hother.
    destruct (Htitle meta) as [-> _]; [by left | ].
    by destruct (Htitle other) as [-> _]; [by right | ].
Qed.

Lemma format_results_untitled_chunks_witness :
  CourseSearchTool.last_sources
    (CourseSearchTool.execute (CourseSearchTool.__init__ untitled_store)
       "variables" None None).1.2
  = [{| title := "unknown"; url := None |}].
Proof.
  exact (proj1 (format_results_untitled_chunks (CourseSearchTool.__init__ untitled_store)
                  (search untitled_store "variables" None None)
                  ltac:(discriminate)
                  ltac:(repeat constructor))).
Defined.

(* ================================================================== *)
(** * Further properties of the course outline tool *)
(* ================================================================== *)

Section OutlineMore.
Variable repr_str : string → string.
Variable json_loads : string → option json.
Implicit Types (self : CourseOutlineTool.t).

Lemma lesson_lines_dicts (dicts : list (list (string * json))) :
  CourseOutlineTool.lesson_lines repr_str (JObj <$> dicts)
  = Return (lesson_text repr_str <$> dicts).
Proof.
  induction dicts as [|members dicts IH]; [done | ].
  cbn [fmap list_fmap CourseOutlineTool.lesson_lines CourseOutlineTool.lesson_line].
  change (list_fmap _ _ JObj dicts) with (JObj <$> dicts). by rewrite IH.
Qed.

Lemma lesson_lines_not_dicts (items : list json) :
  forallb is_dict items = false →
  ∃ e, CourseOutlineTool.lesson_lines repr_str items = Raise e
       ∧ exc_class e = "AttributeError".
Proof.
  induction items as [|item items IH]; [done | ].
  cbn [forallb CourseOutlineTool.lesson_lines]. intros Hshape.
  destruct item; try (eexists; split; reflexivity).
  simpl in Hshape. destruct (IH Hshape) as (e & -> & Hclass).
  simpl. by exists e.
Qed.

Lemma dict_list_inv (lessons : json) :
  dict_list lessons = true → ∃ dicts, lessons = JArr (JObj <$> dicts).
Proof.
  destruct lessons as [| | | | |items|]; try discriminate. simpl.
  induction items as [|item items IH]; [by exists [] | ].
  simpl. intros [Hitem Hitems]%andb_true_iff.
  destruct (IH Hitems) as (dicts & Hdicts). injection Hdicts as ->.
  destruct item as [| | | | | |members]; try discriminate.
  by exists (members :: dicts).
Qed.

Lemma listable_dicts (dicts : list (list (string * json))) :
  listable (JArr (JObj <$> dicts)) = true.
Proof.
  unfold listable. apply orb_true_iff. right. simpl.
  induction dicts as [|members dicts IH]; [done | exact IH].
Qed.

Lemma lesson_dicts_list (dicts : list (list (string * json))) :
  lesson_dicts (JArr (JObj <$> dicts)) = dicts.
Proof.
  unfold lesson_dicts. induction dicts as [|members dicts IH]; [done | ].
  cbn [fmap list_fmap omap list_omap].
  change (list_fmap _ _ JObj dicts) with (JObj <$> dicts). by rewrite IH.
Qed.

Lemma format_outline_listable self (title : string) (course_link : option string)
    (lessons : json) :
  listable lessons = true →
  CourseOutlineTool._format_outline repr_str self title course_link lessons
  = (Return ("**" +:+ title +:+ "**" +:+ nl
               +:+ (if truthy course_link
                    then "Course Link: " +:+ default "" course_link +:+ nl
                    else "")
               +:+ nl
               +:+ (if truthy lessons
                    then "**Lessons (" +:+ pretty (length (lesson_dicts lessons))
                           +:+ " total):**" +:+ nl
                           +:+ join nl (lesson_text repr_str <$> lesson_dicts lessons)
                    else "This course has no lessons listed.")),
     {| CourseOutlineTool.store := CourseOutlineTool.store self;
        CourseOutlineTool.last_sources := [{| title := title; url := course_link |}] |}).
Proof.
  unfold listable. intros Hshape. unfold CourseOutlineTool._format_outline.
  destruct (truthy lessons) eqn:Htruthy; simpl in Hshape.
  - destruct (dict_list_inv _ Hshape) as (dicts & ->).
    rewrite lesson_dicts_list.
    destruct dicts as [|first more]; [discriminate | ].
    cbn [negb py_len py_iter]. rewrite lesson_lines_dicts, length_fmap.
    destruct (truthy course_link); simpl; rewrite ?string_app_assoc; reflexivity.
  - cbn [negb].
    destruct (truthy course_link); simpl; rewrite ?string_app_assoc; reflexivity.
Qed.

Lemma format_outline_unlistable self (title : string) (course_link : option string)
    (lessons : json) :
  listable lessons = false →
  ∃ e,
    CourseOutlineTool._format_outline repr_str self title course_link lessons
    = (Raise e, self)
    ∧ exc_class e = (if sized lessons then "AttributeError" else "TypeError").
Proof.
  unfold listable. intros Hshape. unfold CourseOutlineTool._format_outline.
  destruct (truthy lessons) eqn:Htruthy; simpl in Hshape; [ | discriminate].
  cbn [negb].
  destruct lessons as [|b|z|text|text|items|members].
  - discriminate.
  - eexists; split; reflexivity.
  - eexists; split; reflexivity.
  - eexists; split; reflexivity.
  - destruct text; [discriminate | ].
    eexists; split; reflexivity.
  - destruct (lesson_lines_not_dicts items Hshape) as (e & Hlines & Hclass).
    cbn [py_len py_iter]. rewrite Hlines. by exists e.
  - destruct members as [|[key value] members]; [discriminate | ].
    eexists; split; reflexivity.
Qed.

(** X16: the outcomes of [execute] of the outline tool, case by case.
    When the course name does not resolve, it returns the notice that no
    course was found. When the catalog raises, it returns the notice of an
    error with the text of that exception. When the catalog has nothing for
    the resolved name (no result, no metadata list, an empty list, or an
    empty first mapping), it returns the notice that the metadata is
    unavailable. In these three cases the tool object, with the sources of
    an earlier execution, is left as it was. Otherwise the first stored
    mapping is formatted: when the decoded lesson value is falsy or a list
    of dicts, the outline is returned, headed by the stored title in bold
    (the resolved name when no title is stored), with the course link line
    when a non-empty link is stored, and the tool retains exactly one
    source, that title with the stored course link (none when no link is
    stored); when the decoded value is anything else, the call raises
    TypeError for a value without length and AttributeError for the others,
    and the tool object is as before. *)
Theorem outline_execute_outcomes self (course_title : string) :
  let out := CourseOutlineTool.execute repr_str json_loads self course_title in
  let found := _resolve_course_name (CourseOutlineTool.store self) course_title in
  let resolved := default "" found in
  let catalog := course_catalog_get (CourseOutlineTool.store self) [resolved] in
  let unavailable :=
    (Return ("Course '" +:+ resolved +:+ "' found but metadata unavailable."), self) in
  (truthy found = false →
     out = (Return ("No course found matching '" +:+ course_title
                      +:+ "'. Please try a different course name."), self))
  ∧ (truthy found = true →
       (∀ e, catalog = Raise e →
          out = (Return ("Error retrieving course data: " +:+ exc_str e), self))
       ∧ (catalog = Return None → out = unavailable)
       ∧ (catalog = Return (Some {| metadatas := None |}) → out = unavailable)
       ∧ (catalog = Return (Some {| metadatas := Some [] |}) → out = unavailable)
       ∧ (∀ others, catalog = Return (Some {| metadatas := Some (∅ :: others) |}) →
            out = unavailable)
       ∧ (∀ stored others,
            catalog = Return (Some {| metadatas := Some (stored :: others) |}) →
            stored ≠ ∅ →
            let title := default resolved (stored !! "title") in
            let course_link := stored !! "course_link" in
            let lessons :=
              default (JArr []) (json_loads (default "[]" (stored !! "lessons_json"))) in
            if listable lessons
            then out
                 = (Return ("**" +:+ title +:+ "**" +:+ nl
                              +:+ (if truthy course_link
                                   then "Course Link: " +:+ default "" course_link +:+ nl
                                   else "")
                              +:+ nl
                              +:+ (if truthy lessons
                                   then "**Lessons ("
                                          +:+ pretty (length (lesson_dicts lessons))
                                          +:+ " total):**" +:+ nl
                                          +:+ join nl (lesson_text repr_str
                                                         <$> lesson_dicts lessons)
                                   else "This course has no lessons listed.")),
                    {| CourseOutlineTool.store := CourseOutlineTool.store self;
                       CourseOutlineTool.last_sources :=
                         [{| title := title; url := course_link |}] |})
            else out.2 = self
                 ∧ ∃ e, out.1 = Raise e
                        ∧ exc_class e
                          = (if sized lessons then "AttributeError" else "TypeError"))).
Proof.
  intros out found resolved catalog unavailable.
  subst out unavailable. unfold CourseOutlineTool.execute.
  fold found. fold resolved. fold catalog. split.
  - by intros ->.
  - intros ->. cbn [negb]. split_and!.
    + by intros e ->.
    + by intros ->.
    + by intros ->.
    + by intros ->.
    + by intros others ->.
    + intros stored others -> Hstored. cbn [metadatas].
      assert (Htruthy : truthy stored = true) by (by apply bool_decide_eq_true).
      rewrite Htruthy. cbn [negb].
      set (title := default resolved (stored !! "title")).
      set (course_link := stored !! "course_link").
      set (lessons := default (JArr []) _).
      destruct (listable lessons) eqn:Hshape.
      * by apply format_outline_listable.
      * destruct (format_outline_unlistable self title course_link lessons Hshape)
          as (e & -> & Hclass). split; [done | by exists e].
Qed.

(** X17: stored lesson text that does not decode is treated as an empty
    lesson list: the outline still appears, with the notice that no lessons
    are listed, under the stored title, or under the resolved name when no
    title is stored, and the source is retained as usual. *)
Theorem outline_execute_undecodable_lessons self (course_title resolved : string)
    (stored : gmap string string) (others : list (gmap string string)) :
  _resolve_course_name (CourseOutlineTool.store self) course_title = Some resolved →
  resolved ≠ "" →
  course_catalog_get (CourseOutlineTool.store self) [resolved]
    = Return (Some {| metadatas := Some (stored :: others) |}) →
  stored ≠ ∅ →
  json_loads (default "[]" (stored !! "lessons_json")) = None →
  let title := default resolved (stored !! "title") in
  let out := CourseOutlineTool.execute repr_str json_loads self course_title in
  out.1 = Return ("**" +:+ title +:+ "**" +:+ nl
                    +:+ (if truthy (stored !! "course_link")
                         then "Course Link: " +:+ default "" (stored !! "course_link") +:+ nl
                         else "")
                    +:+ nl +:+ "This course has no lessons listed.")
  ∧ CourseOutlineTool.last_sources out.2
    = [{| title := title; url := stored !! "course_link" |}].
Proof.
  intros Hresolve Hresolved%truthy_string_ne Hcatalog Hstored Hdecode title out.
  subst out. unfold CourseOutlineTool.execute.
  rewrite Hresolve. change (truthy (Some resolved)) with (truthy resolved).
  rewrite Hresolved. simpl. rewrite Hcatalog. simpl.
  assert (Htruthy : truthy stored = true) by (by apply bool_decide_eq_true).
  rewrite Htruthy. simpl. rewrite Hdecode. simpl.
  unfold CourseOutlineTool._format_outline. simpl. fold title.
  destruct (truthy (stored !! "course_link")); simpl;
    rewrite ?string_app_assoc; done.
Qed.

(** X18: an outline with lessons lists every stored lesson, in stored order,
    one line each after a heading that counts them. A lesson's line is two
    spaces, its number, a full stop and a space, its title; a lesson without
    number is shown with [?] in its place and one without title with
    [Untitled], each independently of the other key. *)
Theorem format_outline_lists_lessons self (title : string)
    (course_link : option string) (first : list (string * json))
    (more : list (list (string * json))) :
  let lessons := first :: more in
  (CourseOutlineTool._format_outline repr_str self title course_link
     (JArr (JObj <$> lessons))).1
    = Return ("**" +:+ title +:+ "**" +:+ nl
                +:+ (if truthy course_link
                     then "Course Link: " +:+ default "" course_link +:+ nl
                     else "")
                +:+ nl +:+ "**Lessons (" +:+ pretty (length lessons) +:+ " total):**" +:+ nl
                +:+ join nl (lesson_text repr_str <$> lessons))
  ∧ Forall2 (λ members line,
               CourseOutlineTool.lesson_line repr_str (JObj members) = Return line)
      lessons (lesson_text repr_str <$> lessons)
  ∧ (∀ l, PyDict.get "lesson_number" l = None → PyDict.get "lesson_title" l = None →
       lesson_text repr_str l = "  ?. Untitled")
  ∧ (∀ l n, PyDict.get "lesson_number" l = Some (JInt n) →
       PyDict.get "lesson_title" l = None →
       lesson_text repr_str l = "  " +:+ pretty n +:+ ". Untitled")
  ∧ (∀ l t, PyDict.get "lesson_number" l = None →
       PyDict.get "lesson_title" l = Some (JStr t) →
       lesson_text repr_str l = "  ?. " +:+ t)
  ∧ (∀ l n t, PyDict.get "lesson_number" l = Some (JInt n) →
       PyDict.get "lesson_title" l = Some (JStr t) →
       lesson_text repr_str l = "  " +:+ pretty n +:+ ". " +:+ t).
Proof.
  intros lessons. split_and!.
  - rewrite format_outline_listable by apply listable_dicts. subst lessons.
    rewrite lesson_dicts_list. reflexivity.
  - apply Forall2_fmap_r, Forall_Forall2_diag, Forall_forall. by intros members _.
  - intros l Hnumber Htitle. unfold lesson_text. by rewrite Hnumber, Htitle.
  - intros l n Hnumber Htitle. unfold lesson_text. by rewrite Hnumber, Htitle.
  - intros l t Hnumber Htitle. unfold lesson_text. by rewrite Hnumber, Htitle.
  - intros l n t Hnumber Htitle. unfold lesson_text. by rewrite Hnumber, Htitle.
Qed.

End OutlineMore.

(** Stored lesson text that decodes to a dict: the heading counts its one
    key, and the loop fails on that key, a text without [get]. *)
Example outline_execute_misshapen_lessons :
  CourseOutlineTool.execute quoted misshapen_json_loads
    (CourseOutlineTool.__init__ misshapen_store) "Intro"
  = (Raise (Exc "AttributeError" "'str' object has no attribute 'get'"),
     CourseOutlineTool.__init__ misshapen_store).
Proof. vm_compute. reflexivity. Qed.

Lemma outline_execute_undecodable_lessons_witness :
  (CourseOutlineTool.execute quoted intro_json_loads
     (CourseOutlineTool.__init__ garbled_store) "Intro").1
  = Return ("**Intro to X**" +:+ nl +:+ nl +:+ "This course has no lessons listed.").
Proof.
  refine (proj1 (outline_execute_undecodable_lessons quoted intro_json_loads
                   (CourseOutlineTool.__init__ garbled_store) "Intro" "Intro to X"
                   {[ "title" := "Intro to X"; "lessons_json" := "[{oops" ]} []
                   eq_refl _ eq_refl _ _)).
  - discriminate.
  - intros Hempty. apply (f_equal (λ m, m !! "title")) in Hempty.
    vm_compute in Hempty. discriminate.
  - vm_compute. reflexivity.
Defined.

(* ================================================================== *)
(** * Further properties of the generation engine *)
(* ================================================================== *)

Section GeneratorMore.
Context {Svc Mgr : Type} `{ModelService Svc} `{ToolDispatcher Mgr}.
Implicit Types (self : AIGenerator.t Svc) (tool_manager : Mgr).

(** One step of the loop, taken apart: the tool results, the request made,
    its response and the generator after it. *)
Ltac loop_step self :=
  match goal with
  | |- context [AIGenerator.execute_tool_calls ?blocks ?m] =>
      destruct (AIGenerator.execute_tool_calls blocks m) as [tool_results tool_manager']
  end;
  match goal with
  | |- context [AIGenerator.messages_create self ?p] =>
      pose proof (messages_create_log self p) as Hlog;
      pose proof (messages_create_response self p) as Hresponse;
      pose proof (messages_create_base_params self p) as Hbase;
      destruct (AIGenerator.messages_create self p) as [next_response self'];
      set (next_params := p) in *;
      simpl in Hlog, Hresponse, Hbase
  end.

Ltac final_step self :=
  match goal with
  | |- context [AIGenerator.messages_create self ?p] =>
      pose proof (messages_create_log self p) as Hlog;
      pose proof (messages_create_response self p) as Hresponse;
      pose proof (messages_create_base_params self p) as Hbase;
      destruct (AIGenerator.messages_create self p) as [final_response self'];
      set (final_params := p) in *;
      simpl in Hlog, Hresponse, Hbase
  end.

Lemma growing_cons {A} (c : list A) (later : list (list A)) :
  growing (c :: later) ↔ Forall (λ c', c `prefix_of` c') later ∧ growing later.
Proof. done. Qed.

Lemma tool_rounds_requests (remaining : nat) self (base_params : ApiParams)
    (history : list Message) (current_response : Response) tool_manager :
  ∃ issued,
    calls (AIGenerator.self_client
             (AIGenerator.tool_rounds remaining self base_params history
                current_response tool_manager).1.2)
    = calls (AIGenerator.self_client self) ++ issued
    ∧ AIGenerator.self_base_params
        (AIGenerator.tool_rounds remaining self base_params history
           current_response tool_manager).1.2
      = AIGenerator.self_base_params self
    ∧ Forall (λ c, constant_fields (AIGenerator.self_base_params self)
                     (system base_params) c.1) issued
    ∧ Forall (λ c, tools c.1 = Some (default [] (tools base_params))
                   ∧ tool_choice c.1 = Some {| choice_type := "auto" |})
        (take remaining issued)
    ∧ growing (history :: ((messages ∘ fst) <$> issued)).
Proof.
  revert self history current_response tool_manager.
  induction remaining as [|remaining IH];
    intros self history current_response tool_manager; simpl.
  - final_step self. exists [(final_params, final_response)]. simpl.
    split_and!; try done.
    + apply Forall_singleton. by repeat split.
    + by apply Forall_singleton.
  - loop_step self.
    assert (Hextends : history `prefix_of` messages next_params).
    { subst next_params. simpl. destruct (truthy tool_results).
      - rewrite <- app_assoc. by apply prefix_app_r.
      - by apply prefix_app_r. }
    destruct (negb (String.eqb (stop_reason next_response) "tool_use")).
    + exists [(next_params, next_response)]. simpl.
      split_and!; try done.
      * apply Forall_singleton. by repeat split.
      * rewrite take_nil. simpl. by apply Forall_singleton.
      * by apply Forall_singleton.
    + match goal with |- context [AIGenerator.tool_rounds remaining self' ?bp ?h ?r ?m] =>
        destruct (IH self' h r m)
          as (issued & Hcalls & Hsame & Hconstant & Hadvertise & Hgrowing & Hrest)
      end.
      exists ((next_params, next_response) :: issued).
      split; [ | split; [ | split; [ | split]]].
      * by rewrite Hcalls, Hlog, <- app_assoc.
      * by rewrite Hsame.
      * apply Forall_cons. split; [by repeat split | ].
        by rewrite <- Hbase.
      * simpl. apply Forall_cons. split; [by split | done].
      * apply growing_cons. rewrite fmap_cons. split.
        -- apply Forall_cons. split; [done | ].
           eapply Forall_impl; [exact Hgrowing | ]. intros c' Hc'. by etrans.
        -- apply growing_cons. split; [exact Hgrowing | exact Hrest].
Qed.

End GeneratorMore.

Section GeneratorExtras.
Context {Svc Mgr : Type} `{ModelService Svc} `{ToolDispatcher Mgr}.
Implicit Types (self : AIGenerator.t Svc) (tool_manager : Mgr).

(** X19: whatever the model answers, the tool loop issues at least one and
    at most [MAX_TOOL_ROUNDS + 1] requests and returns the text extracted
    from the response to the last of them; only a request issued after
    [MAX_TOOL_ROUNDS] others can be without the [tools] key, all earlier ones
    carry it together with the automatic tool choice. *)
Theorem handle_tool_execution_request_bound self (initial_response : Response)
    (base_params : ApiParams) tool_manager :
  let out := AIGenerator._handle_tool_execution self initial_response base_params
               tool_manager in
  ∃ issued final_request final_response,
    calls (AIGenerator.self_client out.1.2) = calls (AIGenerator.self_client self) ++ issued
    ∧ 1 ≤ length issued ≤ AIGenerator.MAX_TOOL_ROUNDS + 1
    ∧ last issued = Some (final_request, final_response)
    ∧ out.1.1 = AIGenerator._extract_text_response final_response
    ∧ Forall (λ c, tools c.1 = Some (default [] (tools base_params))
                   ∧ tool_choice c.1 = Some {| choice_type := "auto" |})
        (take AIGenerator.MAX_TOOL_ROUNDS issued).
Proof.
  intros out. subst out. unfold AIGenerator._handle_tool_execution.
  destruct (tool_rounds_log AIGenerator.MAX_TOOL_ROUNDS self base_params
              (messages base_params) initial_response tool_manager)
    as (issued & final_request & final_response & Hcalls & Hlength & Hlast & Htext).
  destruct (tool_rounds_requests AIGenerator.MAX_TOOL_ROUNDS self base_params
              (messages base_params) initial_response tool_manager)
    as (issued' & Hcalls' & _ & _ & Hadvertise & _).
  rewrite Hcalls in Hcalls'. apply app_inv_head in Hcalls'. subst issued'.
  exists issued, final_request, final_response.
  split_and!; try done.
  destruct issued; [done | simpl; lia].
Qed.

(** X20: when the answer to the first follow-up request does not stop for
    tool use, the loop ends there: it has issued that one request, with the
    tools still advertised, and returns the text extracted from the answer. *)
Theorem handle_tool_execution_early_exit self (initial_response : Response)
    (base_params : ApiParams) tool_manager :
  (∀ p, stop_reason (respond (service (AIGenerator.self_client self)) p).1 ≠ "tool_use") →
  let out := AIGenerator._handle_tool_execution self initial_response base_params
               tool_manager in
  ∃ request response,
    calls (AIGenerator.self_client out.1.2)
      = calls (AIGenerator.self_client self) ++ [(request, response)]
    ∧ tools request = Some (default [] (tools base_params))
    ∧ tool_choice request = Some {| choice_type := "auto" |}
    ∧ out.1.1 = AIGenerator._extract_text_response response.
Proof.
  intros Hstop out. subst out. unfold AIGenerator._handle_tool_execution.
  change AIGenerator.MAX_TOOL_ROUNDS with 2. simpl.
  destruct (AIGenerator.execute_tool_calls (content initial_response) tool_manager)
    as [tool_results tool_manager'].
  match goal with |- context [AIGenerator.messages_create self ?p] =>
    pose proof (messages_create_log self p) as Hlog;
    pose proof (messages_create_response self p) as Hresponse;
    pose proof (Hstop p) as Hstop_p;
    destruct (AIGenerator.messages_create self p) as [next_response self'];
    set (next_params := p) in *
  end.
  simpl in Hlog, Hresponse. rewrite <- Hresponse in Hstop_p.
  apply String.eqb_neq in Hstop_p. rewrite Hstop_p. simpl.
  by exists next_params, next_response.
Qed.

(** The requests of one call of [generate_response]: the first one and those
    of the tool loop, if it is entered. *)
Lemma generate_response_requests self (query : string)
    (conversation_history : option string) (offered : option (list ToolDef))
    (tool_manager : option Mgr) :
  let out := AIGenerator.generate_response self query conversation_history offered
               tool_manager in
  let first_request :=
    AIGenerator.make_params self
      [{| role := "user"; message_content := Text query |}]
      (system_text conversation_history)
      (if truthy offered then offered else None)
      (if truthy offered then Some {| choice_type := "auto" |} else None) in
  ∃ first_response in_loop,
    calls (AIGenerator.self_client out.1.2)
      = calls (AIGenerator.self_client self) ++ (first_request, first_response) :: in_loop
    ∧ first_response = (respond (service (AIGenerator.self_client self)) first_request).1
    ∧ length in_loop ≤ AIGenerator.MAX_TOOL_ROUNDS + 1
    ∧ (tool_manager = None ∨ stop_reason first_response ≠ "tool_use" →
         in_loop = [] ∧ out.1.1 = AIGenerator.first_block_text first_response
         ∧ out.2 = tool_manager)
    ∧ Forall (λ c, constant_fields (AIGenerator.self_base_params self)
                     (system_text conversation_history) c.1) in_loop
    ∧ growing ([{| role := "user"; message_content := Text query |}]
                 :: ((messages ∘ fst) <$> in_loop)).
Proof.
  intros out first_request. subst out. unfold AIGenerator.generate_response.
  fold (system_text conversation_history).
  assert (Hparams :
    (if truthy offered
     then AIGenerator.make_params self
            [{| role := "user"; message_content := Text query |}]
            (system_text conversation_history) offered
            (Some {| choice_type := "auto" |})
     else AIGenerator.make_params self
            [{| role := "user"; message_content := Text query |}]
            (system_text conversation_history) None None) = first_request).
  { subst first_request. by destruct (truthy offered). }
  rewrite Hparams. clear Hparams.
  pose proof (messages_create_log self first_request) as Hlog.
  pose proof (messages_create_response self first_request) as Hresponse.
  pose proof (messages_create_base_params self first_request) as Hbase.
  destruct (AIGenerator.messages_create self first_request) as [response self1].
  simpl in Hlog, Hresponse, Hbase.
  assert (Hdirect : ∀ manager : option Mgr,
    ∃ first_response in_loop,
      calls (AIGenerator.self_client self1)
        = calls (AIGenerator.self_client self) ++ (first_request, first_response) :: in_loop
      ∧ first_response = (respond (service (AIGenerator.self_client self)) first_request).1
      ∧ length in_loop ≤ AIGenerator.MAX_TOOL_ROUNDS + 1
      ∧ (manager = None ∨ stop_reason first_response ≠ "tool_use" →
           in_loop = [] ∧ AIGenerator.first_block_text response
                          = AIGenerator.first_block_text first_response
           ∧ manager = manager)
      ∧ Forall (λ c, constant_fields (AIGenerator.self_base_params self)
                       (system_text conversation_history) c.1) in_loop
      ∧ growing ([{| role := "user"; message_content := Text query |}]
                   :: ((messages ∘ fst) <$> in_loop))).
  { intros manager. exists response, []. rewrite Hlog, <- Hresponse. simpl.
    split_and!; try done. lia. }
  destruct tool_manager as [manager|]; [ | simpl; apply (Hdirect None)].
  destruct (String.eqb_spec (stop_reason response) "tool_use") as [Hstop | Hstop];
    [ | simpl; apply (Hdirect (Some manager))].
  unfold AIGenerator._handle_tool_execution.
  destruct (tool_rounds_log AIGenerator.MAX_TOOL_ROUNDS self1 first_request
              (messages first_request) response manager)
    as (issued & _ & _ & Hcalls & Hlength & _).
  destruct (tool_rounds_requests AIGenerator.MAX_TOOL_ROUNDS self1 first_request
              (messages first_request) response manager)
    as (issued' & Hcalls' & _ & Hconstant & _ & Hgrowing).
  rewrite Hcalls in Hcalls'. apply app_inv_head in Hcalls'. subst issued'.
  destruct (AIGenerator.tool_rounds _ _ _ _ _ _) as [[text self'] manager'].
  simpl in *. exists response, issued.
  split; [ | split; [ | split; [ | split; [ | split]]]].
  - by rewrite Hcalls, Hlog, <- app_assoc.
  - done.
  - done.
  - intros [[=] | Hne]. done.
  - by rewrite <- Hbase.
  - exact Hgrowing.
Qed.

(** X21: without a tool manager, or when the first response does not stop
    for tool use, [generate_response] makes exactly one request, which
    carries the query alone, and runs no tool; the response logged is the
    service's answer to that request. The result is read off the first block
    of the response: its text is returned when it is a text block; a
    response without blocks raises IndexError, and a first block that is a
    tool call raises AttributeError. *)
Theorem generate_response_single_request self (query : string)
    (conversation_history : option string) (offered : option (list ToolDef))
    (tool_manager : option Mgr) :
  tool_manager = None
  ∨ (∀ p, stop_reason (respond (service (AIGenerator.self_client self)) p).1 ≠ "tool_use") →
  let out := AIGenerator.generate_response self query conversation_history offered
               tool_manager in
  ∃ request response,
    calls (AIGenerator.self_client out.1.2)
      = calls (AIGenerator.self_client self) ++ [(request, response)]
    ∧ messages request = [{| role := "user"; message_content := Text query |}]
    ∧ response = (respond (service (AIGenerator.self_client self)) request).1
    ∧ out.1.1 = AIGenerator.first_block_text response
    ∧ out.2 = tool_manager
    ∧ (∀ text rest, content response = TextBlock text :: rest → out.1.1 = Return text)
    ∧ (content response = [] →
         out.1.1 = Raise (Exc "IndexError" "list index out of range"))
    ∧ (∀ id tool_name input rest,
         content response = ToolUseBlock id tool_name input :: rest →
         out.1.1 = Raise (Exc "AttributeError"
                            "'ToolUseBlock' object has no attribute 'text'")).
Proof.
  intros Hdirect out.
  destruct (generate_response_requests self query conversation_history offered tool_manager)
    as (response & in_loop & Hcalls & Hresponse & _ & Hsingle & _).
  destruct Hsingle as (-> & Hresult & Hmanager).
  { destruct Hdirect as [? | Hstop]; [by left | right]. rewrite Hresponse. apply Hstop. }
  eexists _, response.
  split_and!; [exact Hcalls | done | exact Hresponse | exact Hresult | exact Hmanager | | | ].
  - intros text rest Hcontent. fold out in Hresult. rewrite Hresult.
    unfold AIGenerator.first_block_text. by rewrite Hcontent.
  - intros Hcontent. fold out in Hresult. rewrite Hresult.
    unfold AIGenerator.first_block_text. by rewrite Hcontent.
  - intros id tool_name input rest Hcontent. fold out in Hresult. rewrite Hresult.
    unfold AIGenerator.first_block_text. by rewrite Hcontent.
Qed.

(** X22: the first request of a query carries the query as its only message,
    the system prompt, followed by the previous conversation when one is
    given and not empty, and the tools with automatic tool choice when a
    non-empty list is offered; an empty tool list and an empty history are
    treated as none. *)
Theorem generate_response_first_request self (query : string)
    (conversation_history : option string) (offered : option (list ToolDef))
    (tool_manager : option Mgr) :
  let out := AIGenerator.generate_response self query conversation_history offered
               tool_manager in
  ∃ request response later,
    calls (AIGenerator.self_client out.1.2)
      = calls (AIGenerator.self_client self) ++ (request, response) :: later
    ∧ messages request = [{| role := "user"; message_content := Text query |}]
    ∧ system request = system_text conversation_history
    ∧ (conversation_history = None ∨ conversation_history = Some "" →
         system request = AIGenerator.SYSTEM_PROMPT)
    ∧ (∀ h, conversation_history = Some h → h ≠ "" →
         system request = AIGenerator.SYSTEM_PROMPT +:+ nl +:+ nl
                            +:+ "Previous conversation:" +:+ nl +:+ h)
    ∧ (offered = None ∨ offered = Some [] →
         tools request = None ∧ tool_choice request = None)
    ∧ (∀ definitions, offered = Some definitions → definitions ≠ [] →
         tools request = Some definitions
         ∧ tool_choice request = Some {| choice_type := "auto" |}).
Proof.
  intros out.
  destruct (generate_response_requests self query conversation_history offered tool_manager)
    as (response & in_loop & Hcalls & _).
  eexists _, response, in_loop. split; [exact Hcalls | ]. simpl.
  split_and!; try done.
  - by intros [-> | ->].
  - intros h -> Hh%truthy_string_ne. unfold system_text.
    change (truthy (Some h)) with (truthy h). by rewrite Hh.
  - by intros [-> | ->].
  - intros definitions -> Hdefinitions. by destruct definitions.
Qed.

(** X23: a query costs at least one request and at most
    [MAX_TOOL_ROUNDS + 2], whatever the model answers: the first request and
    at most [MAX_TOOL_ROUNDS + 1] of the tool loop. *)
Theorem generate_response_request_bound self (query : string)
    (conversation_history : option string) (offered : option (list ToolDef))
    (tool_manager : option Mgr) :
  let out := AIGenerator.generate_response self query conversation_history offered
               tool_manager in
  ∃ issued,
    calls (AIGenerator.self_client out.1.2) = calls (AIGenerator.self_client self) ++ issued
    ∧ 1 ≤ length issued ≤ AIGenerator.MAX_TOOL_ROUNDS + 2.
Proof.
  intros out.
  destruct (generate_response_requests self query conversation_history offered tool_manager)
    as (response & in_loop & Hcalls & _ & Hlength & _).
  eexists. split; [exact Hcalls | ].
  unfold AIGenerator.MAX_TOOL_ROUNDS in *. cbn [length]. lia.
Qed.

(** X24: every request of a query carries the same system text and the
    generator's model, temperature and token limit. *)
Theorem generate_response_constant_fields self (query : string)
    (conversation_history : option string) (offered : option (list ToolDef))
    (tool_manager : option Mgr) :
  let out := AIGenerator.generate_response self query conversation_history offered
               tool_manager in
  ∃ issued,
    calls (AIGenerator.self_client out.1.2) = calls (AIGenerator.self_client self) ++ issued
    ∧ Forall (λ c, system c.1 = system_text conversation_history
                   ∧ model c.1 = AIGenerator.base_model (AIGenerator.self_base_params self)
                   ∧ temperature c.1
                     = AIGenerator.base_temperature (AIGenerator.self_base_params self)
                   ∧ max_tokens c.1
                     = AIGenerator.base_max_tokens (AIGenerator.self_base_params self))
        issued.
Proof.
  intros out.
  destruct (generate_response_requests self query conversation_history offered tool_manager)
    as (response & in_loop & Hcalls & _ & _ & _ & Hconstant & _).
  eexists. split; [exact Hcalls | ].
  apply Forall_cons. split; [by repeat split | exact Hconstant].
Qed.

(** X25: within a query the conversation only grows: the first request
    carries the query alone, and the messages of every request are a prefix
    of the messages of each later one. *)
Theorem generate_response_conversation_grows self (query : string)
    (conversation_history : option string) (offered : option (list ToolDef))
    (tool_manager : option Mgr) :
  let out := AIGenerator.generate_response self query conversation_history offered
               tool_manager in
  ∃ issued,
    calls (AIGenerator.self_client out.1.2) = calls (AIGenerator.self_client self) ++ issued
    ∧ head ((messages ∘ fst) <$> issued)
      = Some [{| role := "user"; message_content := Text query |}]
    ∧ growing ((messages ∘ fst) <$> issued).
Proof.
  intros out.
  destruct (generate_response_requests self query conversation_history offered tool_manager)
    as (response & in_loop & Hcalls & _ & _ & _ & _ & Hgrowing).
  eexists. split; [exact Hcalls | ]. split; [done | exact Hgrowing].
Qed.

(** X26: the tool calls of a turn get one result each, in the order of the
    calls and under the identifier of the call, whether the tool returned or
    raised; text blocks of the turn get none. *)
Theorem execute_tool_calls_results (blocks : list ContentBlock) tool_manager :
  let results := (AIGenerator.execute_tool_calls blocks tool_manager).1 in
  tool_use_id <$> results = (λ c, c.1.1) <$> tool_calls blocks
  ∧ Forall (λ r, result_type r = "tool_result") results
  ∧ length results = length (filter (λ b, is_tool_use b = true) blocks).
Proof.
  revert tool_manager. induction blocks as [|b blocks IH]; intros tool_manager; simpl.
  - by split_and!.
  - destruct b as [text | id tool_name input].
    + rewrite filter_cons_False by done. apply IH.
    + rewrite filter_cons_True by done. simpl.
      destruct (execute_tool tool_manager tool_name input) as [outcome tool_manager'].
      specialize (IH tool_manager').
      destruct (AIGenerator.execute_tool_calls blocks tool_manager') as [rest tool_manager''].
      destruct IH as (Hids & Htypes & Hlength). cbn [fst] in *.
      split_and!.
      * simpl. f_equal. exact Hids.
      * by apply Forall_cons.
      * simpl. f_equal. exact Hlength.
Qed.

(** X27: a turn that stops for tool use but carries no tool call adds no
    user message: the next request carries the conversation so far and the
    assistant turn, and nothing after it. *)
Theorem handle_tool_execution_no_calls self (initial_response : Response)
    (base_params : ApiParams) tool_manager :
  tool_calls (content initial_response) = [] →
  let out := AIGenerator._handle_tool_execution self initial_response base_params
               tool_manager in
  ∃ request response later,
    calls (AIGenerator.self_client out.1.2)
      = calls (AIGenerator.self_client self) ++ (request, response) :: later
    ∧ messages request
      = messages base_params
          ++ [{| role := "assistant";
                 message_content := Blocks (content initial_response) |}].
Proof.
  intros Hnone out. subst out. unfold AIGenerator._handle_tool_execution.
  destruct (tool_rounds_first_request 1 self base_params (messages base_params)
              initial_response tool_manager)
    as (request & response & later & Hlog & Hmessages).
  change (Datatypes.S 1) with AIGenerator.MAX_TOOL_ROUNDS in Hlog.
  exists request, response, later. split; [exact Hlog | ].
  rewrite Hmessages, execute_tool_calls_run, Hnone. simpl. by rewrite app_nil_r.
Qed.

(** X28: [_extract_text_response] returns the text of the first text block
    wherever it stands among the blocks, and the empty text when there is no
    text block, an empty block list included. *)
Theorem extract_text_response_first_text (response : Response) :
  (Forall (λ b, is_tool_use b = true) (content response) →
     AIGenerator._extract_text_response response = "")
  ∧ (∀ before text after,
       content response = before ++ TextBlock text :: after →
       Forall (λ b, is_tool_use b = true) before →
       AIGenerator._extract_text_response response = text).
Proof.
  assert (Hkind : ∀ blocks, Forall (λ b, is_tool_use b = true) blocks →
                    Forall (λ b, block_type b ≠ "text") blocks).
  { intros blocks Hblocks. eapply Forall_impl; [exact Hblocks | ]. by intros [|]. }
  unfold AIGenerator._extract_text_response. split.
  - intros Hnone. by apply first_text_no_text, Hkind.
  - intros before text after -> Hbefore. by apply first_text_first, Hkind.
Qed.

End GeneratorExtras.

Lemma handle_tool_execution_early_exit_witness :
  ∃ request response,
    calls (AIGenerator.self_client
             (AIGenerator._handle_tool_execution
                (AIGenerator.__init__
                   {| service := {| script := []; fallback := text_answer |}; calls := [] |}
                   "claude-sonnet-4-20250514")
                two_calls sample_params mixed_registry).1.2)
      = [] ++ [(request, response)]
    ∧ tools request = Some (default [] (tools sample_params))
    ∧ tool_choice request = Some {| choice_type := "auto" |}
    ∧ (AIGenerator._handle_tool_execution
         (AIGenerator.__init__
            {| service := {| script := []; fallback := text_answer |}; calls := [] |}
            "claude-sonnet-4-20250514")
         two_calls sample_params mixed_registry).1.1
      = AIGenerator._extract_text_response response.
Proof.
  apply (handle_tool_execution_early_exit
           (AIGenerator.__init__
              {| service := {| script := []; fallback := text_answer |}; calls := [] |}
              "claude-sonnet-4-20250514")
           two_calls sample_params mixed_registry).
  intros p. discriminate.
Defined.

Lemma generate_response_single_request_witness :
  let out :=
    AIGenerator.generate_response
      (AIGenerator.__init__
         {| service := {| script := []; fallback := text_answer |}; calls := [] |}
         "claude-sonnet-4-20250514")
      "What is a variable?" None None (None : option (ToolManager.t ScriptedTool)) in
  ∃ request response,
    calls (AIGenerator.self_client out.1.2) = [] ++ [(request, response)]
    ∧ messages request
      = [{| role := "user"; message_content := Text "What is a variable?" |}]
    ∧ response
      = (respond {| script := []; fallback := text_answer |} request).1
    ∧ out.1.1 = AIGenerator.first_block_text response
    ∧ out.2 = None
    ∧ (∀ text rest, content response = TextBlock text :: rest → out.1.1 = Return text)
    ∧ (content response = [] →
         out.1.1 = Raise (Exc "IndexError" "list index out of range"))
    ∧ (∀ id tool_name input rest,
         content response = ToolUseBlock id tool_name input :: rest →
         out.1.1 = Raise (Exc "AttributeError"
                            "'ToolUseBlock' object has no attribute 'text'")).
Proof.
  apply (generate_response_single_request
           (AIGenerator.__init__
              {| service := {| script := []; fallback := text_answer |}; calls := [] |}
              "claude-sonnet-4-20250514")
           "What is a variable?" None None (None : option (ToolManager.t ScriptedTool))).
  by left.
Defined.

Lemma handle_tool_execution_no_calls_witness :
  ∃ request response later,
    calls (AIGenerator.self_client
             (AIGenerator._handle_tool_execution
                (AIGenerator.__init__
                   {| service := {| script := []; fallback := text_answer |}; calls := [] |}
                   "claude-sonnet-4-20250514")
                tool_use_without_call sample_params mixed_registry).1.2)
      = [] ++ (request, response) :: later
    ∧ messages request
      = messages sample_params
          ++ [{| role := "assistant";
                 message_content := Blocks (content tool_use_without_call) |}].
Proof.
  apply (handle_tool_execution_no_calls
           (AIGenerator.__init__
              {| service := {| script := []; fallback := text_answer |}; calls := [] |}
              "claude-sonnet-4-20250514")
           tool_use_without_call sample_params mixed_registry).
  reflexivity.
Defined.
